(** * ATT Transport bus booking: seat allocation, availability, payment webhook

    A shallow embedding of the parts of the repository that decide seat
    allocation and payment reconciliation:

    - the SQL migration creating the tables, the partial unique index
      [idx_unique_active_booking] and the RPC [get_seat_status];
    - the public booking form ([onSubmit]) and the seat map ([SeatButton]);
    - the admin bookings page (status buttons and [updateBookingStatus]);
    - the Hubtel webhook edge function, with and without the confirmation SMS;
    - the rows and colours of the seat map, the admin pages for seats, pickup
      points and destinations, the search, status filter and CSV export of
      the admin bookings page;
    - the Hubtel create-payment edge function and the seed block of the
      migration.

    SQL statements are modelled as atomic functions on a database value; a run
    of the system is a sequence of such statements, in any interleaving. The
    value of [now()] is an argument of each statement. The storage layer is
    taken as reachable, so that the only errors are those the statements
    themselves raise.

    Row level security is modelled where the caller can be the public site
    without a session: the INSERT ... RETURNING of the booking form and the
    query of [get_seat_status] take the role of their caller. The admin pages
    sit behind the sign-in and the edge functions use the service key; their
    statements are those of a role the policies entitle. *)

From Stdlib Require Import ZArith List String Ascii Bool Lia.
From Stdlib Require Import Sorted Permutation DecimalString.
Import ListNotations.

Set Warnings "-register-all".

Local Open Scope Z_scope.
Local Open Scope list_scope.
Local Open Scope string_scope.

(** ** Tables *)

Module Schema.

(** A value of a column of type UUID, in the database's own spelling. *)
Definition uuid := string.

(** Rows of [pickup_points], [referrals] and [buses], restricted to the
    columns read by the modelled code. *)
Record named := mkNamed { id : uuid; name : string; active : bool }.

Module Destination.
(** [price] is NUMERIC(10,2), kept in hundredths. *)
Record row := mk { id : uuid; name : string; price : Z; active : bool }.
End Destination.

Module Seat.
Record row := mk { id : uuid; bus_id : uuid; seat_number : Z; active : bool }.
End Seat.

Module Booking.
(** [amount] is NUMERIC(10,2), kept in hundredths; the timestamps are
    points on a clock. *)
Record row := mk {
  id : uuid;
  full_name : string;
  passenger_class : string;
  email : string;
  phone : string;
  emergency_name : string;
  emergency_phone : string;
  pickup_point_id : uuid;
  destination_id : uuid;
  bus_id : uuid;
  seat_number : Z;
  referral_id : option uuid;
  amount : Z;
  status : string;
  payment_reference : option string;
  receipt_url : option string;
  created_at : Z;
  updated_at : Z
}.
End Booking.

Record db := mkDb {
  pickup_points : list named;
  destinations : list Destination.row;
  referrals : list named;
  buses : list named;
  seats : list Seat.row;
  bookings : list Booking.row
}.

Definition with_bookings (d : db) (rows : list Booking.row) : db :=
  {| pickup_points := pickup_points d; destinations := destinations d;
     referrals := referrals d; buses := buses d; seats := seats d;
     bookings := rows |}.

(** The database right after the migration, before its seed data. *)
Definition empty_db : db := mkDb [] [] [] [] [] [].

Inductive pg_error :=
| unique_violation (constraint : string)
| foreign_key_violation (constraint : string)
| invalid_text_representation
| insufficient_privilege.

(** *** Row level security

    The roles a request reaches the database as: the public site without a
    session, a signed-in session, and the service key, which bypasses row
    level security. Every table has row level security enabled; the
    reference tables and [seats] carry a SELECT policy for the public. *)
Inductive role := anon | authenticated | service_role.

Module Policy.

(** [CREATE POLICY "Anyone can create booking" ON bookings FOR INSERT
     WITH CHECK (true)] *)
Definition bookings_insert (caller : role) : bool := true.

(** [CREATE POLICY "Authenticated can read bookings" ON bookings FOR SELECT
     TO authenticated USING (true)] *)
Definition bookings_select (caller : role) : bool :=
  match caller with
  | anon => false
  | authenticated => true
  | service_role => true
  end.

(** An INSERT that reads the new row back (RETURNING) needs the policies of
    both commands. *)
Definition bookings_insert_returning (caller : role) : bool :=
  bookings_insert caller && bookings_select caller.

End Policy.

(** *** The partial unique index

    [CREATE UNIQUE INDEX idx_unique_active_booking ON bookings (bus_id, seat_number)
     WHERE status IN ('pending','paid')] *)

Definition idx_predicate (b : Booking.row) : bool :=
  (Booking.status b =? "pending") || (Booking.status b =? "paid").

Definition same_key (a b : Booking.row) : bool :=
  (Booking.bus_id a =? Booking.bus_id b) && (Booking.seat_number a =? Booking.seat_number b)%Z.

(** [idx_unique_active_booking new others]: the index accepts an entry for
    [new] next to the rows [others]. *)
Definition idx_unique_active_booking (new : Booking.row) (others : list Booking.row) : bool :=
  negb (idx_predicate new)
  || forallb (fun o => negb (idx_predicate o && same_key new o)) others.

Definition has_id {A} (key : A -> uuid) (i : uuid) (rows : list A) : bool :=
  existsb (fun r => key r =? i) rows.

(** *** INSERT INTO bookings

    The primary key and the partial index are checked when the row is
    stored, the foreign keys after it. *)
Definition insert_booking (r : Booking.row) (d : db) : pg_error + db :=
  if has_id Booking.id (Booking.id r) (bookings d) then
    inl (unique_violation "bookings_pkey")
  else if negb (idx_unique_active_booking r (bookings d)) then
    inl (unique_violation "idx_unique_active_booking")
  else if negb (has_id id (Booking.pickup_point_id r) (pickup_points d)) then
    inl (foreign_key_violation "bookings_pickup_point_id_fkey")
  else if negb (has_id Destination.id (Booking.destination_id r) (destinations d)) then
    inl (foreign_key_violation "bookings_destination_id_fkey")
  else if negb (has_id id (Booking.bus_id r) (buses d)) then
    inl (foreign_key_violation "bookings_bus_id_fkey")
  else if match Booking.referral_id r with
          | Some f => negb (has_id id f (referrals d))
          | None => false
          end then
    inl (foreign_key_violation "bookings_referral_id_fkey")
  else inr (with_bookings d (bookings d ++ [r])%list).

(** [INSERT INTO bookings ... RETURNING ...] issued as [caller]: the policies
    are applied to the new row before it is stored and before any index is
    consulted; a row they refuse raises error 42501. *)
Definition insert_booking_returning (caller : role) (r : Booking.row) (d : db)
  : pg_error + db :=
  if Policy.bookings_insert_returning caller then insert_booking r d
  else inl insufficient_privilege.

(** *** UPDATE bookings SET ... WHERE id = i

    The columns the code ever assigns. [Some v] puts the column in the SET
    list; for the nullable columns the inner option is SQL NULL. *)
Record patch := mkPatch {
  set_status : option string;
  set_payment_reference : option (option string);
  set_receipt_url : option (option string)
}.

Definition apply_patch (p : patch) (r : Booking.row) : Booking.row :=
  {| Booking.id := Booking.id r;
     Booking.full_name := Booking.full_name r;
     Booking.passenger_class := Booking.passenger_class r;
     Booking.email := Booking.email r;
     Booking.phone := Booking.phone r;
     Booking.emergency_name := Booking.emergency_name r;
     Booking.emergency_phone := Booking.emergency_phone r;
     Booking.pickup_point_id := Booking.pickup_point_id r;
     Booking.destination_id := Booking.destination_id r;
     Booking.bus_id := Booking.bus_id r;
     Booking.seat_number := Booking.seat_number r;
     Booking.referral_id := Booking.referral_id r;
     Booking.amount := Booking.amount r;
     Booking.status :=
       match set_status p with Some s => s | None => Booking.status r end;
     Booking.payment_reference :=
       match set_payment_reference p with Some v => v | None => Booking.payment_reference r end;
     Booking.receipt_url :=
       match set_receipt_url p with Some v => v | None => Booking.receipt_url r end;
     Booking.created_at := Booking.created_at r;
     Booking.updated_at := Booking.updated_at r |}.

(** The trigger function of [trg_bookings_updated], run before every UPDATE
    of a row: [NEW.updated_at = now(); RETURN NEW]. *)
Definition update_updated_at_column (now : Z) (NEW : Booking.row) : Booking.row :=
  {| Booking.id := Booking.id NEW;
     Booking.full_name := Booking.full_name NEW;
     Booking.passenger_class := Booking.passenger_class NEW;
     Booking.email := Booking.email NEW;
     Booking.phone := Booking.phone NEW;
     Booking.emergency_name := Booking.emergency_name NEW;
     Booking.emergency_phone := Booking.emergency_phone NEW;
     Booking.pickup_point_id := Booking.pickup_point_id NEW;
     Booking.destination_id := Booking.destination_id NEW;
     Booking.bus_id := Booking.bus_id NEW;
     Booking.seat_number := Booking.seat_number NEW;
     Booking.referral_id := Booking.referral_id NEW;
     Booking.amount := Booking.amount NEW;
     Booking.status := Booking.status NEW;
     Booking.payment_reference := Booking.payment_reference NEW;
     Booking.receipt_url := Booking.receipt_url NEW;
     Booking.created_at := Booking.created_at NEW;
     Booking.updated_at := now |}.

(** The version of a row that an UPDATE at time [now] stores. *)
Definition new_row (now : Z) (p : patch) (r : Booking.row) : Booking.row :=
  update_updated_at_column now (apply_patch p r).

Definition hit (i : uuid) (r : Booking.row) : bool := Booking.id r =? i.

(** A new index entry is made, and checked, only for a row whose indexed
    value changes; of the indexed columns a patch can change [status] only. *)
Definition index_untouched (old new : Booking.row) : bool :=
  Booking.status old =? Booking.status new.

(** The statement, run at time [now], returns the new state and the updated
    rows (RETURNING). *)
Definition update_bookings (now : Z) (p : patch) (i : uuid) (d : db)
  : pg_error + (db * list Booking.row) :=
  let rest := filter (fun r => negb (hit i r)) (bookings d) in
  if forallb (fun r => negb (hit i r)
                       || index_untouched r (new_row now p r)
                       || idx_unique_active_booking (new_row now p r) rest)
             (bookings d)
  then inr (with_bookings d
              (map (fun r => if hit i r then new_row now p r else r) (bookings d)),
            map (new_row now p) (filter (hit i) (bookings d)))
  else inl (unique_violation "idx_unique_active_booking").

(** *** RPC get_seat_status *)

Module SeatStatus.
Record row := mk { seat_number : Z; is_active : bool; status : string }.
End SeatStatus.

(** [ORDER BY s.seat_number]: ascending, by insertion. *)
Fixpoint insert_by_seat_number (x : SeatStatus.row) (l : list SeatStatus.row)
  : list SeatStatus.row :=
  match l with
  | [] => [x]
  | y :: l' =>
      if (SeatStatus.seat_number x <=? SeatStatus.seat_number y)%Z
      then x :: l
      else y :: insert_by_seat_number x l'
  end.

Fixpoint order_by_seat_number (l : list SeatStatus.row) : list SeatStatus.row :=
  match l with
  | [] => []
  | x :: l' => insert_by_seat_number x (order_by_seat_number l')
  end.

(** The database as row level security lets [caller] read it: all of it but,
    for a caller without SELECT policy on [bookings], the bookings. *)
Definition as_seen_by (caller : role) (d : db) : db :=
  if Policy.bookings_select caller then d else with_bookings d [].

(** The EXISTS subquery of the CASE expression. *)
Definition exists_active_booking (s : Seat.row) (d : db) : bool :=
  existsb (fun b => (Booking.bus_id b =? Seat.bus_id s)
                    && (Booking.seat_number b =? Seat.seat_number s)%Z
                    && idx_predicate b)
          (bookings d).

Definition seat_status_of (d : db) (s : Seat.row) : SeatStatus.row :=
  {| SeatStatus.seat_number := Seat.seat_number s;
     SeatStatus.is_active := Seat.active s;
     SeatStatus.status :=
       if exists_active_booking s d then "taken" else "available" |}.

(** The function is declared without SECURITY DEFINER: its query runs with
    the rights of its caller. *)
Definition get_seat_status (caller : role) (_bus_id : uuid) (d : db)
  : list SeatStatus.row :=
  order_by_seat_number
    (map (seat_status_of (as_seen_by caller d))
         (filter (fun s => Seat.bus_id s =? _bus_id) (seats d))).

End Schema.

(** ** Runs of the booking ledger *)

Module Ledger.
Import Schema.

(** A row that counts for seat [N] of bus [B]: status pending or paid. *)
Definition occupies (B : uuid) (N : Z) (b : Booking.row) : bool :=
  (Booking.bus_id b =? B) && (Booking.seat_number b =? N)%Z && idx_predicate b.

Definition active_count (B : uuid) (N : Z) (rows : list Booking.row) : nat :=
  List.length (filter (occupies B N) rows).

Definition with_seats (d : db) (rows : list Seat.row) : db :=
  {| pickup_points := pickup_points d; destinations := destinations d;
     referrals := referrals d; buses := buses d; seats := rows;
     bookings := bookings d |}.

(** One statement: an INSERT into [bookings], an UPDATE of [bookings] by id,
    or any statement on the other tables. *)
Inductive step : db -> db -> Prop :=
| step_insert r d d' :
    insert_booking r d = inr d' -> step d d'
| step_update now p i d d' rows :
    update_bookings now p i d = inr (d', rows) -> step d d'
| step_other d d' :
    bookings d' = bookings d -> step d d'.

(** The states a run can reach from the freshly migrated database, the
    statements of concurrent requests taken in any order. *)
Inductive reachable : db -> Prop :=
| reach_empty : reachable empty_db
| reach_step d d' : reachable d -> step d d' -> reachable d'.

(** Primary key and partial unique index, as properties of the table. *)
Definition well_formed (d : db) : Prop :=
  NoDup (map Booking.id (bookings d))
  /\ forall B N, (active_count B N (bookings d) <= 1)%nat.

(** The booking is neither pending nor paid, and a pending or paid booking
    holds its seat. *)
Definition held_by_other (d : db) (b : Booking.row) : bool :=
  negb (idx_predicate b)
  && (0 <? active_count (Booking.bus_id b) (Booking.seat_number b) (bookings d))%nat.

(** A row with its [updated_at] put aside. *)
Definition but_updated_at (r : Booking.row) : Booking.row :=
  update_updated_at_column 0 r.

(** Ascending order of seat number. *)
Definition by_seat_number (x y : SeatStatus.row) : Prop :=
  (SeatStatus.seat_number x <= SeatStatus.seat_number y)%Z.

End Ledger.

Import Schema.

(** ** Seat map: the seat buttons of the public form *)

Module SeatMap.

(** [const disabled = !seat.is_active || seat.status === "taken"] *)
Definition disabled (seat : SeatStatus.row) : bool :=
  negb (SeatStatus.is_active seat) || (SeatStatus.status seat =? "taken").

(** A click reaches [onSelect] only through an enabled button. *)
Definition SeatButton (seat : SeatStatus.row) : option Z :=
  if disabled seat then None else Some (SeatStatus.seat_number seat).

End SeatMap.

(** ** Booking form *)

Module BookingForm.

(** The fields of the form, as accepted by [schema]. *)
Record values := mkValues {
  full_name : string;
  passenger_class : string;
  email : string;
  phone : string;
  emergency_name : string;
  emergency_phone : string;
  pickup_point_id : uuid;
  destination_id : uuid;
  referral_id : option uuid;
  bus_id : uuid;
  seat_number : Z
}.

(** The row stored for [{ ...values, amount }]: [id] is drawn by the
    database ([gen_random_uuid()]), [status] and the timestamps take their
    defaults. *)
Definition payload (fresh : uuid) (now : Z) (v : values) (amount : Z) : Booking.row :=
  {| Booking.id := fresh;
     Booking.full_name := full_name v;
     Booking.passenger_class := passenger_class v;
     Booking.email := email v;
     Booking.phone := phone v;
     Booking.emergency_name := emergency_name v;
     Booking.emergency_phone := emergency_phone v;
     Booking.pickup_point_id := pickup_point_id v;
     Booking.destination_id := destination_id v;
     Booking.bus_id := bus_id v;
     Booking.seat_number := seat_number v;
     Booking.referral_id := referral_id v;
     Booking.amount := amount;
     Booking.status := "pending";
     Booking.payment_reference := None;
     Booking.receipt_url := None;
     Booking.created_at := now;
     Booking.updated_at := now |}.

Inductive toast :=
| Booking_created
| Booking_failed (e : pg_error).

(** [.insert(payload).select("id, payment_reference").maybeSingle()], sent
    with the session of the page, [caller]. *)
Definition onSubmit (caller : role) (fresh : uuid) (now : Z) (v : values) (amount : Z)
    (d : db) : toast * db :=
  match insert_booking_returning caller (payload fresh now v amount) d with
  | inr d' => (Booking_created, d')
  | inl e => (Booking_failed e, d)
  end.

(** The references of a form exist in their tables. *)
Definition references_exist (v : values) (d : db) : Prop :=
  has_id id (pickup_point_id v) (pickup_points d) = true
  /\ has_id Destination.id (destination_id v) (destinations d) = true
  /\ has_id id (bus_id v) (buses d) = true
  /\ match referral_id v with
     | Some f => has_id id f (referrals d) = true
     | None => True
     end.

End BookingForm.

(** ** Admin bookings page *)

Module AdminBookings.



Inductive toast := Success | Error.

Definition updateBookingStatus (now : Z) (bookingId : uuid) (newStatus : string) (d : db)
  : toast * db :=
  match update_bookings now (mkPatch (Some newStatus) None None) bookingId d with
  | inr (d', _) => (Success, d')
  | inl _ => (Error, d)
  end.

End AdminBookings.

(** ** JavaScript values of a parsed JSON body *)

Module Js.

(** Numbers are restricted to integers that JavaScript prints in full. *)
Inductive json :=
| JNull
| JBool (b : bool)
| JNum (n : Z)
| JStr (s : string)
| JArr (items : list json)
| JObj (fields : list (string * json)).

(** [None] is [undefined]. *)
Definition value := option json.

Definition truthy (v : value) : bool :=
  match v with
  | None => false
  | Some JNull => false
  | Some (JBool b) => b
  | Some (JNum n) => negb (n =? 0)%Z
  | Some (JStr s) => negb (s =? "")
  | Some (JArr _) => true
  | Some (JObj _) => true
  end.

Inductive exn := TypeError.

Fixpoint lookup (k : string) (fields : list (string * json)) : value :=
  match fields with
  | [] => None
  | (k', v) :: rest => if k' =? k then Some v else lookup k rest
  end.

(** [o.k], for the keys the handlers read (none names a built-in property):
    reading a property of [null] throws, a primitive or an array has none. *)
Definition prop (o : json) (k : string) : exn + value :=
  match o with
  | JNull => inl TypeError
  | JObj fields => inr (lookup k fields)
  | _ => inr None
  end.

Definition bind {E A B} (m : E + A) (f : A -> E + B) : E + B :=
  match m with
  | inl e => inl e
  | inr a => f a
  end.

Notation "x <- m ;; k" := (bind m (fun x => k))
  (at level 61, m at next level, right associativity).

(** [o.k || o.k1 || ... || o.kn] *)
Fixpoint or_chain (o : json) (k : string) (ks : list string) : exn + value :=
  v <- prop o k ;;
  match ks with
  | [] => inr v
  | k' :: ks' => if truthy v then inr v else or_chain o k' ks'
  end.

(** [a ?? b] *)
Definition nullish (a : value) (b : json) : json :=
  match a with
  | None => b
  | Some JNull => b
  | Some v => v
  end.

Definition decimal (n : Z) : string := NilZero.string_of_int (Z.to_int n).

(** [String(v)], as a template literal builds it. *)
Fixpoint to_String (v : json) : string :=
  match v with
  | JNull => "null"
  | JBool true => "true"
  | JBool false => "false"
  | JNum n => decimal n
  | JStr s => s
  | JArr items =>
      String.concat ","
        (map (fun x => match x with JNull => "" | _ => to_String x end) items)
  | JObj _ => "[object Object]"
  end.

End Js.

(** ** Hubtel webhook edge function *)

Module Webhook.
Import Js.

Record request := mkRequest { method : string; body : option json }.

Inductive fault :=
| storage (e : pg_error)
| thrown (e : exn).

(** The JSON bodies the function answers with: [{ ok: true }] and
    [{ error: message }], the latter kept as the error it reports. *)
Inductive reply :=
| ok_true
| error_message (f : fault).

(** [http_body] is [None] for [new Response(null, ...)]. *)
Record Response := mkResponse { http_status : Z; http_body : option reply }.

Inductive level := warn | error | log.

Inductive effect :=
| console (l : level) (message : string)
| sms_post (client_id client_secret From To Content : string).

(** What a run of the handler leaves behind: the response, the database, the
    console, and the tasks handed to [EdgeRuntime.waitUntil]. *)
Record outcome := mkOutcome {
  response : Response;
  database : db;
  effects : list effect;
  waitUntil : list (uuid * Booking.row)
}.

Record normalized := mkNormalized {
  status : value;
  reference : value;
  transactionId : value;
  receiptUrl : value
}.

(** "Normalize keys" *)
Definition normalize (payload : json) : exn + normalized :=
  status <- or_chain payload "status" ["Status"; "transactionStatus"; "TransactionStatus"] ;;
  reference <- or_chain payload "clientReference" ["ClientReference"; "checkoutId"; "CheckoutId"] ;;
  transactionId <- or_chain payload "transactionId" ["TransactionId"] ;;
  receiptUrl <- or_chain payload "receiptUrl" ["ReceiptUrl"; "receiptURL"] ;;
  inr (mkNormalized status reference transactionId receiptUrl).

Definition paidStates : list string :=
  ["Success"; "Successful"; "Completed"; "PAID"; "Paid"].

(** [typeof status === "string" && paidStates.includes(status)] *)
Definition isPaid (status : value) : bool :=
  match status with
  | Some (JStr s) => existsb (String.eqb s) paidStates
  | _ => false
  end.

Definition respond (code : Z) (r : reply) : Response := mkResponse code (Some r).

(** [let payload = {}; try { payload = await req.json(); } catch (_) {}]:
    a body that is not JSON leaves the empty object. *)
Definition parse (req : request) : json :=
  match body req with
  | Some j => j
  | None => JObj []
  end.

Definition is_post (e : effect) : bool :=
  match e with
  | sms_post _ _ _ _ _ => true
  | console _ _ => false
  end.

Section Platform.

(** The input function of the column type UUID: the stored spelling of a text
    that denotes a UUID, [None] (error 22P02) for any other text. *)
Variable uuid_in : string -> option uuid.

(** The JSON text of an array or object. *)
Variable JSON_stringify : json -> string.

(** [now()] when the request is served. *)
Variable now : Z.

(** The value a TEXT column takes from a JSON value of the request body. *)
Definition column_text (v : json) : option string :=
  match v with
  | JNull => None
  | JBool true => Some "true"
  | JBool false => Some "false"
  | JNum n => Some (decimal n)
  | JStr s => Some s
  | JArr _ => Some (JSON_stringify v)
  | JObj _ => Some (JSON_stringify v)
  end.

Definition updates (n : normalized) (reference : json) : patch :=
  {| set_payment_reference := Some (column_text (nullish (transactionId n) reference));
     set_status := if isPaid (status n) then Some "paid" else None;
     set_receipt_url :=
       match receiptUrl n with
       | Some u => if truthy (Some u) then Some (column_text u) else None
       | None => None
       end |}.

(** [.update(updates).eq("id", reference).select(...).maybeSingle()]: the filter
    is sent as text; [id] being the primary key, at most one row comes back. *)
Definition update_by_reference (p : patch) (reference : json) (d : db)
  : pg_error + (db * option Booking.row) :=
  match uuid_in (to_String reference) with
  | None => inl invalid_text_representation
  | Some i =>
      match update_bookings now p i d with
      | inl e => inl e
      | inr (d', rows) => inr (d', hd_error rows)
      end
  end.

(** The body of the outer [try]. [sms] tells the two deployed texts of the
    function apart: the later one schedules the confirmation SMS. *)
Definition try_block (sms : bool) (req : request) (d : db) : exn + outcome :=
  n <- normalize (parse req) ;;
  match reference n with
  | Some reference =>
      if negb (truthy (Some reference)) then
        inr (mkOutcome (respond 200 ok_true) d
               [console warn "Hubtel webhook called without reference"] [])
      else
        match update_by_reference (updates n reference) reference d with
        | inl e =>
            inr (mkOutcome (respond 500 (error_message (storage e))) d
                   [console error "Failed updating booking from webhook"] [])
        | inr (d', updated) =>
            inr (mkOutcome (respond 200 ok_true) d' []
                   (match updated with
                    | Some b => if sms && isPaid (status n) then [(Booking.id b, b)] else []
                    | None => []
                    end))
        end
  | None =>
      inr (mkOutcome (respond 200 ok_true) d
             [console warn "Hubtel webhook called without reference"] [])
  end.

Definition serve (sms : bool) (req : request) (d : db) : outcome :=
  if method req =? "OPTIONS" then mkOutcome (mkResponse 200 None) d [] []
  else
    match try_block sms req d with
    | inr o => o
    | inl e =>
        mkOutcome (respond 500 (error_message (thrown e))) d
          [console error "hubtel-webhook exception"] []
    end.

(** [supabase/functions/hubtel-webhook/index.ts] *)
Definition hubtel_webhook : request -> db -> outcome := serve false.

(** The handler that also schedules [sendPaidConfirmationSms]. *)
Definition hubtel_webhook_sms : request -> db -> outcome := serve true.

End Platform.

(** *** Confirmation SMS *)

Fixpoint keep (f : ascii -> bool) (s : string) : string :=
  match s with
  | EmptyString => EmptyString
  | String c r => if f c then String c (keep f r) else keep f r
  end.

Definition is_digit (c : ascii) : bool :=
  let n := nat_of_ascii c in (48 <=? n)%nat && (n <=? 57)%nat.

Definition tail (s : string) : string :=
  match s with
  | EmptyString => EmptyString
  | String _ r => r
  end.

Definition normalizeGhanaMsisdn (input : string) : option string :=
  if input =? "" then None
  else
    let digits := keep (fun c => is_digit c || (c =? "+")%char) input in
    if prefix "+" digits then Some (tail digits)
    else if prefix "233" digits then Some digits
    else if prefix "0" digits && (10 <=? String.length digits)%nat
         then Some ("233" ++ tail digits)
    else Some digits.

Definition two_digits (n : Z) : string :=
  if (n <? 10)%Z then "0" ++ decimal n else decimal n.

(** [Number(amount).toFixed(2)] of an amount given in hundredths. *)
Definition toFixed2 (hundredths : Z) : string :=
  let a := Z.abs hundredths in
  (if (hundredths <? 0)%Z then "-" else "")
  ++ decimal (a / 100) ++ "." ++ two_digits (a mod 100).

Definition nonempty (s : string) : bool := negb (s =? "").

Definition name_of {A} (key : A -> uuid) (nm : A -> string) (i : uuid) (rows : list A)
  : string :=
  match find (fun r => key r =? i) rows with
  | Some r => nm r
  | None => ""
  end.

(** The text of the SMS; [amount] arrives as a JSON number. *)
Definition sms_text (d : db) (bookingId : string) (b : Booking.row) : string :=
  let destName := name_of Destination.id Destination.name (Booking.destination_id b) (destinations d) in
  let pickName := name_of id name (Booking.pickup_point_id b) (pickup_points d) in
  let ref := substring 0 8 bookingId in
  let seat := if (Booking.seat_number b =? 0)%Z then ""
              else "Seat " ++ decimal (Booking.seat_number b) in
  let amount := "GHS " ++ toFixed2 (Booking.amount b) in
  let route := String.concat " -> " (filter nonempty [pickName; destName]) in
  let parts :=
    filter nonempty
      [ "ATT Transport: Payment confirmed.";
        if nonempty route then route ++ "." else "";
        if nonempty seat then seat ++ "." else "";
        if nonempty amount then amount ++ "." else "";
        "Ref: " ++ ref ++ ".";
        "Show SMS at boarding." ] in
  substring 0 300 (String.concat " " parts).

Section Outside.

(** [Deno.env.get] *)
Variable env : string -> option string.

(** The SMS gateway: [None] when [fetch] throws, else [res.ok] and the parsed
    body ([{}] when it is not JSON). *)
Variable gateway : effect -> option (bool * json).

Definition getenv2 (k1 k2 fallback : string) : string :=
  match env k1 with
  | Some v => v
  | None => match env k2 with Some v => v | None => fallback end
  end.

Definition strict_ne_0 (v : value) : bool :=
  match v with
  | Some (JNum n) => negb (n =? 0)%Z
  | _ => true
  end.

Definition optional_prop (o : json) (k : string) : value :=
  match prop o k with
  | inr v => v
  | inl _ => None
  end.

(** [!res.ok || (data?.status && data.status !== 0 && data.Status !== 0)] *)
Definition send_error (ok : bool) (data : json) : bool :=
  negb ok
  || (truthy (optional_prop data "status")
      && strict_ne_0 (optional_prop data "status")
      && strict_ne_0 (optional_prop data "Status")).

Definition sendSmsViaHubtel (to content : string) : list effect :=
  let id := getenv2 "HUBTEL_SMS_CLIENT_ID" "HUBTEL_CLIENT_ID" "" in
  let secret := getenv2 "HUBTEL_SMS_CLIENT_SECRET" "HUBTEL_CLIENT_SECRET" "" in
  let from := match env "HUBTEL_SMS_FROM" with Some v => v | None => "ATTTransport" end in
  if (id =? "") || (secret =? "") then [console warn "Hubtel SMS credentials missing"]
  else
    let post := sms_post id secret from to content in
    post :: match gateway post with
            | None => [console error "Hubtel SMS exception"]
            | Some (ok, data) =>
                if send_error ok data then [console error "Hubtel SMS send error"]
                else [console log "Hubtel SMS sent"]
            end.

Definition sendPaidConfirmationSms (d : db) (bookingId : uuid) (booking : option Booking.row)
  : list effect :=
  let b := match booking with
           | Some b => Some b
           | None => find (hit bookingId) (bookings d)
           end in
  match b with
  | None => []
  | Some b =>
      if Booking.phone b =? "" then []
      else
        match normalizeGhanaMsisdn (Booking.phone b) with
        | None => []
        | Some to =>
            if to =? "" then []
            else sendSmsViaHubtel to (sms_text d bookingId b)
        end
  end.

(** What the scheduled tasks of a run do once they execute. *)
Definition background (o : outcome) : list effect :=
  flat_map (fun t => sendPaidConfirmationSms (database o) (fst t) (Some (snd t)))
           (waitUntil o).

End Outside.

End Webhook.

(** ** Sample data *)

Module Sample.
Import Js Webhook.

Definition is_hex (c : ascii) : bool :=
  let n := nat_of_ascii c in
  ((48 <=? n)%nat && (n <=? 57)%nat) || ((97 <=? n)%nat && (n <=? 102)%nat).

Fixpoint canonical_from (pos : nat) (s : string) : bool :=
  match s with
  | EmptyString => (pos =? 36)%nat
  | String c r =>
      (if (pos =? 8)%nat || (pos =? 13)%nat || (pos =? 18)%nat || (pos =? 23)%nat
       then (c =? "-")%char else is_hex c)
      && canonical_from (S pos) r
  end.

(** An input function for UUID that accepts the canonical lower-case
    spelling only; it agrees with the database on such texts and on texts
    that spell no UUID at all, which is all the examples below use. *)
Definition uuid_canonical (s : string) : option uuid :=
  if canonical_from 0 s then Some s else None.

(** No example sends an array or object where a text is stored. *)
Definition stringify_unused (v : json) : string := "".

Definition busA : uuid := "0b5a0000-0000-4000-8000-00000000000a".
Definition pickup1 : uuid := "0c1c0000-0000-4000-8000-000000000001".
Definition dest1 : uuid := "0de50000-0000-4000-8000-000000000001".
Definition booking1 : uuid := "b0010000-0000-4000-8000-000000000001".
Definition booking2 : uuid := "b0020000-0000-4000-8000-000000000002".
Definition absent : uuid := "ffffffff-ffff-4fff-8fff-ffffffffffff".

Definition seat_row (n : Z) (a : bool) : Seat.row :=
  Seat.mk ("5ea70000-0000-4000-8000-00000000000" ++ decimal n) busA n a.

Definition ama (seat : Z) : BookingForm.values :=
  BookingForm.mkValues "Ama Mensah" "200" "ama@example.com" "0241234567"
    "Kofi Mensah" "0207654321" pickup1 dest1 None busA seat.

Definition kojo (seat : Z) : BookingForm.values :=
  BookingForm.mkValues "Kojo Asante" "Non-Student" "kojo@example.com" "0551112223"
    "Esi Asante" "0209998887" pickup1 dest1 None busA seat.

(** Bus A with seats 1 and 2 active and seat 3 inactive, no booking. *)
Definition db0 : db :=
  {| pickup_points := [mkNamed pickup1 "Main Campus" true];
     destinations := [Destination.mk dest1 "Kumasi" 8000 true];
     referrals := [];
     buses := [mkNamed busA "ATT-01" true];
     seats := [seat_row 3 false; seat_row 1 true; seat_row 2 true];
     bookings := [] |}.

(** The row after the operator set its status at time [now]. *)
Definition with_status (now : Z) (s : string) (b : Booking.row) : Booking.row :=
  new_row now (mkPatch (Some s) None None) b.

(** [db0] with one paid booking on seat 1. *)
Definition db_paid1 : db :=
  with_bookings db0 [with_status 200 "paid" (BookingForm.payload booking1 100 (ama 1) 8000)].

(** Seat 2 of bus A: a cancelled booking, and a later pending one. *)
Definition db_retaken : db :=
  with_bookings db0
    [ with_status 200 "cancelled" (BookingForm.payload booking1 100 (ama 2) 8000);
      BookingForm.payload booking2 300 (kojo 2) 8000 ].

(** [db0] with one cancelled booking on seat 2. *)
Definition db_cancelled : db :=
  with_bookings db0
    [with_status 200 "cancelled" (BookingForm.payload booking1 100 (ama 2) 8000)].

Definition post (fields : list (string * json)) : request :=
  mkRequest "POST" (Some (JObj fields)).

Definition paid_callback (reference : string) : request :=
  post [("Status", JStr "Success"); ("ClientReference", JStr reference);
        ("TransactionId", JStr "HUB-778")].

Definition hubtel_env (k : string) : option string :=
  if k =? "HUBTEL_CLIENT_ID" then Some "client"
  else if k =? "HUBTEL_CLIENT_SECRET" then Some "secret"
  else None.

Definition gateway_up (_ : effect) : option (bool * json) := Some (true, JObj []).
Definition gateway_down (_ : effect) : option (bool * json) := None.


(** [db0] with one pending booking on seat 1. *)
Definition db_pending : db :=
  with_bookings db0 [BookingForm.payload booking1 100 (ama 1) 8000].

(** A passenger whose phone entry holds no digit. *)
Definition esi : BookingForm.values :=
  BookingForm.mkValues "Esi Owusu" "100" "esi@example.com" "no phone"
    "Yaw Owusu" "0201112223" pickup1 dest1 None busA 2.

Definition db_pending_esi : db :=
  with_bookings db0 [BookingForm.payload booking2 100 esi 8000].

End Sample.

(** ** Texts *)

Module Text.

(** Every character of [s] satisfies [f]. *)
Fixpoint only (f : ascii -> bool) (s : string) : bool :=
  match s with
  | EmptyString => true
  | String c r => f c && only f r
  end.

End Text.

(** ** What the webhook reads and writes *)

Module WebhookScope.

(** The character class [[\d+]] of [normalizeGhanaMsisdn]. *)
Definition digit_or_plus (c : ascii) : bool :=
  Webhook.is_digit c || (c =? "+")%char.

(** The property names [Normalize keys] reads from the payload. *)
Definition read_keys : list string :=
  [ "status"; "Status"; "transactionStatus"; "TransactionStatus";
    "clientReference"; "ClientReference"; "checkoutId"; "CheckoutId";
    "transactionId"; "TransactionId"; "receiptUrl"; "ReceiptUrl"; "receiptURL" ].

(** The columns of [bookings] that are neither in the SET list of the
    webhook's UPDATE nor assigned by the trigger. *)
Definition fixed_columns (r : Booking.row) :=
  (Booking.id r, Booking.full_name r, Booking.passenger_class r, Booking.email r,
   Booking.phone r, Booking.emergency_name r, Booking.emergency_phone r,
   Booking.pickup_point_id r, Booking.destination_id r, Booking.bus_id r,
   Booking.seat_number r, Booking.referral_id r, Booking.amount r,
   Booking.created_at r).

End WebhookScope.

(** ** The seats of a bus *)

Module SeatKey.

(** [UNIQUE (bus_id, seat_number)] on [seats], as a property of the table. *)
Definition seats_bus_id_seat_number_key (d : db) : Prop :=
  NoDup (map (fun s => (Seat.bus_id s, Seat.seat_number s)) (seats d)).

(** Strictly ascending order of seat number. *)
Definition strictly_by_seat_number (x y : SeatStatus.row) : Prop :=
  (SeatStatus.seat_number x < SeatStatus.seat_number y)%Z.

End SeatKey.

(** ** Seat map: rows of the bus and looks of a seat *)

Module SeatLayout.

(** [xs.slice(i, j)], for [i <= j]. *)
Definition slice {A} (i j : nat) (xs : list A) : list A :=
  firstn (j - i) (skipn i xs).

(** [for (let i = 0; i < sorted.length; i += 4) rows.push(sorted.slice(i, i + 4))],
    entered at index [i]; [fuel] bounds the number of iterations. *)
Fixpoint rows_from (fuel i : nat) (sorted : list SeatStatus.row)
  : list (list SeatStatus.row) :=
  match fuel with
  | O => []
  | S fuel' =>
      if (i <? List.length sorted)%nat
      then slice i (i + 4) sorted :: rows_from fuel' (i + 4) sorted
      else []
  end.

(** The comparator [a.seat_number - b.seat_number] of the stable sort orders
    by seat number, equal numbers staying in their order. *)
Definition layout (seats : list SeatStatus.row) : list (list SeatStatus.row) :=
  let sorted := order_by_seat_number seats in
  rows_from (List.length sorted) 0 sorted.

Definition left_pair (row : list SeatStatus.row) : list SeatStatus.row := slice 0 2 row.
Definition right_pair (row : list SeatStatus.row) : list SeatStatus.row := slice 2 4 row.

(** The seat buttons of the map, in document order. *)
Definition rendered (seats : list SeatStatus.row) : list SeatStatus.row :=
  flat_map (fun row => left_pair row ++ right_pair row)%list (layout seats).

(** The four colours of the legend. *)
Inductive look := Selected | Available | Inactive | Taken.

(** The branch of [className] a button takes. *)
Definition className (seat : SeatStatus.row) (selected : bool) : look :=
  if selected then Selected
  else if SeatMap.disabled seat then
    if negb (SeatStatus.is_active seat) then Inactive else Taken
  else Available.

End SeatLayout.

(** ** Admin seats page *)

Module AdminSeats.

(** [ORDER BY seat_number] on rows of [seats]. *)
Fixpoint insert_seat (x : Seat.row) (l : list Seat.row) : list Seat.row :=
  match l with
  | [] => [x]
  | y :: l' =>
      if (Seat.seat_number x <=? Seat.seat_number y)%Z
      then x :: l
      else y :: insert_seat x l'
  end.

Fixpoint order_seats (l : list Seat.row) : list Seat.row :=
  match l with
  | [] => []
  | x :: l' => insert_seat x (order_seats l')
  end.

(** [from("seats").select("*").eq("bus_id", busId).order("seat_number")] *)
Definition loadSeats (busId : uuid) (d : db) : list Seat.row :=
  order_seats (filter (fun s => Seat.bus_id s =? busId) (seats d)).

Definition set_active (a : bool) (s : Seat.row) : Seat.row :=
  Seat.mk (Seat.id s) (Seat.bus_id s) (Seat.seat_number s) a.

(** [UPDATE seats SET active = a WHERE id = seatId] *)
Definition update_seat_by_id (a : bool) (seatId : uuid) (d : db) : db :=
  Ledger.with_seats d
    (map (fun s => if Seat.id s =? seatId then set_active a s else s) (seats d)).

(** [UPDATE seats SET active = a WHERE bus_id = busId] *)
Definition update_seats_by_bus (a : bool) (busId : uuid) (d : db) : db :=
  Ledger.with_seats d
    (map (fun s => if Seat.bus_id s =? busId then set_active a s else s) (seats d)).

(** The state of the page: the seats it shows and the bus of the selector
    (the empty text before any bus is chosen). *)
Record page := mkPage { shown : list Seat.row; selectedBusId : string }.

(** The switch of a seat card calls [toggleSeatStatus(seat.id, seat.active)]
    with the row as the page shows it. *)
Definition toggleSeatStatus (seatId : uuid) (currentStatus : bool) (s : page * db)
  : page * db :=
  let (p, d) := s in
  (mkPage (map (fun seat => if Seat.id seat =? seatId
                            then set_active (negb currentStatus) seat else seat)
               (shown p))
          (selectedBusId p),
   update_seat_by_id (negb currentStatus) seatId d).

Definition toggleAllSeats (activate : bool) (s : page * db) : page * db :=
  let (p, d) := s in
  if selectedBusId p =? "" then s
  else (mkPage (map (set_active activate) (shown p)) (selectedBusId p),
        update_seats_by_bus activate (selectedBusId p) d).

(** The page shows what [loadSeats] would return now. *)
Definition in_sync (s : page * db) : Prop :=
  shown (fst s) = loadSeats (selectedBusId (fst s)) (snd s).

(** The counter [Active: n / m] above the grid. *)
Definition active_shown (p : page) : nat * nat :=
  (List.length (filter Seat.active (shown p)), List.length (shown p)).

End AdminSeats.

(** ** Admin pages of the reference tables *)

Module Catalog.

Definition with_pickup_points (d : db) (rows : list named) : db :=
  {| pickup_points := rows; destinations := destinations d;
     referrals := referrals d; buses := buses d; seats := seats d;
     bookings := bookings d |}.

Definition with_destinations (d : db) (rows : list Destination.row) : db :=
  {| pickup_points := pickup_points d; destinations := rows;
     referrals := referrals d; buses := buses d; seats := seats d;
     bookings := bookings d |}.

(** The SQLSTATE the client reads in [error.code]. *)
Definition code (e : pg_error) : string :=
  match e with
  | unique_violation _ => "23505"
  | foreign_key_violation _ => "23503"
  | invalid_text_representation => "22P02"
  | insufficient_privilege => "42501"
  end.

(** [INSERT INTO pickup_points (name, active)]; [fresh] is the id drawn by
    [gen_random_uuid()]. [name] is UNIQUE. *)
Definition insert_pickup_point (fresh : uuid) (nm : string) (a : bool) (d : db)
  : pg_error + db :=
  if has_id id fresh (pickup_points d) then
    inl (unique_violation "pickup_points_pkey")
  else if existsb (fun r => name r =? nm) (pickup_points d) then
    inl (unique_violation "pickup_points_name_key")
  else inr (with_pickup_points d (pickup_points d ++ [mkNamed fresh nm a])%list).

(** [UPDATE pickup_points SET name, active WHERE id = i]: the unique index on
    [name] is checked for a row whose name changes. *)
Definition update_pickup_point (i : uuid) (nm : string) (a : bool) (d : db)
  : pg_error + db :=
  let rest := filter (fun r => negb (id r =? i)) (pickup_points d) in
  if forallb (fun r => negb (id r =? i)
                       || (name r =? nm)
                       || negb (existsb (fun o => name o =? nm) rest))
             (pickup_points d)
  then inr (with_pickup_points d
              (map (fun r => if id r =? i then mkNamed (id r) nm a else r)
                   (pickup_points d)))
  else inl (unique_violation "pickup_points_name_key").

(** [DELETE FROM pickup_points WHERE id = i]: [bookings.pickup_point_id]
    references the table without ON DELETE action. *)
Definition delete_pickup_point (i : uuid) (d : db) : pg_error + db :=
  if has_id id i (pickup_points d)
     && existsb (fun b => Booking.pickup_point_id b =? i) (bookings d)
  then inl (foreign_key_violation "bookings_pickup_point_id_fkey")
  else inr (with_pickup_points d (filter (fun r => negb (id r =? i)) (pickup_points d))).

(** [DELETE FROM destinations WHERE id = i] *)
Definition delete_destination (i : uuid) (d : db) : pg_error + db :=
  if has_id Destination.id i (destinations d)
     && existsb (fun b => Booking.destination_id b =? i) (bookings d)
  then inl (foreign_key_violation "bookings_destination_id_fkey")
  else inr (with_destinations d
              (filter (fun r => negb (Destination.id r =? i)) (destinations d))).

Inductive toast :=
| Please_enter_a_pickup_point_name
| Pickup_point_updated
| Pickup_point_created
| A_pickup_point_with_this_name_already_exists
| Failed_to_save_pickup_point
| Pickup_point_deleted
| Cannot_delete_pickup_point_with_existing_bookings
| Failed_to_delete_pickup_point
| Destination_deleted
| Cannot_delete_destination_with_existing_bookings
| Failed_to_delete_destination.

Section PickupPoints.

(** [String.prototype.trim] *)
Variable trim : string -> string.

(** [handleSubmit] of the pickup points page; [editingPoint] is the row
    under edit, if any. *)
Definition handleSubmit (editingPoint : option named) (fresh : uuid)
    (formData_name : string) (formData_active : bool) (d : db) : toast * db :=
  if trim formData_name =? "" then (Please_enter_a_pickup_point_name, d)
  else
    match
      match editingPoint with
      | Some point =>
          match update_pickup_point (id point) (trim formData_name) formData_active d with
          | inr d' => inr (Pickup_point_updated, d')
          | inl e => inl e
          end
      | None =>
          match insert_pickup_point fresh (trim formData_name) formData_active d with
          | inr d' => inr (Pickup_point_created, d')
          | inl e => inl e
          end
      end
    with
    | inr r => r
    | inl e =>
        (if code e =? "23505" then A_pickup_point_with_this_name_already_exists
         else Failed_to_save_pickup_point, d)
    end.

End PickupPoints.

(** [handleDelete] of the pickup points page; [confirmed] is the answer to
    the [confirm] dialog. No toast when the dialog is dismissed. *)
Definition handleDelete (confirmed : bool) (point : named) (d : db)
  : option toast * db :=
  if negb confirmed then (None, d)
  else
    match delete_pickup_point (id point) d with
    | inr d' => (Some Pickup_point_deleted, d')
    | inl e =>
        (Some (if code e =? "23503"
               then Cannot_delete_pickup_point_with_existing_bookings
               else Failed_to_delete_pickup_point), d)
    end.

(** [handleDelete] of the destinations page. *)
Definition handleDelete_destination (confirmed : bool) (destination : Destination.row)
    (d : db) : option toast * db :=
  if negb confirmed then (None, d)
  else
    match delete_destination (Destination.id destination) d with
    | inr d' => (Some Destination_deleted, d')
    | inl e =>
        (Some (if code e =? "23503"
               then Cannot_delete_destination_with_existing_bookings
               else Failed_to_delete_destination), d)
    end.

(** Every booking points to a stored pickup point, destination and bus,
    and to a stored referral if it names one. *)
Definition references_hold (d : db) : Prop :=
  forall b, In b (bookings d) ->
    has_id id (Booking.pickup_point_id b) (pickup_points d) = true
    /\ has_id Destination.id (Booking.destination_id b) (destinations d) = true
    /\ has_id id (Booking.bus_id b) (buses d) = true
    /\ match Booking.referral_id b with
       | Some f => has_id id f (referrals d) = true
       | None => True
       end.

(** One action of a form, a page or the webhook on the database. Referrals,
    buses and destinations are otherwise only added to or edited in place. *)
Inductive action : db -> db -> Prop :=
| act_book caller fresh now v amount d d' :
    BookingForm.onSubmit caller fresh now v amount d = (BookingForm.Booking_created, d') ->
    action d d'
| act_status now i s d d' :
    AdminBookings.updateBookingStatus now i s d = (AdminBookings.Success, d') ->
    action d d'
| act_save_pickup_point trim editing fresh nm a d t d' :
    handleSubmit trim editing fresh nm a d = (t, d') -> action d d'
| act_delete_pickup_point c point d t d' :
    handleDelete c point d = (t, d') -> action d d'
| act_delete_destination c destination d t d' :
    handleDelete_destination c destination d = (t, d') -> action d d'
| act_webhook uuid_in JSON_stringify now sms req d :
    action d (Webhook.database (Webhook.serve uuid_in JSON_stringify now sms req d))
| act_seats d rows :
    action d (Ledger.with_seats d rows)
| act_grow d d' :
    bookings d' = bookings d ->
    pickup_points d' = pickup_points d ->
    (forall i, has_id Destination.id i (destinations d) = true ->
               has_id Destination.id i (destinations d') = true) ->
    (forall i, has_id id i (buses d) = true -> has_id id i (buses d') = true) ->
    (forall i, has_id id i (referrals d) = true -> has_id id i (referrals d') = true) ->
    action d d'.

Inductive run : db -> db -> Prop :=
| run_refl d : run d d
| run_step d d' d'' : run d d' -> action d' d'' -> run d d''.

End Catalog.

(** ** Admin bookings page: search, status filter and CSV export *)

Module BookingsPage.

(** [s.includes(sub)] *)
Fixpoint includes (s sub : string) : bool :=
  prefix sub s
  || match s with
     | EmptyString => false
     | String _ r => includes r sub
     end.

(** Occurrences of the character [c] in [s]. *)
Fixpoint count (c : ascii) (s : string) : nat :=
  match s with
  | EmptyString => O
  | String x r => ((if (x =? c)%char then 1 else 0) + count c r)%nat
  end.

(** A booking as [loadBookings] keeps it: the selected columns and the names
    joined through the three references. *)
Record card := mkCard {
  row : Booking.row;
  pickup_point : option string;
  destination : option string;
  bus : option string
}.

(** The text of a JSON number given in hundredths, as [String] prints it. *)
Definition number_text (hundredths : Z) : string :=
  let a := Z.abs hundredths in
  (if (hundredths <? 0)%Z then "-" else "")
  ++ Js.decimal (a / 100)
  ++ (if (a mod 100 =? 0)%Z then ""
      else "." ++ (if (a mod 10 =? 0)%Z then Js.decimal (a mod 100 / 10)
                   else Webhook.two_digits (a mod 100))).

Definition or_empty (name : option string) : string :=
  match name with
  | Some n => n
  | None => ""
  end.

Definition newline : string := String "010"%char EmptyString.

Definition header : list string :=
  ["ID"; "Name"; "Email"; "Phone"; "Class"; "Pickup"; "Destination"; "Bus";
   "Seat"; "Amount"; "Status"; "Date"].

Section Browser.

(** [String.prototype.toLowerCase] *)
Variable toLowerCase : string -> string.

(** [new Date(created_at).toLocaleDateString()] *)
Variable toLocaleDateString : Z -> string.

Definition matches (searchTerm : string) (booking : card) : bool :=
  includes (toLowerCase (Booking.full_name (row booking))) (toLowerCase searchTerm)
  || includes (toLowerCase (Booking.email (row booking))) (toLowerCase searchTerm)
  || includes (Booking.phone (row booking)) searchTerm
  || includes (toLowerCase (Booking.id (row booking))) (toLowerCase searchTerm).

Definition filterBookings (bookings : list card) (searchTerm statusFilter : string)
  : list card :=
  let filtered :=
    if negb (searchTerm =? "") then filter (matches searchTerm) bookings
    else bookings in
  if negb (statusFilter =? "all")
  then filter (fun booking => Booking.status (row booking) =? statusFilter) filtered
  else filtered.

Definition fields (booking : card) : list string :=
  [ Booking.id (row booking);
    Booking.full_name (row booking);
    Booking.email (row booking);
    Booking.phone (row booking);
    Booking.passenger_class (row booking);
    or_empty (pickup_point booking);
    or_empty (destination booking);
    or_empty (bus booking);
    Js.decimal (Booking.seat_number (row booking));
    number_text (Booking.amount (row booking));
    Booking.status (row booking);
    toLocaleDateString (Booking.created_at (row booking)) ].

(** [csvContent] *)
Definition exportBookings (filteredBookings : list card) : string :=
  String.concat newline
    (String.concat "," header
     :: map (fun booking => String.concat "," (fields booking)) filteredBookings).

End Browser.

(** [{ ...booking, status: newStatus }] *)
Definition with_status (newStatus : string) (booking : card) : card :=
  mkCard (apply_patch (mkPatch (Some newStatus) None None) (row booking))
         (pickup_point booking) (destination booking) (bus booking).

(** [updateBookingStatus] together with the [bookings] state of the page:
    after a successful UPDATE the cards of that id take the new status. *)
Definition updateBookingStatus (now : Z) (bookingId : uuid) (newStatus : string)
    (s : list card * db) : AdminBookings.toast * (list card * db) :=
  let (cards, d) := s in
  match AdminBookings.updateBookingStatus now bookingId newStatus d with
  | (AdminBookings.Success, d') =>
      (AdminBookings.Success,
       (map (fun booking => if Booking.id (row booking) =? bookingId
                            then with_status newStatus booking else booking)
            cards,
        d'))
  | (AdminBookings.Error, _) => (AdminBookings.Error, s)
  end.

(** Every card shows a stored booking; [updated_at], which the page does not
    select, is left aside. *)
Definition in_sync (s : list card * db) : Prop :=
  forall c, In c (fst s) ->
    exists r, In r (bookings (snd s))
              /\ Ledger.but_updated_at r = Ledger.but_updated_at (row c).

End BookingsPage.

(** ** Hubtel create-payment edge function *)

Module CreatePayment.
Import Js.

(** [origin] is the request header of that name; [body] is [None] when the
    body is not JSON. *)
Record request := mkRequest {
  method : string;
  origin : option string;
  body : option json
}.

(** What the outer [catch] can receive: [req.json()] rejecting, the
    destructuring of [null], [fetch] failing. *)
Inductive thrown := Not_JSON | Null_body | Fetch_failed.

(** The request sent to the Pay Proxy API: the two halves of the Basic
    credentials and the fields of the JSON payload. A field that is
    [undefined] is left out by [JSON.stringify]. *)
Record initiate := mkInitiate {
  client_id : string;
  client_secret : string;
  totalAmount : json;
  description : string;
  callbackUrl : string;
  returnUrl : string;
  cancellationUrl : string;
  clientReference : json;
  merchantAccountNumber : string;
  customerName : value;
  customerEmail : value;
  customerMsisdn : value
}.

Inductive reply :=
| Invalid_payload
| Missing_Hubtel_credentials
| Failed_to_initiate_Hubtel_checkout (details : json)
| url (checkoutUrl : json)
| error_message (e : thrown).

Record Response := mkResponse { http_status : Z; http_body : option reply }.

Record outcome := mkOutcome {
  response : Response;
  calls : list initiate;
  console_error : list string
}.

(** A property taken by destructuring a value that is not [null]. *)
Definition field (o : json) (k : string) : value :=
  match o with
  | JObj fields => lookup k fields
  | _ => None
  end.

(** [v?.k] *)
Definition optional (v : value) (k : string) : value :=
  match v with
  | Some o => field o k
  | None => None
  end.

(** [a || b] *)
Definition or_else (a b : value) : value := if truthy a then a else b.

Definition getenv (env : string -> option string) (k : string) : string :=
  match env k with
  | Some v => v
  | None => ""
  end.

Section Platform.

(** [Deno.env.get] *)
Variable env : string -> option string.

(** [amount <= 0] and [Math.round(amount * 100) / 100] for the value found
    under [amount], with the conversions JavaScript applies to it. *)
Variable le_zero : json -> bool.
Variable rounded : json -> json.

(** The Pay Proxy API: [None] when [fetch] throws, else [res.ok] and the
    parsed body ([{}] when it is not JSON). *)
Variable provider : initiate -> option (bool * json).

Definition respond (code : Z) (r : reply) (calls : list initiate) (console : list string)
  : outcome :=
  mkOutcome (mkResponse code (Some r)) calls console.

Definition try_block (req : request) (payload : json) : outcome :=
  let bookingId := field payload "bookingId" in
  let amount := field payload "amount" in
  match bookingId, amount with
  | Some bookingId, Some amount =>
      if negb (truthy (Some bookingId)) || negb (truthy (Some amount)) || le_zero amount
      then respond 400 Invalid_payload [] []
      else
        let HUBTEL_CLIENT_ID := getenv env "HUBTEL_CLIENT_ID" in
        let HUBTEL_CLIENT_SECRET := getenv env "HUBTEL_CLIENT_SECRET" in
        let HUBTEL_MERCHANT_NUMBER := getenv env "HUBTEL_MERCHANT_NUMBER" in
        if (HUBTEL_CLIENT_ID =? "") || (HUBTEL_CLIENT_SECRET =? "")
           || (HUBTEL_MERCHANT_NUMBER =? "")
        then respond 500 Missing_Hubtel_credentials [] []
        else
          let origin :=
            match origin req with
            | Some o => if o =? "" then "https://att-transport.local" else o
            | None => "https://att-transport.local"
            end in
          let call :=
            {| client_id := HUBTEL_CLIENT_ID;
               client_secret := HUBTEL_CLIENT_SECRET;
               totalAmount := rounded amount;
               description := "ATT Transport Ticket";
               callbackUrl :=
                 "https://llrumtjljzzhvqfxowpb.functions.supabase.co/hubtel-webhook";
               returnUrl := origin ++ "/";
               cancellationUrl := origin ++ "/";
               clientReference := bookingId;
               merchantAccountNumber := HUBTEL_MERCHANT_NUMBER;
               customerName := field payload "fullName";
               customerEmail := field payload "email";
               customerMsisdn := field payload "phone" |} in
          match provider call with
          | None =>
              respond 500 (error_message Fetch_failed) [call]
                ["hubtel-create-payment exception"]
          | Some (ok, data) =>
              let responseCode :=
                or_else (optional (Some data) "responseCode")
                        (optional (Some data) "ResponseCode") in
              let checkoutUrl :=
                or_else (optional (optional (Some data) "data") "checkoutUrl")
                        (optional (optional (Some data) "Data") "CheckoutUrl") in
              match checkoutUrl with
              | Some u =>
                  if negb ok
                     || negb (match responseCode with
                              | Some (JStr c) => c =? "0000"
                              | _ => false
                              end)
                     || negb (truthy (Some u))
                  then respond 500 (Failed_to_initiate_Hubtel_checkout data) [call]
                         ["Hubtel initiate error"]
                  else respond 200 (url u) [call] []
              | None =>
                  respond 500 (Failed_to_initiate_Hubtel_checkout data) [call]
                    ["Hubtel initiate error"]
              end
          end
  | _, _ => respond 400 Invalid_payload [] []
  end.

Definition serve (req : request) : outcome :=
  if method req =? "OPTIONS" then mkOutcome (mkResponse 200 None) [] []
  else
    match body req with
    | None =>
        respond 500 (error_message Not_JSON) [] ["hubtel-create-payment exception"]
    | Some JNull =>
        respond 500 (error_message Null_body) [] ["hubtel-create-payment exception"]
    | Some payload => try_block req payload
    end.

End Platform.

End CreatePayment.

(** ** Seed data of the migration *)

Module Seed.

Module BusType.
Record row := mk {
  id : uuid;
  name : string;
  seat_count : Z;
  description : option string;
  active : bool
}.
End BusType.

(** The database with the table [bus_types] and the column [bus_type_id] of
    [buses], the latter row by row beside [buses tables]. *)
Record state := mkState {
  bus_types : list BusType.row;
  bus_type_id : list uuid;
  tables : db
}.

Definition empty : state := mkState [] [] empty_db.

(** What the seeding of buses and seats reads. *)
Definition reads_seats (s : state) :=
  (bus_types s, bus_type_id s, buses (tables s), seats (tables s)).

Definition with_buses (d : db) (rows : list named) : db :=
  {| pickup_points := pickup_points d; destinations := destinations d;
     referrals := referrals d; buses := rows; seats := seats d;
     bookings := bookings d |}.

Definition with_referrals (d : db) (rows : list named) : db :=
  {| pickup_points := pickup_points d; destinations := destinations d;
     referrals := rows; buses := buses d; seats := seats d;
     bookings := bookings d |}.

Fixpoint distinct (l : list uuid) : bool :=
  match l with
  | [] => true
  | x :: l' => negb (existsb (String.eqb x) l') && distinct l'
  end.

(** The primary key of a table on the INSERT of rows with the ids [new]. *)
Definition pkey {A} (key : A -> uuid) (new : list uuid) (rows : list A) : bool :=
  distinct new && forallb (fun i => negb (has_id key i rows)) new.

(** [UNIQUE (bus_id, seat_number)] on the INSERT of seats for the pairs
    [new]. *)
Fixpoint distinct_seats (l : list (uuid * Z)) : bool :=
  match l with
  | [] => true
  | x :: l' =>
      negb (existsb (fun y => (fst x =? fst y) && (snd x =? snd y)%Z) l')
      && distinct_seats l'
  end.

Definition seats_key (new : list (uuid * Z)) (rows : list Seat.row) : bool :=
  distinct_seats new
  && forallb (fun x => negb (existsb (fun r => (Seat.bus_id r =? fst x)
                                               && (Seat.seat_number r =? snd x)%Z)
                                     rows))
             new.

Definition Economical : string := "Economical 32-seat".

Section Block.

(** [gen_random_uuid()]: the ids drawn while the block runs, numbered. *)
Variable gen : nat -> uuid.

(** [IF NOT EXISTS (SELECT 1 FROM bus_types WHERE name = ...) THEN INSERT] *)
Definition seed_bus_types (s : state) : pg_error + state :=
  if existsb (fun t => BusType.name t =? Economical) (bus_types s) then inr s
  else if negb (pkey BusType.id [gen 0] (bus_types s)) then
    inl (unique_violation "bus_types_pkey")
  else
    inr (mkState
           (bus_types s
            ++ [BusType.mk (gen 0) Economical 32
                  (Some "Comfortable 32-seater for economical trips") true])%list
           (bus_type_id s) (tables s)).

(** [IF NOT EXISTS (SELECT 1 FROM buses) THEN INSERT ... SELECT 'ATT-01', id,
    true FROM bus_types WHERE name = ... LIMIT 1]; of several types of that
    name the first stored is taken. *)
Definition seed_buses (s : state) : pg_error + state :=
  match buses (tables s) with
  | _ :: _ => inr s
  | [] =>
      match find (fun t => BusType.name t =? Economical) (bus_types s) with
      | None => inr s
      | Some t =>
          if negb (pkey id [gen 1] (buses (tables s))) then
            inl (unique_violation "buses_pkey")
          else
            inr (mkState (bus_types s)
                   (bus_type_id s ++ [BusType.id t])%list
                   (with_buses (tables s)
                      (buses (tables s) ++ [mkNamed (gen 1) "ATT-01" true])%list))
      end
  end.

(** [generate_series(1, n)] *)
Definition generate_series_from_1 (n : Z) : list Z :=
  map Z.of_nat (seq 1 (Z.to_nat n)).

(** [SELECT b.id, generate_series(1, bt.seat_count) FROM buses b JOIN
    bus_types bt ON bt.id = b.bus_type_id WHERE b.name = 'ATT-01'] *)
Definition seats_wanted (s : state) : list (uuid * Z) :=
  flat_map
    (fun b =>
       if name (fst b) =? "ATT-01" then
         flat_map (fun bt =>
                     if BusType.id bt =? snd b
                     then map (fun n => (id (fst b), n))
                            (generate_series_from_1 (BusType.seat_count bt))
                     else [])
                  (bus_types s)
       else [])
    (combine (buses (tables s)) (bus_type_id s)).

(** [PERFORM 1 FROM seats s JOIN buses b ON s.bus_id = b.id WHERE
    b.name = 'ATT-01'] sets FOUND. *)
Definition found_seats (s : state) : bool :=
  existsb (fun seat =>
             existsb (fun b => (id b =? Seat.bus_id seat) && (name b =? "ATT-01"))
                     (buses (tables s)))
          (seats (tables s)).

Definition seed_seats (s : state) : pg_error + state :=
  if found_seats s then inr s
  else
    let wanted := seats_wanted s in
    let ids := map (fun k => gen (9 + k)) (seq 0 (List.length wanted)) in
    if negb (pkey Seat.id ids (seats (tables s))) then
      inl (unique_violation "seats_pkey")
    else if negb (seats_key wanted (seats (tables s))) then
      inl (unique_violation "seats_bus_id_seat_number_key")
    else
      inr (mkState (bus_types s) (bus_type_id s)
             (Ledger.with_seats (tables s)
                (seats (tables s)
                 ++ map (fun r => Seat.mk (fst r) (fst (snd r)) (snd (snd r)) true)
                      (combine ids wanted))%list)).

Definition seed_pickup_points (s : state) : pg_error + state :=
  match pickup_points (tables s) with
  | _ :: _ => inr s
  | [] =>
      if negb (pkey id [gen 2; gen 3] (pickup_points (tables s))) then
        inl (unique_violation "pickup_points_pkey")
      else
        inr (mkState (bus_types s) (bus_type_id s)
               (Catalog.with_pickup_points (tables s)
                  [mkNamed (gen 2) "Main Campus" true;
                   mkNamed (gen 3) "City Center" true]))
  end.

Definition seed_destinations (s : state) : pg_error + state :=
  match destinations (tables s) with
  | _ :: _ => inr s
  | [] =>
      if negb (pkey Destination.id [gen 4; gen 5] (destinations (tables s))) then
        inl (unique_violation "destinations_pkey")
      else
        inr (mkState (bus_types s) (bus_type_id s)
               (Catalog.with_destinations (tables s)
                  [Destination.mk (gen 4) "Kumasi" 8000 true;
                   Destination.mk (gen 5) "Accra" 12000 true]))
  end.

Definition seed_referrals (s : state) : pg_error + state :=
  match referrals (tables s) with
  | _ :: _ => inr s
  | [] =>
      if negb (pkey id [gen 6; gen 7; gen 8] (referrals (tables s))) then
        inl (unique_violation "referrals_pkey")
      else
        inr (mkState (bus_types s) (bus_type_id s)
               (with_referrals (tables s)
                  [mkNamed (gen 6) "SRC" true;
                   mkNamed (gen 7) "Friend" true;
                   mkNamed (gen 8) "Poster" true]))
  end.

(** The DO block: an error leaves the block, and its transaction, at once. *)
Definition seed (s : state) : pg_error + state :=
  Js.bind (seed_bus_types s) (fun s1 =>
  Js.bind (seed_buses s1) (fun s2 =>
  Js.bind (seed_seats s2) (fun s3 =>
  Js.bind (seed_pickup_points s3) (fun s4 =>
  Js.bind (seed_destinations s4) (fun s5 =>
  seed_referrals s5))))).

End Block.

End Seed.

(** ** Further sample data *)

Module Scenario.
Import Js Webhook.

(** The SMS client id is set, to the empty text, beside the general one. *)
Definition env_blank_sms (k : string) : option string :=
  if k =? "HUBTEL_SMS_CLIENT_ID" then Some "" else Sample.hubtel_env k.

(** [toLowerCase] on texts of the ASCII range. *)
Definition lower (c : ascii) : ascii :=
  let n := nat_of_ascii c in
  if (65 <=? n)%nat && (n <=? 90)%nat then ascii_of_nat (n + 32) else c.

Fixpoint toLowerCase (s : string) : string :=
  match s with
  | EmptyString => EmptyString
  | String c r => String (lower c) (toLowerCase r)
  end.

(** [trim] on the names of the examples, none of which has outer white
    space. *)
Definition trimmed (s : string) : string := s.

Definition pickup2 : uuid := "0c1c0000-0000-4000-8000-000000000002".

Definition payment_env (k : string) : option string :=
  if k =? "HUBTEL_MERCHANT_NUMBER" then Some "2017254" else Sample.hubtel_env k.

(** [amount <= 0] and the rounding to two decimals, on the whole amounts of
    the examples. *)
Definition le_zero_whole (v : json) : bool :=
  match v with
  | JNum n => (n <=? 0)%Z
  | _ => false
  end.

Definition rounded_whole (v : json) : json := v.

Definition checkout : json :=
  JObj [("responseCode", JStr "0000");
        ("data", JObj [("checkoutUrl", JStr "https://pay.hubtel.com/7ab1")])].

Definition provider_up (_ : CreatePayment.initiate) : option (bool * json) :=
  Some (true, checkout).

Definition pay_request : CreatePayment.request :=
  CreatePayment.mkRequest "POST" (Some "https://att.example")
    (Some (JObj [("bookingId", JStr Sample.booking1); ("amount", JNum 80);
                 ("phone", JStr "0241234567")])).

(** Ids as [gen_random_uuid()] could draw them, one per number. *)
Definition gen (k : nat) : uuid :=
  "5eed0000-0000-4000-8000-0000000000" ++ two_digits (Z.of_nat k).

(** The freshly migrated database after its seed block. *)
Definition seeded : Seed.state :=
  match Seed.seed gen Seed.empty with
  | inr s => s
  | inl _ => Seed.empty
  end.

End Scenario.

(** * Properties *)

Import Ledger.

(** ** The partial unique index *)

Section Index.

Lemma hit_true i r : hit i r = true <-> Booking.id r = i.
Proof. apply String.eqb_eq. Qed.

Lemma occupies_true B N b :
  occupies B N b = true <->
  Booking.bus_id b = B /\ Booking.seat_number b = N /\ idx_predicate b = true.
Proof.
  unfold occupies. rewrite !andb_true_iff, String.eqb_eq, Z.eqb_eq. tauto.
Qed.

Lemma idx_predicate_true b :
  idx_predicate b = true <->
  Booking.status b = "pending" \/ Booking.status b = "paid".
Proof.
  unfold idx_predicate. now rewrite orb_true_iff, !String.eqb_eq.
Qed.

Lemma active_count_app B N l1 l2 :
  active_count B N (l1 ++ l2)%list = (active_count B N l1 + active_count B N l2)%nat.
Proof. unfold active_count. now rewrite filter_app, length_app. Qed.

Lemma active_count_0 B N rows :
  active_count B N rows = 0%nat <-> forall o, In o rows -> occupies B N o = false.
Proof.
  unfold active_count. induction rows as [|o rows IH]; simpl.
  - split; [intros _ o [] | reflexivity].
  - destruct (occupies B N o) eqn:E; simpl.
    + split; [discriminate|]. intros H. specialize (H o (or_introl eq_refl)). congruence.
    + rewrite IH. split.
      * intros H x [<-|Hx]; auto.
      * intros H x Hx. apply H. now right.
Qed.

(** An entry the index accepts is the only one for its key. *)
Lemma index_accepts_free r rows B N :
  idx_unique_active_booking r rows = true ->
  occupies B N r = true ->
  active_count B N rows = 0%nat.
Proof.
  intros Hacc Hocc. apply occupies_true in Hocc as (HB & HN & Hp).
  unfold idx_unique_active_booking in Hacc. rewrite Hp in Hacc. simpl in Hacc.
  rewrite forallb_forall in Hacc.
  apply active_count_0. intros o Ho. specialize (Hacc o Ho).
  destruct (occupies B N o) eqn:E; [|reflexivity].
  apply occupies_true in E as (HB' & HN' & Hp').
  rewrite Hp' in Hacc. unfold same_key in Hacc. subst B N.
  rewrite <- HB', <- HN', String.eqb_refl, Z.eqb_refl in Hacc. discriminate.
Qed.

Lemma index_free_accepts r rows :
  active_count (Booking.bus_id r) (Booking.seat_number r) rows = 0%nat ->
  idx_unique_active_booking r rows = true.
Proof.
  intros H. unfold idx_unique_active_booking. apply orb_true_iff. right.
  apply forallb_forall. intros o Ho.
  pose proof (proj1 (active_count_0 _ _ _) H o Ho) as Hocc.
  unfold occupies in Hocc. unfold same_key.
  rewrite (String.eqb_sym (Booking.bus_id r)), (Z.eqb_sym (Booking.seat_number r)).
  destruct (idx_predicate o); simpl; [|reflexivity].
  rewrite andb_true_r in Hocc. now rewrite Hocc.
Qed.

Lemma has_id_false {A} (key : A -> uuid) i rows :
  has_id key i rows = false <-> ~ In i (map key rows).
Proof.
  unfold has_id. induction rows as [|r rows IH]; simpl.
  - tauto.
  - rewrite orb_false_iff, IH, String.eqb_neq. tauto.
Qed.

End Index.

(** ** Statements keep the ledger well formed *)

Section Invariant.

Lemma insert_booking_inr r d d' :
  insert_booking r d = inr d' ->
  d' = with_bookings d (bookings d ++ [r])%list
  /\ has_id Booking.id (Booking.id r) (bookings d) = false
  /\ idx_unique_active_booking r (bookings d) = true.
Proof.
  unfold insert_booking.
  destruct (has_id Booking.id (Booking.id r) (bookings d)); [discriminate|].
  destruct (idx_unique_active_booking r (bookings d)); [|discriminate]. simpl.
  repeat match goal with
         | |- context [if ?c then _ else _] => destruct c; [discriminate|]
         end.
  intros H. injection H as <-. auto.
Qed.

Lemma insert_preserves r d d' :
  well_formed d -> insert_booking r d = inr d' -> well_formed d'.
Proof.
  intros [Hpk Hidx] H. apply insert_booking_inr in H as (-> & Hfresh & Hacc).
  split; simpl.
  - rewrite map_app. simpl. apply has_id_false in Hfresh.
    assert (Hperm : Permutation (Booking.id r :: map Booking.id (bookings d))
                      (map Booking.id (bookings d) ++ [Booking.id r])%list)
      by (apply Permutation_cons_append).
    apply (Permutation_NoDup Hperm). now constructor.
  - intros B N. rewrite active_count_app.
    unfold active_count at 2. simpl.
    destruct (occupies B N r) eqn:E; simpl.
    + rewrite (index_accepts_free _ _ _ _ Hacc E). lia.
    + specialize (Hidx B N). lia.
Qed.

Lemma new_row_id now p r : Booking.id (new_row now p r) = Booking.id r.
Proof. reflexivity. Qed.

Lemma occupies_untouched B N now p r :
  index_untouched r (new_row now p r) = true ->
  occupies B N (new_row now p r) = occupies B N r.
Proof.
  unfold index_untouched. rewrite String.eqb_eq. intros H.
  unfold occupies, idx_predicate. now rewrite <- H.
Qed.

Lemma active_count_split i B N rows :
  active_count B N rows
  = (active_count B N (filter (hit i) rows)
     + active_count B N (filter (fun r => negb (hit i r)) rows))%nat.
Proof.
  unfold active_count. induction rows as [|r rows IH]; simpl; [reflexivity|].
  destruct (hit i r); simpl; destruct (occupies B N r); simpl; lia.
Qed.

Lemma active_count_updated now p i B N rows :
  active_count B N (map (fun r => if hit i r then new_row now p r else r) rows)
  = (active_count B N (map (new_row now p) (filter (hit i) rows))
     + active_count B N (filter (fun r => negb (hit i r)) rows))%nat.
Proof.
  unfold active_count. induction rows as [|r rows IH]; simpl; [reflexivity|].
  destruct (hit i r); simpl.
  - destruct (occupies B N (new_row now p r)); simpl; lia.
  - destruct (occupies B N r); simpl; lia.
Qed.

(** Under the primary key a filter on [id] selects at most one row. *)
Lemma hit_at_most_one i rows :
  NoDup (map Booking.id rows) ->
  filter (hit i) rows = [] \/ exists r, filter (hit i) rows = [r] /\ In r rows.
Proof.
  induction rows as [|r rows IH]; simpl; intros Hnd; [now left|].
  inversion Hnd as [|? ? Hnotin Hnd']; subst.
  destruct (hit i r) eqn:E.
  - right. exists r. split; [|now left]. f_equal.
    destruct (filter (hit i) rows) as [|x xs] eqn:F; [reflexivity|].
    exfalso. apply Hnotin.
    assert (Hx : In x (filter (hit i) rows)) by (rewrite F; now left).
    apply filter_In in Hx as [Hx Hh]. apply hit_true in Hh, E.
    apply in_map_iff. exists x. split; [congruence|assumption].
  - destruct (IH Hnd') as [->|(x & -> & Hx)]; [now left|].
    right. exists x. split; [reflexivity|now right].
Qed.

Lemma update_bookings_inr now p i d d' rows :
  update_bookings now p i d = inr (d', rows) ->
  d' = with_bookings d
         (map (fun r => if hit i r then new_row now p r else r) (bookings d))
  /\ rows = map (new_row now p) (filter (hit i) (bookings d))
  /\ forall r, In r (bookings d) -> hit i r = true ->
       index_untouched r (new_row now p r) = true
       \/ idx_unique_active_booking (new_row now p r)
            (filter (fun r => negb (hit i r)) (bookings d)) = true.
Proof.
  unfold update_bookings.
  destruct (forallb _ (bookings d)) eqn:E; [|discriminate].
  intros H. injection H as <- <-. repeat split.
  intros r Hr Hh. rewrite forallb_forall in E. specialize (E r Hr).
  rewrite Hh in E. simpl in E. now apply orb_true_iff in E.
Qed.

Lemma update_preserves now p i d d' rows :
  well_formed d -> update_bookings now p i d = inr (d', rows) -> well_formed d'.
Proof.
  intros [Hpk Hidx] H. apply update_bookings_inr in H as (-> & _ & Hchk).
  split; simpl.
  - rewrite map_map.
    erewrite map_ext; [exact Hpk|]. intros r. now destruct (hit i r).
  - intros B N. rewrite active_count_updated.
    specialize (Hidx B N). rewrite (active_count_split i) in Hidx.
    destruct (hit_at_most_one i _ Hpk) as [Hr|(r & Hr & Hin)];
      rewrite Hr in *; [exact Hidx|]. simpl map.
    assert (Hh : hit i r = true).
    { assert (Hx : In r (filter (hit i) (bookings d))) by (rewrite Hr; now left).
      now apply filter_In in Hx. }
    destruct (Hchk r Hin Hh) as [Hsame|Hacc].
    + unfold active_count at 1. unfold active_count at 1 in Hidx. simpl in *.
      rewrite (occupies_untouched _ _ _ _ _ Hsame).
      destruct (occupies B N r); exact Hidx.
    + unfold active_count at 1. simpl.
      destruct (occupies B N (new_row now p r)) eqn:E; simpl.
      * rewrite (index_accepts_free _ _ _ _ Hacc E). lia.
      * lia.
Qed.

Lemma step_preserves d d' : well_formed d -> step d d' -> well_formed d'.
Proof.
  intros Hwf Hstep. destruct Hstep as [r d d' H|now p i d d' rows H|d d' H].
  - eapply insert_preserves; eauto.
  - eapply update_preserves; eauto.
  - unfold well_formed in *. now rewrite H.
Qed.

Lemma reachable_well_formed d : reachable d -> well_formed d.
Proof.
  induction 1 as [|d d' _ IH Hstep].
  - split; simpl; [constructor|]. intros B N. unfold active_count. simpl. lia.
  - eapply step_preserves; eauto.
Qed.

End Invariant.

(** ** Booking attempts *)

Section Attempts.
Import BookingForm.

Lemma onSubmit_entitled caller fresh now v amount d :
  Policy.bookings_insert_returning caller = true ->
  onSubmit caller fresh now v amount d
  = match insert_booking (payload fresh now v amount) d with
    | inr d' => (Booking_created, d')
    | inl e => (Booking_failed e, d)
    end.
Proof. unfold onSubmit, insert_booking_returning. now intros ->. Qed.

(** A caller whom the policies do not let read the new row back is refused,
    whatever the form holds. *)
Lemma onSubmit_refused caller fresh now v amount d :
  Policy.bookings_insert_returning caller = false ->
  onSubmit caller fresh now v amount d = (Booking_failed insufficient_privilege, d).
Proof. unfold onSubmit, insert_booking_returning. now intros ->. Qed.

Lemma onSubmit_created caller fresh now v amount d :
  Policy.bookings_insert_returning caller = true ->
  has_id Booking.id fresh (bookings d) = false ->
  active_count (bus_id v) (seat_number v) (bookings d) = 0%nat ->
  references_exist v d ->
  onSubmit caller fresh now v amount d
  = (Booking_created, with_bookings d (bookings d ++ [payload fresh now v amount])%list).
Proof.
  intros Hc Hfresh Hfree (Hp & Hd & Hb & Hr).
  rewrite (onSubmit_entitled _ _ _ _ _ _ Hc). unfold insert_booking. simpl.
  rewrite Hfresh, (index_free_accepts (payload fresh now v amount) _ Hfree), Hp, Hd, Hb.
  simpl. destruct (referral_id v); [rewrite Hr|]; reflexivity.
Qed.

Lemma onSubmit_created_inv caller fresh now v amount d d' :
  onSubmit caller fresh now v amount d = (Booking_created, d') ->
  Policy.bookings_insert_returning caller = true
  /\ d' = with_bookings d (bookings d ++ [payload fresh now v amount])%list.
Proof.
  unfold onSubmit, insert_booking_returning.
  destruct (Policy.bookings_insert_returning caller); [|discriminate].
  destruct (insert_booking _ d) as [e|d1] eqn:E; [discriminate|].
  intros H. injection H as <-. split; [reflexivity|]. now apply insert_booking_inr in E.
Qed.

Lemma onSubmit_failed_same caller fresh now v amount d t d' :
  onSubmit caller fresh now v amount d = (t, d') -> t <> Booking_created -> d' = d.
Proof.
  unfold onSubmit. destruct (insert_booking_returning _ _ d); intros H;
    injection H as <- <-; congruence.
Qed.


Lemma onSubmit_ignores_seats caller fresh now v amount d rows :
  fst (onSubmit caller fresh now v amount (with_seats d rows))
  = fst (onSubmit caller fresh now v amount d).
Proof.
  unfold onSubmit, insert_booking_returning, insert_booking. simpl.
  repeat match goal with
         | |- context [if ?c then _ else _] => destruct c; simpl; try reflexivity
         end.
Qed.

End Attempts.


Lemma db0_reachable : reachable Sample.db0.
Proof.
  apply (reach_step empty_db); [constructor|]. now apply step_other.
Qed.

(** Seat 2 is booked, cancelled by the operator, and booked again. *)
Lemma db_retaken_reachable : reachable Sample.db_retaken.
Proof.
  pose (first := BookingForm.payload Sample.booking1 100 (Sample.ama 2) 8000).
  apply (reach_step (with_bookings Sample.db0 [Sample.with_status 200 "cancelled" first])).
  - apply (reach_step (with_bookings Sample.db0 [first])).
    + apply (reach_step Sample.db0); [apply db0_reachable|].
      now apply (step_insert first).
    + now apply (step_update 200 (mkPatch (Some "cancelled") None None) Sample.booking1 _ _
                   [Sample.with_status 200 "cancelled" first]).
  - now apply (step_insert (BookingForm.payload Sample.booking2 300 (Sample.kojo 2) 8000)).
Qed.

Lemma db_pending_reachable : reachable Sample.db_pending.
Proof.
  apply (reach_step Sample.db0); [apply db0_reachable|].
  now apply (step_insert (BookingForm.payload Sample.booking1 100 (Sample.ama 1) 8000)).
Qed.

Lemma db_paid1_reachable : reachable Sample.db_paid1.
Proof.
  apply (reach_step Sample.db_pending); [apply db_pending_reachable|].
  now apply (step_update 200 (mkPatch (Some "paid") None None) Sample.booking1 _ _
               [Sample.with_status 200 "paid"
                  (BookingForm.payload Sample.booking1 100 (Sample.ama 1) 8000)]).
Qed.



(** ** Availability view *)

Section Availability.

Lemma insert_by_seat_number_perm x l :
  Permutation (insert_by_seat_number x l) (x :: l).
Proof.
  induction l as [|y l IH]; simpl; [reflexivity|].
  destruct (SeatStatus.seat_number x <=? SeatStatus.seat_number y)%Z; [reflexivity|].
  rewrite IH. apply perm_swap.
Qed.

Lemma order_by_seat_number_perm l : Permutation (order_by_seat_number l) l.
Proof.
  induction l as [|x l IH]; simpl; [reflexivity|].
  rewrite insert_by_seat_number_perm. now constructor.
Qed.

Lemma insert_by_seat_number_sorted x l :
  StronglySorted by_seat_number l ->
  StronglySorted by_seat_number (insert_by_seat_number x l).
Proof.
  induction 1 as [|y l Hs IH Hall]; simpl.
  - repeat constructor.
  - destruct (SeatStatus.seat_number x <=? SeatStatus.seat_number y)%Z eqn:E.
    + apply Z.leb_le in E. constructor; [now constructor|].
      constructor; [exact E|].
      eapply Forall_impl; [|exact Hall]. unfold by_seat_number. intros; lia.
    + apply Z.leb_gt in E. constructor; [exact IH|].
      apply (Permutation_Forall (Permutation_sym (insert_by_seat_number_perm x l))).
      constructor; [unfold by_seat_number; lia|exact Hall].
Qed.

Lemma order_by_seat_number_sorted l :
  StronglySorted by_seat_number (order_by_seat_number l).
Proof.
  induction l as [|x l IH]; simpl; [constructor|].
  now apply insert_by_seat_number_sorted.
Qed.

Lemma exists_active_booking_true s d :
  exists_active_booking s d = true <->
  exists b, In b (bookings d)
            /\ Booking.bus_id b = Seat.bus_id s
            /\ Booking.seat_number b = Seat.seat_number s
            /\ (Booking.status b = "pending" \/ Booking.status b = "paid").
Proof.
  unfold exists_active_booking. rewrite existsb_exists.
  split; intros (b & Hb & H); exists b; (split; [exact Hb|]).
  - rewrite !andb_true_iff, String.eqb_eq, Z.eqb_eq, idx_predicate_true in H. tauto.
  - rewrite !andb_true_iff, String.eqb_eq, Z.eqb_eq, idx_predicate_true. tauto.
Qed.

Lemma get_seat_status_In caller B d r :
  In r (get_seat_status caller B d) <->
  exists s, In s (seats d) /\ Seat.bus_id s = B
            /\ r = seat_status_of (as_seen_by caller d) s.
Proof.
  unfold get_seat_status.
  rewrite (Permutation_in' (eq_refl r) (order_by_seat_number_perm _)).
  rewrite in_map_iff. split.
  - intros (s & <- & Hs). apply filter_In in Hs as [Hs HB].
    apply String.eqb_eq in HB. now exists s.
  - intros (s & Hs & HB & ->). exists s. split; [reflexivity|].
    apply filter_In. split; [exact Hs|]. now apply String.eqb_eq.
Qed.

Lemma as_seen_by_entitled caller d :
  Policy.bookings_select caller = true -> as_seen_by caller d = d.
Proof. unfold as_seen_by. intros ->. reflexivity. Qed.

Lemma as_seen_by_hidden caller d :
  Policy.bookings_select caller = false -> as_seen_by caller d = with_bookings d [].
Proof. unfold as_seen_by. intros ->. reflexivity. Qed.

Lemma bookings_insert_returning_select caller :
  Policy.bookings_insert_returning caller = Policy.bookings_select caller.
Proof. reflexivity. Qed.

End Availability.




(** ** Seats and bookings *)

(** C10. The INSERT of a booking never consults the [seats] table. For a bus
    and a seat number without a row in [seats], a valid form on a free seat
    number, sent by a caller the policies let insert and read the row back,
    creates a pending booking, and [get_seat_status] for that bus, before as
    after and whoever reads it, lists no record with that seat number. *)
Theorem booking_needs_no_seat_row :
  (forall caller d rows fresh now v amount,
     fst (BookingForm.onSubmit caller fresh now v amount (with_seats d rows))
     = fst (BookingForm.onSubmit caller fresh now v amount d))
  /\ (forall caller d fresh now v amount,
        Policy.bookings_insert_returning caller = true ->
        (forall s, In s (seats d) ->
                   Seat.bus_id s = BookingForm.bus_id v ->
                   Seat.seat_number s <> BookingForm.seat_number v) ->
        has_id Booking.id fresh (bookings d) = false ->
        active_count (BookingForm.bus_id v) (BookingForm.seat_number v) (bookings d) = 0%nat ->
        BookingForm.references_exist v d ->
        exists d',
          BookingForm.onSubmit caller fresh now v amount d = (BookingForm.Booking_created, d')
          /\ In (BookingForm.payload fresh now v amount) (bookings d')
          /\ Booking.status (BookingForm.payload fresh now v amount) = "pending"
          /\ Booking.bus_id (BookingForm.payload fresh now v amount) = BookingForm.bus_id v
          /\ Booking.seat_number (BookingForm.payload fresh now v amount) = BookingForm.seat_number v
          /\ forall viewer r,
               (In r (get_seat_status viewer (BookingForm.bus_id v) d)
                \/ In r (get_seat_status viewer (BookingForm.bus_id v) d')) ->
               SeatStatus.seat_number r <> BookingForm.seat_number v).
Proof.
  split; [intros; apply onSubmit_ignores_seats|].
  intros caller d fresh now v amount Hc Hnone Hfresh Hfree Hrefs.
  eexists. split; [now apply onSubmit_created|]. simpl.
  split; [apply in_or_app; right; now left|].
  repeat (split; [reflexivity|]).
  intros viewer r [Hr|Hr]; apply get_seat_status_In in Hr as (s & Hs & HB & ->); simpl;
    now apply Hnone.
Qed.

Lemma booking_needs_no_seat_row_witness :
  exists d',
    BookingForm.onSubmit authenticated Sample.booking1 100 (Sample.ama 7) 8000 Sample.db0
    = (BookingForm.Booking_created, d')
    /\ forall viewer r,
         (In r (get_seat_status viewer Sample.busA Sample.db0)
          \/ In r (get_seat_status viewer Sample.busA d')) ->
         SeatStatus.seat_number r <> 7.
Proof.
  destruct booking_needs_no_seat_row as (_ & H).
  destruct (H authenticated Sample.db0 Sample.booking1 100 (Sample.ama 7) 8000)
    as (d' & Hd' & _ & _ & _ & _ & Hview).
  - reflexivity.
  - simpl. intros s [<-|[<-|[<-|[]]]] _; simpl; discriminate.
  - reflexivity.
  - reflexivity.
  - repeat split.
  - exists d'. split; [exact Hd'|exact Hview].
Defined.




(** ** UPDATE of one booking *)

Section UpdateOne.

Variable d : db.
Variable b : Booking.row.
Variable now : Z.
Hypothesis primary_key : NoDup (map Booking.id (bookings d)).
Hypothesis stored : In b (bookings d).

Let rest := filter (fun r => negb (hit (Booking.id b) r)) (bookings d).

Lemma hit_self : hit (Booking.id b) b = true.
Proof. now apply hit_true. Qed.

Lemma filter_hit_stored : filter (hit (Booking.id b)) (bookings d) = [b].
Proof.
  assert (Hb : In b (filter (hit (Booking.id b)) (bookings d)))
    by (apply filter_In; split; [exact stored|apply hit_self]).
  destruct (hit_at_most_one (Booking.id b) _ primary_key) as [E|(r & E & _)];
    rewrite E in *.
  - destruct Hb.
  - destruct Hb as [->|[]]. reflexivity.
Qed.

Lemma hit_is_stored r : In r (bookings d) -> hit (Booking.id b) r = true -> r = b.
Proof.
  intros Hr Hh.
  assert (H : In r (filter (hit (Booking.id b)) (bookings d)))
    by (apply filter_In; now split).
  rewrite filter_hit_stored in H. destruct H as [<-|[]]. reflexivity.
Qed.

Lemma update_bookings_one p :
  update_bookings now p (Booking.id b) d
  = if index_untouched b (new_row now p b)
       || idx_unique_active_booking (new_row now p b) rest
    then inr (with_bookings d
                (map (fun r => if hit (Booking.id b) r then new_row now p r else r)
                     (bookings d)),
              [new_row now p b])
    else inl (unique_violation "idx_unique_active_booking").
Proof.
  unfold update_bookings. fold rest. rewrite filter_hit_stored. simpl map.
  match goal with |- (if ?c then _ else _) = _ => set (all := c) end.
  assert (E : all = index_untouched b (new_row now p b)
                    || idx_unique_active_booking (new_row now p b) rest).
  { apply eq_true_iff_eq. unfold all. rewrite forallb_forall. split.
    - intros H. specialize (H b stored). now rewrite hit_self in H.
    - intros H r Hr. destruct (hit (Booking.id b) r) eqn:Hh; [|reflexivity].
      now rewrite (hit_is_stored r Hr Hh). }
  now rewrite E.
Qed.

Lemma active_count_rest B N :
  active_count B N (bookings d)
  = ((if occupies B N b then 1 else 0) + active_count B N rest)%nat.
Proof.
  rewrite (active_count_split (Booking.id b)), filter_hit_stored.
  unfold active_count at 1. simpl. now destruct (occupies B N b).
Qed.

(** A patch that leaves [status] alone is always accepted. *)
Lemma update_bookings_metadata p :
  set_status p = None ->
  update_bookings now p (Booking.id b) d
  = inr (with_bookings d
           (map (fun r => if hit (Booking.id b) r then new_row now p r else r)
                (bookings d)),
         [new_row now p b]).
Proof.
  intros H. rewrite update_bookings_one.
  unfold index_untouched, apply_patch. simpl. rewrite H.
  now rewrite String.eqb_refl.
Qed.

(** A patch that sets [status] to pending or paid is refused exactly when
    the booking is neither and another booking holds its seat. *)
Lemma update_bookings_activate p s :
  (forall B N, (active_count B N (bookings d) <= 1)%nat) ->
  set_status p = Some s -> s = "pending" \/ s = "paid" ->
  update_bookings now p (Booking.id b) d
  = if held_by_other d b
    then inl (unique_violation "idx_unique_active_booking")
    else inr (with_bookings d
                (map (fun r => if hit (Booking.id b) r then new_row now p r else r)
                     (bookings d)),
              [new_row now p b]).
Proof.
  intros Hidx Hp Hs. rewrite update_bookings_one.
  set (b' := new_row now p b).
  assert (Hst : Booking.status b' = s) by (unfold b', apply_patch; simpl; now rewrite Hp).
  assert (Hact : idx_predicate b' = true) by (apply idx_predicate_true; now rewrite Hst).
  assert (Hocc' : occupies (Booking.bus_id b) (Booking.seat_number b) b' = true).
  { apply occupies_true. repeat split; [exact Hact]. }
  pose proof (active_count_rest (Booking.bus_id b) (Booking.seat_number b)) as Hsplit.
  specialize (Hidx (Booking.bus_id b) (Booking.seat_number b)).
  unfold held_by_other.
  destruct (idx_predicate b) eqn:Hb; simpl.
  - assert (Hocc : occupies (Booking.bus_id b) (Booking.seat_number b) b = true)
      by (apply occupies_true; auto).
    rewrite Hocc in Hsplit.
    rewrite (index_free_accepts b' rest) by (simpl; lia).
    now rewrite orb_true_r.
  - assert (Hocc : occupies (Booking.bus_id b) (Booking.seat_number b) b = false)
      by (unfold occupies; now rewrite Hb, andb_false_r).
    rewrite Hocc in Hsplit. simpl in Hsplit.
    assert (Hne : index_untouched b b' = false).
    { unfold index_untouched. apply String.eqb_neq. intros E.
      rewrite Hst in E. apply not_true_iff_false in Hb. apply Hb.
      apply idx_predicate_true. now rewrite E. }
    rewrite Hne. simpl.
    destruct (0 <? active_count (Booking.bus_id b) (Booking.seat_number b) (bookings d))%nat eqn:E.
    + apply Nat.ltb_lt in E.
      destruct (idx_unique_active_booking b' rest) eqn:A; [|reflexivity].
      pose proof (index_accepts_free _ _ _ _ A Hocc'). lia.
    + apply Nat.ltb_ge in E.
      now rewrite (index_free_accepts b' rest) by (simpl; lia).
Qed.

(** A patch that sets [status] to anything else is always accepted. *)
Lemma update_bookings_deactivate p s :
  set_status p = Some s -> s <> "pending" -> s <> "paid" ->
  update_bookings now p (Booking.id b) d
  = inr (with_bookings d
           (map (fun r => if hit (Booking.id b) r then new_row now p r else r)
                (bookings d)),
         [new_row now p b]).
Proof.
  intros Hp H1 H2. rewrite update_bookings_one.
  assert (Hidle : idx_predicate (new_row now p b) = false).
  { unfold idx_predicate, new_row, apply_patch. simpl. rewrite Hp.
    apply String.eqb_neq in H1, H2. now rewrite H1, H2. }
  unfold idx_unique_active_booking. rewrite Hidle. simpl. now rewrite orb_true_r.
Qed.

End UpdateOne.

(** ** The webhook *)

Section WebhookFacts.
Import Js Webhook.

Variable uuid_in : string -> option uuid.
Variable JSON_stringify : json -> string.
Variable now : Z.

Lemma isPaid_true v :
  isPaid v = true <->
  exists s, v = Some (JStr s)
            /\ In s ["Success"; "Successful"; "Completed"; "PAID"; "Paid"].
Proof.
  unfold isPaid. split.
  - destruct v as [[| | |s| |]|]; try discriminate. intros H.
    apply existsb_exists in H as (x & Hx & E). apply String.eqb_eq in E. subst x.
    now exists s.
  - intros (s & -> & Hs). apply existsb_exists. exists s. split; [exact Hs|].
    apply String.eqb_refl.
Qed.

Lemma updates_status n ref :
  set_status (updates JSON_stringify n ref)
  = if isPaid (status n) then Some "paid" else None.
Proof. reflexivity. Qed.

(** A request that carries a reference denoting the id [i]. *)
Lemma serve_reference sms req d n ref i :
  method req <> "OPTIONS" ->
  normalize (parse req) = inr n ->
  reference n = Some ref ->
  truthy (Some ref) = true ->
  uuid_in (to_String ref) = Some i ->
  serve uuid_in JSON_stringify now sms req d
  = match update_bookings now (updates JSON_stringify n ref) i d with
    | inl e =>
        mkOutcome (respond 500 (error_message (storage e))) d
          [console error "Failed updating booking from webhook"] []
    | inr (d', rows) =>
        mkOutcome (respond 200 ok_true) d' []
          (match hd_error rows with
           | Some r => if sms && isPaid (status n) then [(Booking.id r, r)] else []
           | None => []
           end)
    end.
Proof.
  intros Hm Hn Hr Ht Hu. apply String.eqb_neq in Hm.
  unfold serve, try_block, update_by_reference. rewrite Hm, Hn. unfold bind.
  rewrite Hr, Ht. cbn [negb]. rewrite Hu.
  destruct (update_bookings _ _ i d) as [e|[d' rows]]; reflexivity.
Qed.

Lemma replace_stored d b p :
  NoDup (map Booking.id (bookings d)) -> In b (bookings d) ->
  map (fun r => if hit (Booking.id b) r then new_row now p r else r) (bookings d)
  = map (fun r => if hit (Booking.id b) r then new_row now p b else r) (bookings d).
Proof.
  intros Hpk Hb. apply map_ext_in. intros r Hr.
  destruct (hit (Booking.id b) r) eqn:E; [|reflexivity].
  now rewrite (hit_is_stored d b Hpk Hb r Hr E).
Qed.

(** What a delivery does to the booking its reference denotes. *)
Lemma serve_matched sms req d n ref b :
  reachable d ->
  method req <> "OPTIONS" ->
  normalize (parse req) = inr n ->
  reference n = Some ref ->
  truthy (Some ref) = true ->
  uuid_in (to_String ref) = Some (Booking.id b) ->
  In b (bookings d) ->
  let b' := new_row now (updates JSON_stringify n ref) b in
  serve uuid_in JSON_stringify now sms req d
  = if isPaid (status n) && held_by_other d b
    then mkOutcome
           (respond 500
              (error_message (storage (unique_violation "idx_unique_active_booking"))))
           d [console error "Failed updating booking from webhook"] []
    else mkOutcome (respond 200 ok_true)
           (with_bookings d
              (map (fun r => if hit (Booking.id b) r then b' else r) (bookings d)))
           [] (if sms && isPaid (status n) then [(Booking.id b, b')] else []).
Proof.
  intros Hd Hm Hn Hr Ht Hu Hb b'. subst b'.
  destruct (reachable_well_formed d Hd) as [Hpk Hidx].
  rewrite (serve_reference sms req d n ref (Booking.id b) Hm Hn Hr Ht Hu).
  rewrite <- (replace_stored d b _ Hpk Hb).
  destruct (isPaid (status n)) eqn:P; simpl.
  - rewrite (update_bookings_activate d b now Hpk Hb _ "paid" Hidx);
      [|now rewrite updates_status, P|now right].
    destruct (held_by_other d b); [reflexivity|]. simpl. now rewrite andb_true_r.
  - rewrite (update_bookings_metadata d b now Hpk Hb);
      [|now rewrite updates_status, P]. simpl. now rewrite andb_false_r.
Qed.

Lemma held_by_other_false d b :
  held_by_other d b = false <->
  idx_predicate b = true
  \/ active_count (Booking.bus_id b) (Booking.seat_number b) (bookings d) = 0%nat.
Proof.
  unfold held_by_other. rewrite andb_false_iff, negb_false_iff, Nat.ltb_ge.
  split; intros [H|H]; auto; right; lia.
Qed.

End WebhookFacts.

(** ** Operator actions *)




Lemma db_cancelled_reachable : reachable Sample.db_cancelled.
Proof.
  pose (first := BookingForm.payload Sample.booking1 100 (Sample.ama 2) 8000).
  apply (reach_step (with_bookings Sample.db0 [first])).
  - apply (reach_step Sample.db0); [apply db0_reachable|].
    now apply (step_insert first).
  - now apply (step_update 200 (mkPatch (Some "cancelled") None None) Sample.booking1 _ _
                 [Sample.with_status 200 "cancelled" first]).
Qed.

(** C5, as the code has it. For a request other than OPTIONS whose body is
    not [null] and whose reference denotes a stored booking: [payment_reference]
    becomes [transactionId ?? reference] and [receipt_url] the receipt when one
    is given. When the status is one of Success, Successful, Completed, PAID,
    Paid, the booking becomes paid and the answer is 200, unless the booking is
    neither pending nor paid while another pending or paid booking holds its
    seat: then the partial unique index refuses the update, the answer is 500
    and nothing changes. For any other status the metadata is recorded, the
    status stays and the answer is 200. *)
Theorem webhook_update :
  forall uuid_in JSON_stringify now sms req d n ref b,
    reachable d ->
    Webhook.method req <> "OPTIONS" ->
    Webhook.normalize (Webhook.parse req) = inr n ->
    Webhook.reference n = Some ref ->
    Js.truthy (Some ref) = true ->
    uuid_in (Js.to_String ref) = Some (Booking.id b) ->
    In b (bookings d) ->
    let o := Webhook.serve uuid_in JSON_stringify now sms req d in
    let b' := new_row now (Webhook.updates JSON_stringify n ref) b in
    let replaced :=
      with_bookings d (map (fun r => if hit (Booking.id b) r then b' else r) (bookings d)) in
    (Webhook.isPaid (Webhook.status n) = true <->
     exists s, Webhook.status n = Some (Js.JStr s)
               /\ In s ["Success"; "Successful"; "Completed"; "PAID"; "Paid"])
    /\ Booking.payment_reference b'
       = Webhook.column_text JSON_stringify (Js.nullish (Webhook.transactionId n) ref)
    /\ (forall u, Webhook.receiptUrl n = Some u -> Js.truthy (Some u) = true ->
                  Booking.receipt_url b' = Webhook.column_text JSON_stringify u)
    /\ (Js.truthy (Webhook.receiptUrl n) = false ->
        Booking.receipt_url b' = Booking.receipt_url b)
    /\ (Webhook.isPaid (Webhook.status n) = true ->
        Booking.status b' = "paid"
        /\ (held_by_other d b = false ->
            Webhook.response o = Webhook.respond 200 Webhook.ok_true
            /\ Webhook.database o = replaced)
        /\ (held_by_other d b = true ->
            Webhook.response o
            = Webhook.respond 500
                (Webhook.error_message
                   (Webhook.storage (unique_violation "idx_unique_active_booking")))
            /\ Webhook.database o = d))
    /\ (Webhook.isPaid (Webhook.status n) = false ->
        Booking.status b' = Booking.status b
        /\ Webhook.response o = Webhook.respond 200 Webhook.ok_true
        /\ Webhook.database o = replaced).
Proof.
  intros uuid_in JSON_stringify now sms req d n ref b Hd Hm Hn Hr Ht Hu Hb o b' replaced.
  pose proof (serve_matched uuid_in JSON_stringify now sms req d n ref b Hd Hm Hn Hr Ht Hu Hb)
    as Hserve. cbv zeta in Hserve. fold b' in Hserve. fold o in Hserve.
  split; [apply isPaid_true|].
  split; [reflexivity|].
  split.
  { intros u Hu' Htu. unfold b', new_row, apply_patch, Webhook.updates.
    cbn [Booking.receipt_url set_receipt_url]. now rewrite Hu', Htu. }
  split.
  { intros Hf. unfold b', new_row, apply_patch, Webhook.updates.
    cbn [Booking.receipt_url set_receipt_url].
    destruct (Webhook.receiptUrl n) as [u|]; [|reflexivity]. now rewrite Hf. }
  split.
  - intros P. rewrite P in Hserve. simpl in Hserve. split; [|split].
    + unfold b', new_row, apply_patch, Webhook.updates. simpl. now rewrite P.
    + intros H. rewrite H in Hserve. rewrite Hserve. now split.
    + intros H. rewrite H in Hserve. rewrite Hserve. now split.
  - intros P. rewrite P in Hserve. simpl in Hserve. split; [|split].
    + unfold b', new_row, apply_patch, Webhook.updates. simpl. now rewrite P.
    + now rewrite Hserve.
    + now rewrite Hserve.
Qed.

Lemma webhook_update_witness :
  let o := Webhook.hubtel_webhook Sample.uuid_canonical Sample.stringify_unused 400
             (Sample.paid_callback Sample.booking1) Sample.db_cancelled in
  Webhook.response o = Webhook.respond 200 Webhook.ok_true
  /\ exists b', Webhook.database o = with_bookings Sample.db0 [b']
                /\ Booking.status b' = "paid"
                /\ Booking.payment_reference b' = Some "HUB-778".
Proof.
  pose (b := Sample.with_status 200 "cancelled"
               (BookingForm.payload Sample.booking1 100 (Sample.ama 2) 8000)).
  pose (n := Webhook.mkNormalized (Some (Js.JStr "Success"))
               (Some (Js.JStr Sample.booking1)) (Some (Js.JStr "HUB-778")) None).
  destruct (webhook_update Sample.uuid_canonical Sample.stringify_unused 400 false
              (Sample.paid_callback Sample.booking1) Sample.db_cancelled
              n (Js.JStr Sample.booking1) b)
    as (_ & Href & _ & _ & Hpaid & _).
  - apply db_cancelled_reachable.
  - discriminate.
  - reflexivity.
  - reflexivity.
  - reflexivity.
  - reflexivity.
  - simpl. now left.
  - destruct (Hpaid eq_refl) as (Hst & Hok & _).
    destruct (Hok eq_refl) as (Hresp & Hdb).
    split; [exact Hresp|].
    exists (new_row 400 (Webhook.updates Sample.stringify_unused n (Js.JStr Sample.booking1)) b).
    split; [exact Hdb|]. split; [exact Hst|exact Href].
Defined.

(** Against C5 as stated: the booking of the reference was cancelled and its
    seat booked again; the paid callback is answered 500 and nothing changes. *)
Lemma paid_callback_refused :
  reachable Sample.db_retaken
  /\ (exists b, In b (bookings Sample.db_retaken)
                /\ Booking.id b = Sample.booking1
                /\ Booking.status b = "cancelled")
  /\ Webhook.normalize (Webhook.parse (Sample.paid_callback Sample.booking1))
     = inr (Webhook.mkNormalized (Some (Js.JStr "Success"))
              (Some (Js.JStr Sample.booking1)) (Some (Js.JStr "HUB-778")) None)
  /\ let o := Webhook.hubtel_webhook Sample.uuid_canonical Sample.stringify_unused 400
                (Sample.paid_callback Sample.booking1) Sample.db_retaken in
     Webhook.response o
     = Webhook.respond 500
         (Webhook.error_message
            (Webhook.storage (unique_violation "idx_unique_active_booking")))
     /\ Webhook.database o = Sample.db_retaken.
Proof.
  split; [apply db_retaken_reachable|].
  split; [eexists; split; [simpl; left; reflexivity|split; reflexivity]|].
  split; [reflexivity|]. split; reflexivity.
Qed.

(** C9, as the code has it. The update filters on the id alone, so a paid
    callback for a cancelled booking makes it paid, provided no pending or paid
    booking holds its seat; when one does, the partial unique index refuses the
    update, the answer is 500 and the booking stays cancelled. *)
Theorem cancelled_to_paid :
  forall uuid_in JSON_stringify now sms req d n ref b,
    reachable d ->
    Webhook.method req <> "OPTIONS" ->
    Webhook.normalize (Webhook.parse req) = inr n ->
    Webhook.reference n = Some ref ->
    Js.truthy (Some ref) = true ->
    uuid_in (Js.to_String ref) = Some (Booking.id b) ->
    In b (bookings d) ->
    Booking.status b = "cancelled" ->
    Webhook.isPaid (Webhook.status n) = true ->
    let o := Webhook.serve uuid_in JSON_stringify now sms req d in
    let b' := new_row now (Webhook.updates JSON_stringify n ref) b in
    Booking.status b' = "paid"
    /\ (active_count (Booking.bus_id b) (Booking.seat_number b) (bookings d) = 0%nat ->
        Webhook.response o = Webhook.respond 200 Webhook.ok_true
        /\ Webhook.database o
           = with_bookings d
               (map (fun r => if hit (Booking.id b) r then b' else r) (bookings d))
        /\ In b' (bookings (Webhook.database o)))
    /\ (active_count (Booking.bus_id b) (Booking.seat_number b) (bookings d) <> 0%nat ->
        Webhook.response o
        = Webhook.respond 500
            (Webhook.error_message
               (Webhook.storage (unique_violation "idx_unique_active_booking")))
        /\ Webhook.database o = d).
Proof.
  intros uuid_in JSON_stringify now sms req d n ref b Hd Hm Hn Hr Ht Hu Hb Hc P o b'.
  pose proof (serve_matched uuid_in JSON_stringify now sms req d n ref b Hd Hm Hn Hr Ht Hu Hb)
    as Hserve. cbv zeta in Hserve. fold b' in Hserve. fold o in Hserve.
  rewrite P in Hserve. simpl in Hserve.
  assert (Hidle : idx_predicate b = false)
    by (unfold idx_predicate; now rewrite Hc).
  split; [|split].
  - unfold b', new_row, apply_patch, Webhook.updates. simpl. now rewrite P.
  - intros Hfree.
    assert (H : held_by_other d b = false) by (apply held_by_other_false; now right).
    rewrite H in Hserve. rewrite Hserve. simpl. repeat split.
    apply in_map_iff. exists b. split; [|exact Hb]. now rewrite hit_self.
  - intros Hheld.
    assert (H : held_by_other d b = true).
    { unfold held_by_other. rewrite Hidle. simpl. apply Nat.ltb_lt. lia. }
    rewrite H in Hserve. rewrite Hserve. now split.
Qed.

Lemma cancelled_to_paid_witness :
  let o := Webhook.hubtel_webhook Sample.uuid_canonical Sample.stringify_unused 400
             (Sample.post [("status", Js.JStr "Paid");
                           ("clientReference", Js.JStr Sample.booking1)])
             Sample.db_cancelled in
  Webhook.response o = Webhook.respond 200 Webhook.ok_true
  /\ exists b', In b' (bookings (Webhook.database o)) /\ Booking.status b' = "paid".
Proof.
  pose (b := Sample.with_status 200 "cancelled"
               (BookingForm.payload Sample.booking1 100 (Sample.ama 2) 8000)).
  pose (n := Webhook.mkNormalized (Some (Js.JStr "Paid"))
               (Some (Js.JStr Sample.booking1)) None None).
  destruct (cancelled_to_paid Sample.uuid_canonical Sample.stringify_unused 400 false
              (Sample.post [("status", Js.JStr "Paid");
                            ("clientReference", Js.JStr Sample.booking1)])
              Sample.db_cancelled n (Js.JStr Sample.booking1) b)
    as (Hst & Hfree & _).
  - apply db_cancelled_reachable.
  - discriminate.
  - reflexivity.
  - reflexivity.
  - reflexivity.
  - reflexivity.
  - simpl. now left.
  - reflexivity.
  - reflexivity.
  - destruct (Hfree eq_refl) as (Hresp & _ & Hin).
    split; [exact Hresp|].
    exists (new_row 400 (Webhook.updates Sample.stringify_unused n (Js.JStr Sample.booking1)) b).
    split; [exact Hin|exact Hst].
Defined.

(** Against C9 as stated: the seat of the cancelled booking was booked again;
    the paid callback leaves the booking cancelled. *)
Lemma cancelled_stays_cancelled :
  reachable Sample.db_retaken
  /\ let o := Webhook.hubtel_webhook Sample.uuid_canonical Sample.stringify_unused 400
                (Sample.post [("status", Js.JStr "Paid");
                              ("clientReference", Js.JStr Sample.booking1)])
                Sample.db_retaken in
     Webhook.http_status (Webhook.response o) = 500
     /\ forall b, In b (bookings (Webhook.database o)) ->
                  Booking.id b = Sample.booking1 ->
                  Booking.status b = "cancelled".
Proof.
  split; [apply db_retaken_reachable|]. split; [reflexivity|].
  simpl. intros b [<-|[<-|[]]]; [reflexivity|discriminate].
Qed.

(** ** Redelivery *)

Section Redelivery.
Import Js Webhook.

Variable uuid_in : string -> option uuid.
Variable JSON_stringify : json -> string.

Lemma new_row_again t1 t2 p r : new_row t2 p (new_row t1 p r) = new_row t2 p r.
Proof. destruct p as [[s|] [pr|] [ru|]]; reflexivity. Qed.

Lemma new_row_but_updated_at t1 t2 p r :
  but_updated_at (new_row t2 p r) = but_updated_at (new_row t1 p r).
Proof. reflexivity. Qed.

(** The time of an UPDATE decides neither its acceptance nor anything it
    stores other than [updated_at]. *)
Lemma update_bookings_time t1 t2 p i d :
  update_bookings t2 p i d
  = match update_bookings t1 p i d with
    | inl e => inl e
    | inr _ =>
        inr (with_bookings d
               (map (fun r => if hit i r then new_row t2 p r else r) (bookings d)),
             map (new_row t2 p) (filter (hit i) (bookings d)))
    end.
Proof.
  unfold update_bookings.
  change (forallb
            (fun r => negb (hit i r)
                      || index_untouched r (new_row t2 p r)
                      || idx_unique_active_booking (new_row t2 p r)
                           (filter (fun r0 => negb (hit i r0)) (bookings d)))
            (bookings d))
    with (forallb
            (fun r => negb (hit i r)
                      || index_untouched r (new_row t1 p r)
                      || idx_unique_active_booking (new_row t1 p r)
                           (filter (fun r0 => negb (hit i r0)) (bookings d)))
            (bookings d)).
  now destruct (forallb _ (bookings d)).
Qed.

Lemma updated_rows_again t1 t2 p i l :
  map (new_row t2 p)
      (filter (hit i) (map (fun r => if hit i r then new_row t1 p r else r) l))
  = map (new_row t2 p) (filter (hit i) l).
Proof.
  induction l as [|r l IH]; cbn [map filter]; [reflexivity|].
  destruct (hit i r) eqn:E.
  - assert (E' : hit i (new_row t1 p r) = true) by exact E.
    rewrite E'. cbn [map]. now rewrite new_row_again, IH.
  - rewrite E. exact IH.
Qed.

(** After an accepted UPDATE the same UPDATE, run again, stores what it
    would have stored had it run alone. *)
Lemma update_bookings_again t1 t2 p i d d' rows :
  update_bookings t1 p i d = inr (d', rows) ->
  update_bookings t2 p i d' = update_bookings t2 p i d.
Proof.
  intros H. rewrite (update_bookings_time t1 t2 p i d), H.
  apply update_bookings_inr in H as (-> & -> & _).
  set (f1 := fun r => if hit i r then new_row t1 p r else r).
  set (f2 := fun r => if hit i r then new_row t2 p r else r).
  assert (Hf : forall r, f2 (f1 r) = f2 r).
  { intros r. unfold f1, f2. destruct (hit i r) eqn:E; [|now rewrite E].
    assert (E' : hit i (new_row t1 p r) = true) by exact E.
    now rewrite E', new_row_again. }
  unfold update_bookings. simpl bookings. fold f1 f2.
  match goal with |- (if ?c then _ else _) = _ => assert (Hall : c = true) end.
  { apply forallb_forall. intros x Hx. apply in_map_iff in Hx as (r & <- & _).
    unfold f1. destruct (hit i r) eqn:E.
    - assert (E' : hit i (new_row t1 p r) = true) by exact E.
      rewrite E'. unfold index_untouched. rewrite new_row_again.
      change (Booking.status (new_row t2 p r)) with (Booking.status (new_row t1 p r)).
      now rewrite String.eqb_refl.
    - now rewrite E. }
  rewrite Hall. f_equal. f_equal.
  - unfold with_bookings. simpl. f_equal. rewrite map_map. now apply map_ext.
  - apply updated_rows_again.
Qed.

(** Two deliveries of a request leave what the second alone would leave. *)
Lemma serve_again t1 t2 sms req d :
  serve uuid_in JSON_stringify t2 sms req
    (database (serve uuid_in JSON_stringify t1 sms req d))
  = serve uuid_in JSON_stringify t2 sms req d.
Proof.
  unfold serve. destruct (method req =? "OPTIONS"); [reflexivity|].
  unfold try_block. destruct (normalize (parse req)) as [e|n]; [reflexivity|].
  unfold bind. destruct (reference n) as [ref|]; [|reflexivity].
  destruct (negb (truthy (Some ref))); [reflexivity|].
  unfold update_by_reference.
  destruct (uuid_in (to_String ref)) as [i|]; [|reflexivity].
  destruct (update_bookings t1 (updates JSON_stringify n ref) i d)
    as [e|[d' rows]] eqn:E.
  - reflexivity.
  - cbn [database]. rewrite (update_bookings_again _ t2 _ _ _ _ _ E).
    now rewrite (update_bookings_time t1 t2), E.
Qed.

(** The time of a delivery shows in [updated_at] only. *)
Lemma serve_time t1 t2 sms req d :
  let o1 := serve uuid_in JSON_stringify t1 sms req d in
  let o2 := serve uuid_in JSON_stringify t2 sms req d in
  response o2 = response o1
  /\ map but_updated_at (bookings (database o2))
     = map but_updated_at (bookings (database o1)).
Proof.
  cbv zeta. unfold serve. destruct (method req =? "OPTIONS"); [now split|].
  unfold try_block. destruct (normalize (parse req)) as [e|n]; [now split|].
  unfold bind. destruct (reference n) as [ref|]; [|now split].
  destruct (negb (truthy (Some ref))); [now split|].
  unfold update_by_reference.
  destruct (uuid_in (to_String ref)) as [i|]; [|now split].
  rewrite (update_bookings_time t1 t2).
  destruct (update_bookings t1 (updates JSON_stringify n ref) i d)
    as [e|[d' rows]] eqn:E; [now split|].
  apply update_bookings_inr in E as (-> & -> & _).
  cbn [response database bookings with_bookings]. split; [reflexivity|].
  rewrite !map_map. apply map_ext. intros r. now destruct (hit i r).
Qed.

Lemma nullish_not_null a ref : truthy (Some ref) = true -> nullish a ref <> JNull.
Proof.
  intros Ht. unfold nullish. destruct a as [[| | | | |]|]; try discriminate;
    intros ->; discriminate.
Qed.

Lemma column_text_not_null v : v <> JNull -> column_text JSON_stringify v <> None.
Proof. destruct v as [|[|]| | | |]; simpl; congruence. Qed.

Lemma update_bookings_absent now p i d :
  has_id Booking.id i (bookings d) = false ->
  update_bookings now p i d = inr (d, []).
Proof.
  intros H. apply has_id_false in H.
  assert (Hno : forall r, In r (bookings d) -> hit i r = false).
  { intros r Hr. destruct (hit i r) eqn:E; [|reflexivity].
    exfalso. apply H. apply in_map_iff. exists r. split; [|exact Hr].
    now apply hit_true. }
  unfold update_bookings.
  match goal with |- (if ?c then _ else _) = _ => assert (Hall : c = true) end.
  { apply forallb_forall. intros r Hr. now rewrite (Hno r Hr). }
  rewrite Hall. f_equal. f_equal.
  - destruct d as [pp ds rf bs st bk]. unfold with_bookings. simpl in *. f_equal.
    rewrite <- (map_id bk) at 2. apply map_ext_in. intros r Hr. now rewrite (Hno r Hr).
  - destruct (filter (hit i) (bookings d)) as [|x xs] eqn:F; [reflexivity|].
    assert (Hx : In x (filter (hit i) (bookings d))) by (rewrite F; now left).
    apply filter_In in Hx as [Hx Hh]. rewrite (Hno x Hx) in Hh. discriminate.
Qed.

Lemma normalize_total p : p <> JNull -> exists n, normalize p = inr n.
Proof.
  intros Hp. unfold normalize.
  assert (H : forall k ks, exists v, or_chain p k ks = inr v).
  { intros k ks. revert k. induction ks as [|k' ks IH]; intros k; simpl.
    - destruct p; try congruence; simpl; eexists; reflexivity.
    - destruct p; try congruence; simpl;
        try (destruct (IH k') as (v & Hv); simpl in Hv; exact (ex_intro _ v Hv)).
      destruct (truthy (lookup k fields)); [eexists; reflexivity|]. apply IH. }
  destruct (H "status" ["Status"; "transactionStatus"; "TransactionStatus"]) as (v1 & ->).
  destruct (H "clientReference" ["ClientReference"; "checkoutId"; "CheckoutId"]) as (v2 & ->).
  destruct (H "transactionId" ["TransactionId"]) as (v3 & ->).
  destruct (H "receiptUrl" ["ReceiptUrl"; "receiptURL"]) as (v4 & ->).
  simpl. eexists. reflexivity.
Qed.

End Redelivery.

(** C6, as the code has it. Two deliveries of a request, at times [t1] and
    [t2], leave the database that the delivery at [t2] alone would leave and
    are answered alike; against what the first delivery left, the second moves
    [updated_at] only. For a recognised paid status and a reference denoting a
    stored booking: unless the booking is neither pending nor paid while
    another pending or paid booking holds its seat, both deliveries are
    answered 200 and the booking is then paid with [payment_reference] set to
    [transactionId ?? reference]; in the excepted case both deliveries are
    answered 500 and the booking is left as it was. *)
Theorem webhook_redelivery :
  forall uuid_in JSON_stringify t1 t2 sms req d,
    let o1 := Webhook.serve uuid_in JSON_stringify t1 sms req d in
    let o2 := Webhook.serve uuid_in JSON_stringify t2 sms req (Webhook.database o1) in
    o2 = Webhook.serve uuid_in JSON_stringify t2 sms req d
    /\ Webhook.response o2 = Webhook.response o1
    /\ map but_updated_at (bookings (Webhook.database o2))
       = map but_updated_at (bookings (Webhook.database o1))
    /\ forall n ref b,
         reachable d ->
         Webhook.method req <> "OPTIONS" ->
         Webhook.normalize (Webhook.parse req) = inr n ->
         Webhook.reference n = Some ref ->
         Js.truthy (Some ref) = true ->
         uuid_in (Js.to_String ref) = Some (Booking.id b) ->
         In b (bookings d) ->
         Webhook.isPaid (Webhook.status n) = true ->
         let b' := new_row t2 (Webhook.updates JSON_stringify n ref) b in
         (held_by_other d b = false ->
          Webhook.response o1 = Webhook.respond 200 Webhook.ok_true
          /\ Webhook.response o2 = Webhook.respond 200 Webhook.ok_true
          /\ In b' (bookings (Webhook.database o2))
          /\ (forall r, In r (bookings (Webhook.database o2)) ->
                        Booking.id r = Booking.id b -> r = b')
          /\ Booking.status b' = "paid"
          /\ Booking.payment_reference b'
             = Webhook.column_text JSON_stringify (Js.nullish (Webhook.transactionId n) ref)
          /\ Booking.payment_reference b' <> None)
         /\ (held_by_other d b = true ->
             Webhook.http_status (Webhook.response o1) = 500
             /\ Webhook.http_status (Webhook.response o2) = 500
             /\ Webhook.database o2 = d).
Proof.
  intros uuid_in JSON_stringify t1 t2 sms req d o1 o2.
  assert (Hagain : o2 = Webhook.serve uuid_in JSON_stringify t2 sms req d)
    by apply serve_again.
  destruct (serve_time uuid_in JSON_stringify t1 t2 sms req d) as (Hresp & Hrows).
  fold o1 in Hresp, Hrows. rewrite <- Hagain in Hresp, Hrows.
  split; [exact Hagain|]. split; [exact Hresp|]. split; [exact Hrows|].
  intros n ref b Hd Hm Hn Hr Ht Hu Hb P b'. rewrite <- Hresp.
  pose proof (serve_matched uuid_in JSON_stringify t2 sms req d n ref b Hd Hm Hn Hr Ht Hu Hb)
    as Hserve. cbv zeta in Hserve. fold b' in Hserve. rewrite <- Hagain in Hserve.
  rewrite P in Hserve. simpl in Hserve.
  split; intros Hheld; rewrite Hheld in Hserve; rewrite Hserve; simpl.
  - split; [reflexivity|]. split; [reflexivity|].
    split; [|split; [|split; [|split]]].
    + apply in_map_iff. exists b. split; [|exact Hb]. now rewrite hit_self.
    + intros r Hin Hid. apply in_map_iff in Hin as (r0 & <- & _).
      destruct (hit (Booking.id b) r0) eqn:E; [reflexivity|].
      apply hit_true in Hid. congruence.
    + unfold b', new_row, apply_patch, Webhook.updates. simpl. now rewrite P.
    + reflexivity.
    + apply column_text_not_null. now apply nullish_not_null.
  - now repeat split.
Qed.

Lemma webhook_redelivery_witness :
  let o1 := Webhook.hubtel_webhook Sample.uuid_canonical Sample.stringify_unused 400
              (Sample.paid_callback Sample.booking1) Sample.db_pending in
  let o2 := Webhook.hubtel_webhook Sample.uuid_canonical Sample.stringify_unused 500
              (Sample.paid_callback Sample.booking1) (Webhook.database o1) in
  Webhook.response o2 = Webhook.respond 200 Webhook.ok_true
  /\ exists b', In b' (bookings (Webhook.database o2))
                /\ Booking.status b' = "paid"
                /\ Booking.payment_reference b' = Some "HUB-778".
Proof.
  pose (b := BookingForm.payload Sample.booking1 100 (Sample.ama 1) 8000).
  pose (n := Webhook.mkNormalized (Some (Js.JStr "Success"))
               (Some (Js.JStr Sample.booking1)) (Some (Js.JStr "HUB-778")) None).
  destruct (webhook_redelivery Sample.uuid_canonical Sample.stringify_unused 400 500 false
              (Sample.paid_callback Sample.booking1) Sample.db_pending)
    as (_ & _ & _ & Hpaid).
  destruct (Hpaid n (Js.JStr Sample.booking1) b) as (Hfree & _).
  - apply db_pending_reachable.
  - discriminate.
  - reflexivity.
  - reflexivity.
  - reflexivity.
  - reflexivity.
  - simpl. now left.
  - reflexivity.
  - destruct (Hfree eq_refl) as (_ & Hresp & Hin & _ & Hst & Href & _).
    split; [exact Hresp|].
    exists (new_row 500 (Webhook.updates Sample.stringify_unused n (Js.JStr Sample.booking1)) b).
    split; [exact Hin|]. split; [exact Hst|exact Href].
Defined.

(** Against C6 as stated: the booking of the reference was cancelled and its
    seat booked again; the second delivery is answered 500 like the first, and
    the booking is not paid. *)
Lemma redelivery_refused_again :
  reachable Sample.db_retaken
  /\ let o1 := Webhook.hubtel_webhook Sample.uuid_canonical Sample.stringify_unused 400
                 (Sample.paid_callback Sample.booking1) Sample.db_retaken in
     let o2 := Webhook.hubtel_webhook Sample.uuid_canonical Sample.stringify_unused 500
                 (Sample.paid_callback Sample.booking1) (Webhook.database o1) in
     Webhook.http_status (Webhook.response o2) = 500
     /\ Webhook.database o2 = Sample.db_retaken
     /\ exists b, In b (bookings (Webhook.database o2))
                  /\ Booking.id b = Sample.booking1
                  /\ Booking.status b = "cancelled"
                  /\ Booking.payment_reference b = None.
Proof.
  split; [apply db_retaken_reachable|]. split; [reflexivity|]. split; [reflexivity|].
  eexists. split; [simpl; left; reflexivity|]. now repeat split.
Qed.

(** C8, as the code has it. An OPTIONS request is answered 200 with an empty
    body. For any other request whose body is not [null]: when the body is not
    JSON, or no truthy reference is found in it, or the reference denotes an id
    that no booking has, the answer is 200 with [{ ok: true }]; when the
    reference is not the text of a UUID the storage layer reports an error and
    the answer is 500. In all these cases the database is left as it was. *)
Theorem webhook_unmatched :
  forall uuid_in JSON_stringify now sms req d,
    let o := Webhook.serve uuid_in JSON_stringify now sms req d in
    (Webhook.method req = "OPTIONS" ->
     Webhook.response o = Webhook.mkResponse 200 None /\ Webhook.database o = d)
    /\ (Webhook.method req <> "OPTIONS" ->
        (Webhook.body req = None ->
         Webhook.response o = Webhook.respond 200 Webhook.ok_true
         /\ Webhook.database o = d)
        /\ (Webhook.parse req <> Js.JNull ->
            exists n, Webhook.normalize (Webhook.parse req) = inr n)
        /\ forall n,
             Webhook.normalize (Webhook.parse req) = inr n ->
             (Js.truthy (Webhook.reference n) = false ->
              Webhook.response o = Webhook.respond 200 Webhook.ok_true
              /\ Webhook.database o = d)
             /\ forall ref,
                  Webhook.reference n = Some ref ->
                  Js.truthy (Some ref) = true ->
                  (forall i,
                     uuid_in (Js.to_String ref) = Some i ->
                     has_id Booking.id i (bookings d) = false ->
                     Webhook.response o = Webhook.respond 200 Webhook.ok_true
                     /\ Webhook.database o = d)
                  /\ (uuid_in (Js.to_String ref) = None ->
                      Webhook.response o
                      = Webhook.respond 500
                          (Webhook.error_message
                             (Webhook.storage invalid_text_representation))
                      /\ Webhook.database o = d)).
Proof.
  intros uuid_in JSON_stringify now sms req d o. split.
  - intros Hm. unfold o, Webhook.serve. rewrite Hm. now split.
  - intros Hm. split; [|split].
    + intros Hbody. apply String.eqb_neq in Hm.
      unfold o, Webhook.serve, Webhook.try_block, Webhook.parse.
      rewrite Hm, Hbody. now split.
    + apply normalize_total.
    + intros n Hn. split.
      * intros Hf. apply String.eqb_neq in Hm.
        unfold o, Webhook.serve, Webhook.try_block. rewrite Hm, Hn.
        unfold Js.bind. destruct (Webhook.reference n) as [ref|]; [|now split].
        rewrite Hf. now split.
      * intros ref Hr Ht. split.
        -- intros i Hu Habs.
           unfold o. rewrite (serve_reference uuid_in JSON_stringify now sms req d n ref i Hm Hn Hr Ht Hu).
           rewrite (update_bookings_absent _ _ _ _ Habs). now split.
        -- intros Hu. apply String.eqb_neq in Hm.
           unfold o, Webhook.serve, Webhook.try_block, Webhook.update_by_reference.
           rewrite Hm, Hn. unfold Js.bind. rewrite Hr, Ht. cbn [negb]. rewrite Hu.
           now split.
Qed.

Lemma webhook_unmatched_witness :
  let o := Webhook.hubtel_webhook Sample.uuid_canonical Sample.stringify_unused 400
             (Sample.paid_callback Sample.absent) Sample.db_pending in
  Webhook.response o = Webhook.respond 200 Webhook.ok_true
  /\ Webhook.database o = Sample.db_pending.
Proof.
  pose (n := Webhook.mkNormalized (Some (Js.JStr "Success"))
               (Some (Js.JStr Sample.absent)) (Some (Js.JStr "HUB-778")) None).
  destruct (webhook_unmatched Sample.uuid_canonical Sample.stringify_unused 400 false
              (Sample.paid_callback Sample.absent) Sample.db_pending) as (_ & H).
  destruct H as (_ & _ & H); [discriminate|].
  destruct (H n eq_refl) as (_ & Href).
  destruct (Href (Js.JStr Sample.absent) eq_refl eq_refl) as (Habsent & _).
  exact (Habsent Sample.absent eq_refl eq_refl).
Defined.

(** Against C8 as stated: a preflight request gets no [{ ok: true }], and a
    reference that is not the text of a UUID, matching no booking, gets 500. *)
Lemma unmatched_not_acknowledged :
  Webhook.response
    (Webhook.hubtel_webhook Sample.uuid_canonical Sample.stringify_unused 400
       (Webhook.mkRequest "OPTIONS" None) Sample.db_pending)
  = Webhook.mkResponse 200 None
  /\ (forall b, In b (bookings Sample.db_pending) -> Booking.id b <> "ticket-17")
  /\ Webhook.response
       (Webhook.hubtel_webhook Sample.uuid_canonical Sample.stringify_unused 400
          (Sample.paid_callback "ticket-17") Sample.db_pending)
     = Webhook.respond 500
         (Webhook.error_message (Webhook.storage invalid_text_representation)).
Proof.
  split; [reflexivity|]. split; [|reflexivity].
  simpl. intros b [<-|[]]. discriminate.
Qed.

(** A body that is the JSON value [null] makes the first property read
    throw; the outer [catch] answers 500. *)
Remark null_body_throws :
  forall uuid_in JSON_stringify now sms d,
    Webhook.response
      (Webhook.serve uuid_in JSON_stringify now sms
         (Webhook.mkRequest "POST" (Some Js.JNull)) d)
    = Webhook.respond 500 (Webhook.error_message (Webhook.thrown Js.TypeError)).
Proof. reflexivity. Qed.

(** ** Confirmation SMS *)

Section Sms.
Import Js Webhook.

Variable uuid_in : string -> option uuid.
Variable JSON_stringify : json -> string.
Variable now : Z.
Variable env : string -> option string.

Let client_id := getenv2 env "HUBTEL_SMS_CLIENT_ID" "HUBTEL_CLIENT_ID" "".
Let client_secret := getenv2 env "HUBTEL_SMS_CLIENT_SECRET" "HUBTEL_CLIENT_SECRET" "".
Let sender := match env "HUBTEL_SMS_FROM" with Some v => v | None => "ATTTransport" end.

Lemma sendSmsViaHubtel_posts gateway to content :
  filter is_post (sendSmsViaHubtel env gateway to content)
  = if (client_id =? "") || (client_secret =? "") then []
    else [sms_post client_id client_secret sender to content].
Proof.
  unfold sendSmsViaHubtel. fold client_id client_secret sender.
  destruct ((client_id =? "") || (client_secret =? "")); [reflexivity|].
  cbn [filter is_post].
  destruct (gateway _) as [[ok data]|]; [destruct (send_error ok data)|]; reflexivity.
Qed.

Lemma sendPaidConfirmationSms_posts gateway d i b :
  filter is_post (sendPaidConfirmationSms env gateway d i (Some b))
  = match normalizeGhanaMsisdn (Booking.phone b) with
    | Some to =>
        if (to =? "") || (client_id =? "") || (client_secret =? "") then []
        else [sms_post client_id client_secret sender to (sms_text d i b)]
    | None => []
    end.
Proof.
  unfold sendPaidConfirmationSms.
  destruct (Booking.phone b =? "") eqn:E.
  - unfold normalizeGhanaMsisdn. now rewrite E.
  - destruct (normalizeGhanaMsisdn (Booking.phone b)) as [to|]; [|reflexivity].
    destruct (to =? ""); [reflexivity|]. apply sendSmsViaHubtel_posts.
Qed.

(** The normalised number is empty exactly when the entry keeps no digit and
    at most one plus sign. *)
Lemma normalizeGhanaMsisdn_empty input to :
  normalizeGhanaMsisdn input = Some to ->
  let digits := keep (fun c => is_digit c || (c =? "+")%char) input in
  to = "" <-> (digits = "" \/ digits = "+").
Proof.
  assert (P : forall s, prefix "" s = true) by now intros [|].
  unfold normalizeGhanaMsisdn. destruct (input =? ""); [discriminate|].
  cbv zeta. destruct (keep _ input) as [|c r].
  - intros H. injection H as <-. split; [now left|reflexivity].
  - cbn [prefix]. destruct (Ascii.ascii_dec "+" c) as [<-|Hc].
    + rewrite P. intros H. injection H as <-. cbn [tail]. split.
      * intros ->. now right.
      * intros [H|H]; [discriminate|]. now injection H.
    + assert (Hno : ~ (String c r = "" \/ String c r = "+")).
      { intros [H|H]; [discriminate|]. injection H as H _. congruence. }
      assert (Hall : forall t : string, t <> "" -> t = "" <-> (String c r = "" \/ String c r = "+")).
      { intros t Ht. split; [contradiction|tauto]. }
      repeat match goal with
             | |- context [if ?b then _ else _] => destruct b
             end;
        intros H; injection H as <-; apply Hall; discriminate.
Qed.

(** Every scheduled task belongs to a row the database already holds as
    paid, and there is at most one. *)
Lemma waitUntil_paid sms req d t :
  let o := serve uuid_in JSON_stringify now sms req d in
  In t (waitUntil o) ->
  waitUntil o = [t]
  /\ sms = true
  /\ response o = respond 200 ok_true
  /\ fst t = Booking.id (snd t)
  /\ In (snd t) (bookings (database o))
  /\ Booking.status (snd t) = "paid".
Proof.
  cbv zeta. unfold serve. destruct (method req =? "OPTIONS"); [intros []|].
  unfold try_block. destruct (normalize (parse req)) as [e|n]; [intros []|].
  unfold bind. destruct (reference n) as [ref|]; [|intros []].
  destruct (negb (truthy (Some ref))); [intros []|].
  unfold update_by_reference.
  destruct (uuid_in (to_String ref)) as [i|]; [|intros []].
  destruct (update_bookings now (updates JSON_stringify n ref) i d)
    as [e|[d' rows]] eqn:E; [intros []|].
  cbn zeta. cbn [waitUntil response database].
  destruct (hd_error rows) as [r|] eqn:Hr; [|intros []].
  destruct sms; [|intros []]. destruct (isPaid (status n)) eqn:P; [|intros []].
  cbn [andb]. intros [<-|[]]. cbn [fst snd].
  apply update_bookings_inr in E as (-> & -> & _).
  destruct (filter (hit i) (bookings d)) as [|r0 l] eqn:F; [discriminate|].
  injection Hr as <-.
  assert (H0 : In r0 (filter (hit i) (bookings d))) by (rewrite F; now left).
  apply filter_In in H0 as [Hin Hh].
  repeat split.
  - cbn [bookings with_bookings]. apply in_map_iff. exists r0. now rewrite Hh.
  - unfold new_row, apply_patch, updates. simpl. now rewrite P.
Qed.

Lemma serve_sms_only_schedules req d :
  let o := serve uuid_in JSON_stringify now true req d in
  let o' := serve uuid_in JSON_stringify now false req d in
  response o' = response o /\ database o' = database o
  /\ effects o' = effects o /\ waitUntil o' = [].
Proof.
  cbv zeta. unfold serve. destruct (method req =? "OPTIONS"); [now repeat split|].
  unfold try_block. destruct (normalize (parse req)) as [e|n]; [now repeat split|].
  unfold bind. destruct (reference n) as [ref|]; [|now repeat split].
  destruct (negb (truthy (Some ref))); [now repeat split|].
  destruct (update_by_reference uuid_in now _ ref d) as [e|[d' [r|]]];
    now repeat split.
Qed.

Lemma sms_text_parts d i b :
  let pick := name_of id name (Booking.pickup_point_id b) (pickup_points d) in
  let dest := name_of Destination.id Destination.name (Booking.destination_id b)
                (destinations d) in
  pick <> "" -> dest <> "" -> Booking.seat_number b <> 0%Z ->
  sms_text d i b
  = substring 0 300
      (String.concat " "
         [ "ATT Transport: Payment confirmed.";
           (pick ++ " -> " ++ dest) ++ ".";
           "Seat " ++ decimal (Booking.seat_number b) ++ ".";
           "GHS " ++ toFixed2 (Booking.amount b) ++ ".";
           "Ref: " ++ substring 0 8 i ++ ".";
           "Show SMS at boarding." ]).
Proof.
  intros pick dest Hp Hd Hs. unfold sms_text. fold pick dest.
  apply Z.eqb_neq in Hs. rewrite Hs.
  destruct pick as [|c1 p1]; [congruence|]. destruct dest as [|c2 p2]; [congruence|].
  reflexivity.
Qed.

End Sms.

(** C7, as the code has it. The handler with the SMS code hands a
    confirmation task to the runtime exactly when a delivery with a recognised
    paid status was stored for the booking of its reference and answered 200,
    also when that booking was paid already (a second delivery schedules what
    a first one would); the row is in the database as paid before the task is
    built. The task posts at most one SMS: one, to the
    normalised phone and with route, seat, amount and the first eight
    characters of the id, when the normalised phone is not empty and the
    credentials are set, none otherwise. The normalised phone is empty exactly
    when the entry keeps no digit and at most one plus sign; an entry of seven
    plus signs is normalised to six plus signs, and the SMS is posted to that.
    Without a task nothing is posted. What the gateway answers shows on the
    console only:
    response and database are fixed before the task runs. The handler without
    the SMS code answers and stores the same and schedules nothing. *)
Theorem confirmation_sms :
  forall uuid_in JSON_stringify now env gateway req d,
    let o := Webhook.hubtel_webhook_sms uuid_in JSON_stringify now req d in
    let posts := filter Webhook.is_post (Webhook.background env gateway o) in
    let client_id := Webhook.getenv2 env "HUBTEL_SMS_CLIENT_ID" "HUBTEL_CLIENT_ID" "" in
    let client_secret :=
      Webhook.getenv2 env "HUBTEL_SMS_CLIENT_SECRET" "HUBTEL_CLIENT_SECRET" "" in
    let sender := match env "HUBTEL_SMS_FROM" with Some v => v | None => "ATTTransport" end in
    (forall t, In t (Webhook.waitUntil o) ->
       Webhook.waitUntil o = [t]
       /\ Webhook.response o = Webhook.respond 200 Webhook.ok_true
       /\ fst t = Booking.id (snd t)
       /\ In (snd t) (bookings (Webhook.database o))
       /\ Booking.status (snd t) = "paid")
    /\ (forall n ref b,
          reachable d ->
          Webhook.method req <> "OPTIONS" ->
          Webhook.normalize (Webhook.parse req) = inr n ->
          Webhook.reference n = Some ref ->
          Js.truthy (Some ref) = true ->
          uuid_in (Js.to_String ref) = Some (Booking.id b) ->
          In b (bookings d) ->
          Webhook.isPaid (Webhook.status n) = true ->
          held_by_other d b = false ->
          Webhook.waitUntil o
          = [(Booking.id b, new_row now (Webhook.updates JSON_stringify n ref) b)])
    /\ (forall later,
          Webhook.waitUntil
            (Webhook.hubtel_webhook_sms uuid_in JSON_stringify later req (Webhook.database o))
          = Webhook.waitUntil
              (Webhook.hubtel_webhook_sms uuid_in JSON_stringify later req d))
    /\ (posts = []
        \/ exists t to,
             Webhook.waitUntil o = [t]
             /\ Webhook.normalizeGhanaMsisdn (Booking.phone (snd t)) = Some to
             /\ posts = [Webhook.sms_post client_id client_secret sender to
                           (Webhook.sms_text (Webhook.database o) (fst t) (snd t))])
    /\ (forall t to,
          Webhook.waitUntil o = [t] ->
          Webhook.normalizeGhanaMsisdn (Booking.phone (snd t)) = Some to ->
          to <> "" -> client_id <> "" -> client_secret <> "" ->
          posts = [Webhook.sms_post client_id client_secret sender to
                     (Webhook.sms_text (Webhook.database o) (fst t) (snd t))])
    /\ (Webhook.waitUntil o = [] -> posts = [])
    /\ (forall t,
          Webhook.waitUntil o = [t] ->
          Webhook.normalizeGhanaMsisdn (Booking.phone (snd t)) = None
          \/ Webhook.normalizeGhanaMsisdn (Booking.phone (snd t)) = Some ""
          \/ client_id = "" \/ client_secret = "" ->
          posts = [])
    /\ (forall input to,
          Webhook.normalizeGhanaMsisdn input = Some to ->
          to = "" <->
          (Webhook.keep (fun c => Webhook.is_digit c || (c =? "+")%char) input = ""
           \/ Webhook.keep (fun c => Webhook.is_digit c || (c =? "+")%char) input = "+"))
    /\ Webhook.normalizeGhanaMsisdn "+++++++" = Some "++++++"
    /\ (forall gateway',
          filter Webhook.is_post (Webhook.background env gateway' o) = posts)
    /\ (forall i b,
          let pick := Webhook.name_of id name (Booking.pickup_point_id b)
                        (pickup_points (Webhook.database o)) in
          let dest := Webhook.name_of Destination.id Destination.name
                        (Booking.destination_id b) (destinations (Webhook.database o)) in
          pick <> "" -> dest <> "" -> Booking.seat_number b <> 0%Z ->
          Webhook.sms_text (Webhook.database o) i b
          = substring 0 300
              (String.concat " "
                 [ "ATT Transport: Payment confirmed.";
                   (pick ++ " -> " ++ dest) ++ ".";
                   "Seat " ++ Js.decimal (Booking.seat_number b) ++ ".";
                   "GHS " ++ Webhook.toFixed2 (Booking.amount b) ++ ".";
                   "Ref: " ++ substring 0 8 i ++ ".";
                   "Show SMS at boarding." ]))
    /\ (let o' := Webhook.hubtel_webhook uuid_in JSON_stringify now req d in
        Webhook.response o' = Webhook.response o
        /\ Webhook.database o' = Webhook.database o
        /\ Webhook.waitUntil o' = []).
Proof.
  intros uuid_in JSON_stringify now env gateway req d o posts client_id client_secret sender.
  assert (Hposts : forall g,
            filter Webhook.is_post (Webhook.background env g o) = []
            \/ exists t to,
                 Webhook.waitUntil o = [t]
                 /\ Webhook.normalizeGhanaMsisdn (Booking.phone (snd t)) = Some to
                 /\ ((to =? "") || (client_id =? "") || (client_secret =? "") = false)
                 /\ filter Webhook.is_post (Webhook.background env g o)
                    = [Webhook.sms_post client_id client_secret sender to
                         (Webhook.sms_text (Webhook.database o) (fst t) (snd t))]).
  { intros g. unfold Webhook.background.
    destruct (Webhook.waitUntil o) as [|t l] eqn:W; [now left|].
    assert (Hl : t :: l = [t]).
    { pose proof (waitUntil_paid uuid_in JSON_stringify now true req d t) as H.
      cbv zeta in H. fold (Webhook.hubtel_webhook_sms uuid_in JSON_stringify now) in H.
      fold o in H. rewrite W in H. now apply H; left. }
    injection Hl as ->. cbn [flat_map]. rewrite app_nil_r.
    rewrite sendPaidConfirmationSms_posts.
    destruct (Webhook.normalizeGhanaMsisdn (Booking.phone (snd t))) as [to|] eqn:Hn;
      [|now left].
    fold client_id client_secret.
    destruct ((to =? "") || (client_id =? "") || (client_secret =? "")) eqn:C;
      [now left|].
    right. exists t, to. repeat split; auto. }
  split; [|split; [|split; [|split; [|split; [|split; [|split; [|split; [|split;
    [|split; [|split]]]]]]]]]].
  - intros t Ht.
    pose proof (waitUntil_paid uuid_in JSON_stringify now true req d t) as H.
    cbv zeta in H. fold (Webhook.hubtel_webhook_sms uuid_in JSON_stringify now) in H.
    fold o in H. destruct (H Ht) as (H1 & _ & H2 & H3 & H4 & H5). now repeat split.
  - intros n ref b Hd Hm Hn Hr Ht Hu Hb P Hfree.
    unfold o, Webhook.hubtel_webhook_sms.
    rewrite (serve_matched uuid_in JSON_stringify now true req d n ref b Hd Hm Hn Hr Ht Hu Hb).
    rewrite P, Hfree. reflexivity.
  - intros later. unfold o, Webhook.hubtel_webhook_sms. now rewrite serve_again.
  - destruct (Hposts gateway) as [H|(t & to & W & Hn & _ & H)]; [now left|].
    right. now exists t, to.
  - intros t to W Hn Hto Hid Hsec.
    destruct (Hposts gateway) as [H|(t' & to' & W' & Hn' & _ & H)].
    + exfalso. revert H. unfold Webhook.background. rewrite W. cbn [flat_map].
      rewrite app_nil_r, sendPaidConfirmationSms_posts, Hn.
      fold client_id client_secret.
      apply String.eqb_neq in Hto, Hid, Hsec. rewrite Hto, Hid, Hsec. discriminate.
    + rewrite W in W'. injection W' as <-. rewrite Hn in Hn'. injection Hn' as <-.
      exact H.
  - intros W. unfold posts, Webhook.background. now rewrite W.
  - intros t W Hcase. unfold posts, Webhook.background. rewrite W. cbn [flat_map].
    rewrite app_nil_r, sendPaidConfirmationSms_posts. fold client_id client_secret.
    destruct (Webhook.normalizeGhanaMsisdn (Booking.phone (snd t))) as [to|];
      [|reflexivity].
    destruct Hcase as [H|[H|[H|H]]]; [discriminate| | |].
    + injection H as ->. reflexivity.
    + rewrite H. cbn. now rewrite orb_true_r.
    + rewrite H. cbn. now rewrite !orb_true_r.
  - intros input to H. now apply normalizeGhanaMsisdn_empty.
  - reflexivity.
  - intros g. unfold posts.
    destruct (Hposts g) as [H|(t & to & W & Hn & C & H)];
      destruct (Hposts gateway) as [H'|(t' & to' & W' & Hn' & C' & H')].
    + now rewrite H, H'.
    + exfalso. revert H. unfold Webhook.background. rewrite W'. cbn [flat_map].
      rewrite app_nil_r, sendPaidConfirmationSms_posts, Hn'.
      fold client_id client_secret. rewrite C'. discriminate.
    + exfalso. revert H'. unfold Webhook.background. rewrite W. cbn [flat_map].
      rewrite app_nil_r, sendPaidConfirmationSms_posts, Hn.
      fold client_id client_secret. rewrite C. discriminate.
    + rewrite H, H'. rewrite W in W'. injection W' as <-.
      rewrite Hn in Hn'. now injection Hn' as <-.
  - intros i b. apply sms_text_parts.
  - pose proof (serve_sms_only_schedules uuid_in JSON_stringify now req d) as H.
    cbv zeta in H. destruct H as (H1 & H2 & _ & H3). now repeat split.
Qed.

Lemma confirmation_sms_witness :
  let o := Webhook.hubtel_webhook_sms Sample.uuid_canonical Sample.stringify_unused 400
             (Sample.paid_callback Sample.booking1) Sample.db_pending in
  filter Webhook.is_post (Webhook.background Sample.hubtel_env Sample.gateway_down o)
  = [Webhook.sms_post "client" "secret" "ATTTransport" "233241234567"
       "ATT Transport: Payment confirmed. Main Campus -> Kumasi. Seat 1. GHS 80.00. Ref: b0010000. Show SMS at boarding."]
  /\ Webhook.response o = Webhook.respond 200 Webhook.ok_true.
Proof.
  pose (b := BookingForm.payload Sample.booking1 100 (Sample.ama 1) 8000).
  pose (n := Webhook.mkNormalized (Some (Js.JStr "Success"))
               (Some (Js.JStr Sample.booking1)) (Some (Js.JStr "HUB-778")) None).
  destruct (confirmation_sms Sample.uuid_canonical Sample.stringify_unused 400
              Sample.hubtel_env Sample.gateway_down
              (Sample.paid_callback Sample.booking1) Sample.db_pending)
    as (Htask & Hone & _ & _ & Hpost & _).
  assert (W : Webhook.waitUntil
                (Webhook.hubtel_webhook_sms Sample.uuid_canonical Sample.stringify_unused 400
                   (Sample.paid_callback Sample.booking1) Sample.db_pending)
              = [(Booking.id b,
                  new_row 400 (Webhook.updates Sample.stringify_unused n
                                 (Js.JStr Sample.booking1)) b)]).
  { apply Hone.
    - apply db_pending_reachable.
    - discriminate.
    - reflexivity.
    - reflexivity.
    - reflexivity.
    - reflexivity.
    - simpl. now left.
    - reflexivity.
    - reflexivity. }
  split.
  - apply (Hpost _ "233241234567" W); [reflexivity|discriminate..].
  - apply (Htask (Booking.id b,
                  new_row 400 (Webhook.updates Sample.stringify_unused n
                                 (Js.JStr Sample.booking1)) b)).
    rewrite W. now left.
Defined.

(** Against C7 as stated: a booking paid once gets a second SMS when the
    callback is delivered again; a booking whose phone entry holds neither
    digit nor plus sign becomes paid without any SMS; and the operator's Mark Paid makes a booking
    paid through a statement that has no SMS attached. *)
Lemma paid_without_exactly_one_sms :
  (let deliver := fun now =>
         Webhook.hubtel_webhook_sms Sample.uuid_canonical Sample.stringify_unused now
           (Sample.paid_callback Sample.booking1) in
   let o1 := deliver 400 Sample.db_pending in
   let o2 := deliver 500 (Webhook.database o1) in
   map Booking.status (bookings Sample.db_pending) = ["pending"]
   /\ map Booking.status (bookings (Webhook.database o1)) = ["paid"]
   /\ map Booking.status (bookings (Webhook.database o2)) = ["paid"]
   /\ List.length
        (filter Webhook.is_post
           (Webhook.background Sample.hubtel_env Sample.gateway_up o1
            ++ Webhook.background Sample.hubtel_env Sample.gateway_up o2)%list)
      = 2%nat)
  /\ (let o := Webhook.hubtel_webhook_sms Sample.uuid_canonical Sample.stringify_unused 400
                 (Sample.paid_callback Sample.booking2) Sample.db_pending_esi in
      Webhook.response o = Webhook.respond 200 Webhook.ok_true
      /\ Webhook.database o
         = with_bookings Sample.db0
             [new_row 400 (mkPatch (Some "paid") (Some (Some "HUB-778")) None)
                (BookingForm.payload Sample.booking2 100 Sample.esi 8000)]
      /\ Webhook.background Sample.hubtel_env Sample.gateway_up o = [])
  /\ AdminBookings.updateBookingStatus 200 Sample.booking1 "paid" Sample.db_pending
     = (AdminBookings.Success, Sample.db_paid1).
Proof.
  split; [repeat split|]. split; [|reflexivity].
  split; [reflexivity|]. split; reflexivity.
Qed.

(** * Further properties *)

(** ** Recipient and text of the confirmation SMS *)

Section MsisdnFacts.
Import Js Webhook WebhookScope.

Lemma only_keep f s : Text.only f (keep f s) = true.
Proof.
  induction s as [|c r IH]; [reflexivity|]. cbn [keep].
  destruct (f c) eqn:E; [cbn [Text.only]; now rewrite E|exact IH].
Qed.

Lemma only_tail f s : Text.only f s = true -> Text.only f (tail s) = true.
Proof. destruct s as [|c r]; [easy|]. cbn. now intros [_ H]%andb_prop. Qed.

Lemma normalizeGhanaMsisdn_only input r :
  normalizeGhanaMsisdn input = Some r -> Text.only digit_or_plus r = true.
Proof.
  unfold normalizeGhanaMsisdn. destruct (input =? ""); [discriminate|].
  cbv zeta. fold digit_or_plus.
  pose proof (only_keep digit_or_plus input) as K.
  destruct (prefix "+" _); [intros [= <-]; now apply only_tail|].
  destruct (prefix "233" _); [intros [= <-]; exact K|].
  destruct (_ && _); intros [= <-]; [|exact K].
  cbn [Text.only]. now rewrite (only_tail _ _ K).
Qed.

Lemma substring_0_length n s : (String.length (substring 0 n s) <= n)%nat.
Proof.
  revert s. induction n as [|n IH]; intros [|c r]; cbn; try lia.
  specialize (IH r). lia.
Qed.

Lemma sendSmsViaHubtel_post_inv env gateway to content cid sec from t c :
  In (sms_post cid sec from t c) (sendSmsViaHubtel env gateway to content) ->
  cid = getenv2 env "HUBTEL_SMS_CLIENT_ID" "HUBTEL_CLIENT_ID" ""
  /\ sec = getenv2 env "HUBTEL_SMS_CLIENT_SECRET" "HUBTEL_CLIENT_SECRET" ""
  /\ cid <> "" /\ sec <> "" /\ t = to /\ c = content.
Proof.
  unfold sendSmsViaHubtel. cbv zeta.
  destruct (_ =? "") eqn:E1; cbn [orb]; [now intros [H|[]]|].
  destruct (getenv2 env "HUBTEL_SMS_CLIENT_SECRET" _ _ =? "") eqn:E2;
    [now intros [H|[]]|].
  apply String.eqb_neq in E1, E2.
  intros [H|H].
  - injection H as <- <- _ <- <-. now repeat split.
  - destruct (gateway _) as [[ok data]|]; [destruct (send_error ok data)|];
      now destruct H as [H|[]].
Qed.

Lemma sendPaidConfirmationSms_post_inv env gateway d i b cid sec from t c :
  In (sms_post cid sec from t c) (sendPaidConfirmationSms env gateway d i (Some b)) ->
  normalizeGhanaMsisdn (Booking.phone b) = Some t
  /\ t <> "" /\ cid <> "" /\ sec <> "" /\ c = sms_text d i b.
Proof.
  unfold sendPaidConfirmationSms.
  destruct (Booking.phone b =? ""); [intros []|].
  destruct (normalizeGhanaMsisdn (Booking.phone b)) as [to|]; [|intros []].
  destruct (to =? "") eqn:E; [intros []|]. apply String.eqb_neq in E.
  intros (_ & _ & ? & ? & -> & ->)%sendSmsViaHubtel_post_inv. now repeat split.
Qed.

End MsisdnFacts.

(** X1. The usual spellings of one Ghanaian number normalise to the same
    MSISDN. Whatever separators the entry holds, once only digits and [+] are
    kept: a local number [0n] with at least nine characters after the zero, the
    international [+233n] and the bare [233n] all give [233n]. *)
Theorem msisdn_spellings :
  forall s1 s2 s3 n,
    Webhook.keep WebhookScope.digit_or_plus s1 = "0" ++ n ->
    Webhook.keep WebhookScope.digit_or_plus s2 = "+233" ++ n ->
    Webhook.keep WebhookScope.digit_or_plus s3 = "233" ++ n ->
    (9 <= String.length n)%nat ->
    Webhook.normalizeGhanaMsisdn s1 = Some ("233" ++ n)
    /\ Webhook.normalizeGhanaMsisdn s2 = Some ("233" ++ n)
    /\ Webhook.normalizeGhanaMsisdn s3 = Some ("233" ++ n).
Proof.
  intros s1 s2 s3 n H1 H2 H3 Hn.
  assert (E : forall s k c, Webhook.keep WebhookScope.digit_or_plus s = String c k ->
                            (s =? "") = false).
  { intros s k c H. apply String.eqb_neq. intros ->. discriminate. }
  unfold Webhook.normalizeGhanaMsisdn. cbv zeta.
  fold WebhookScope.digit_or_plus.
  rewrite (E _ _ _ H1), (E _ _ _ H2), (E _ _ _ H3), H1, H2, H3.
  assert (P : forall s, prefix "" s = true) by now intros [|].
  repeat split; cbn [prefix append Webhook.tail String.length];
    repeat match goal with
           | |- context [Ascii.ascii_dec ?a ?b] =>
               destruct (Ascii.ascii_dec a b); [try discriminate|try congruence]
           end;
    rewrite ?P; try reflexivity.
  cbn [andb]. replace (10 <=? S (String.length n))%nat with true; [reflexivity|].
  symmetry. apply Nat.leb_le. lia.
Qed.

Lemma msisdn_spellings_witness :
  Webhook.normalizeGhanaMsisdn "024 123 4567" = Some "233241234567"
  /\ Webhook.normalizeGhanaMsisdn "+233 (24) 123-4567" = Some "233241234567"
  /\ Webhook.normalizeGhanaMsisdn "233-24-123-4567" = Some "233241234567".
Proof.
  apply (msisdn_spellings "024 123 4567" "+233 (24) 123-4567" "233-24-123-4567"
           "241234567"); [reflexivity..|cbn; lia].
Defined.

(** X2. Whatever request arrives and whatever the database holds, every SMS
    the webhook causes is posted with non-empty credentials, to a non-empty
    recipient made of digits and [+] only, with a text of at most 300
    characters. *)
Theorem sms_post_shape :
  forall uuid_in JSON_stringify now env gateway req d cid sec from to content,
    In (Webhook.sms_post cid sec from to content)
       (Webhook.background env gateway
          (Webhook.hubtel_webhook_sms uuid_in JSON_stringify now req d)) ->
    cid <> "" /\ sec <> "" /\ to <> ""
    /\ Text.only WebhookScope.digit_or_plus to = true
    /\ (String.length content <= 300)%nat.
Proof.
  intros uuid_in JSON_stringify now env gateway req d cid sec from to content H.
  unfold Webhook.background in H. apply in_flat_map in H as (t & _ & H).
  apply sendPaidConfirmationSms_post_inv in H as (Hn & Ht & Hc & Hs & ->).
  repeat split; try assumption.
  - eapply normalizeGhanaMsisdn_only, Hn.
  - apply substring_0_length.
Qed.

Lemma sms_post_shape_witness :
  "233241234567" <> ""
  /\ Text.only WebhookScope.digit_or_plus "233241234567" = true.
Proof.
  pose proof (sms_post_shape Sample.uuid_canonical Sample.stringify_unused 400
                Sample.hubtel_env Sample.gateway_up
                (Sample.paid_callback Sample.booking1) Sample.db_pending
                "client" "secret" "ATTTransport" "233241234567"
                "ATT Transport: Payment confirmed. Main Campus -> Kumasi. Seat 1. GHS 80.00. Ref: b0010000. Show SMS at boarding.")
    as H.
  assert (Hin : In (Webhook.sms_post "client" "secret" "ATTTransport" "233241234567"
                      "ATT Transport: Payment confirmed. Main Campus -> Kumasi. Seat 1. GHS 80.00. Ref: b0010000. Show SMS at boarding.")
                   (Webhook.background Sample.hubtel_env Sample.gateway_up
                      (Webhook.hubtel_webhook_sms Sample.uuid_canonical
                         Sample.stringify_unused 400
                         (Sample.paid_callback Sample.booking1) Sample.db_pending)))
    by (vm_compute; left; reflexivity).
  destruct (H Hin) as (_ & _ & Ht & Ho & _). split; assumption.
Defined.

(** X3. The text of the confirmation SMS never exceeds 300 characters and
    always opens with the confirmation sentence, whatever the lengths of the
    names and of the booking id. *)
Theorem sms_text_bounds :
  forall d bookingId b,
    (String.length (Webhook.sms_text d bookingId b) <= 300)%nat
    /\ prefix "ATT Transport: Payment confirmed. " (Webhook.sms_text d bookingId b) = true.
Proof.
  intros d i b. split; [apply substring_0_length|].
  unfold Webhook.sms_text. cbv zeta.
  destruct (String.concat " -> " _) as [|c r];
    destruct (Booking.seat_number b =? 0)%Z; reflexivity.
Qed.

(** X4. The SMS client id, once set, is the one used: the general Hubtel
    client id is a fallback for an unset variable only. A variable set to the
    empty text therefore stops the SMS with the warning about missing
    credentials, whatever the general id is. *)
Theorem sms_credentials_override :
  forall env gateway to content i,
    env "HUBTEL_SMS_CLIENT_ID" = Some i ->
    (i = "" ->
     Webhook.sendSmsViaHubtel env gateway to content
     = [Webhook.console Webhook.warn "Hubtel SMS credentials missing"])
    /\ (forall cid sec from t c,
          In (Webhook.sms_post cid sec from t c)
             (Webhook.sendSmsViaHubtel env gateway to content) ->
          cid = i).
Proof.
  intros env gateway to content i Hi. split.
  - intros ->. unfold Webhook.sendSmsViaHubtel, Webhook.getenv2. now rewrite Hi.
  - intros cid sec from t c (-> & _)%sendSmsViaHubtel_post_inv.
    unfold Webhook.getenv2. now rewrite Hi.
Qed.

Lemma sms_credentials_override_witness :
  Webhook.sendSmsViaHubtel Scenario.env_blank_sms Sample.gateway_up "233241234567" "text"
  = [Webhook.console Webhook.warn "Hubtel SMS credentials missing"].
Proof.
  exact (proj1 (sms_credentials_override Scenario.env_blank_sms Sample.gateway_up
                  "233241234567" "text" "" eq_refl) eq_refl).
Defined.

(** ** Reach of the webhook *)

Section WebhookReadFacts.
Import Js Webhook WebhookScope.

Lemma or_chain_ext f1 f2 ks k :
  (forall k', In k' (k :: ks) -> lookup k' f1 = lookup k' f2) ->
  or_chain (JObj f1) k ks = or_chain (JObj f2) k ks.
Proof.
  revert k. induction ks as [|k1 ks IH]; intros k H; cbn [or_chain prop bind].
  - now rewrite (H k (or_introl eq_refl)).
  - rewrite (H k (or_introl eq_refl)). destruct (truthy _); [reflexivity|].
    apply IH. intros k' Hk'. apply H. now right.
Qed.

Lemma normalize_ext f1 f2 :
  (forall k, In k read_keys -> lookup k f1 = lookup k f2) ->
  normalize (JObj f1) = normalize (JObj f2).
Proof.
  intros H. unfold normalize.
  rewrite (or_chain_ext f1 f2 ["Status"; "transactionStatus"; "TransactionStatus"] "status"),
    (or_chain_ext f1 f2 ["ClientReference"; "checkoutId"; "CheckoutId"] "clientReference"),
    (or_chain_ext f1 f2 ["TransactionId"] "transactionId"),
    (or_chain_ext f1 f2 ["ReceiptUrl"; "receiptURL"] "receiptUrl");
    [reflexivity
    |intros k Hk; apply H; unfold read_keys; cbn in Hk |- *; intuition auto 20..].
Qed.

End WebhookReadFacts.

Section WebhookScopeFacts.
Import Js Webhook WebhookScope.

Variable uuid_in : string -> option uuid.
Variable JSON_stringify : json -> string.
Variable now : Z.

Lemma serve_database sms req d :
  let o := serve uuid_in JSON_stringify now sms req d in
  database o = d
  \/ exists p i,
       (set_status p = None \/ set_status p = Some "paid")
       /\ database o
          = with_bookings d
              (map (fun r => if hit i r then new_row now p r else r) (bookings d)).
Proof.
  cbv zeta. unfold serve. destruct (method req =? "OPTIONS"); [now left|].
  unfold try_block. destruct (normalize (parse req)) as [e|n]; [now left|].
  unfold bind. destruct (reference n) as [ref|]; [|now left].
  destruct (negb (truthy (Some ref))); [now left|].
  unfold update_by_reference.
  destruct (uuid_in (to_String ref)) as [i|]; [|now left].
  destruct (update_bookings now (updates JSON_stringify n ref) i d)
    as [e|[d' rows]] eqn:E; [now left|].
  right. exists (updates JSON_stringify n ref), i. split.
  - rewrite updates_status. destruct (isPaid (status n)); auto.
  - apply update_bookings_inr in E as (-> & _). reflexivity.
Qed.

Lemma with_bookings_back d rows :
  with_bookings (with_bookings d rows) (bookings d) = d.
Proof. now destruct d. Qed.

End WebhookScopeFacts.

(** X5. No request makes the webhook do more than annotate bookings: in its
    database the other tables are as before, the bookings are the same rows
    in the same order with the passenger, seat, amount and creation columns
    untouched, and the status of each is its old status or paid. The webhook
    never creates, deletes, cancels or un-pays a booking. *)
Theorem webhook_confined :
  forall uuid_in JSON_stringify now sms req d,
    let o := Webhook.serve uuid_in JSON_stringify now sms req d in
    with_bookings (Webhook.database o) (bookings d) = d
    /\ map WebhookScope.fixed_columns (bookings (Webhook.database o))
       = map WebhookScope.fixed_columns (bookings d)
    /\ Forall2 (fun old new =>
                  Booking.status new = Booking.status old
                  \/ Booking.status new = "paid")
               (bookings d) (bookings (Webhook.database o)).
Proof.
  intros uuid_in JSON_stringify now sms req d o.
  destruct (serve_database uuid_in JSON_stringify now sms req d)
    as [E|(p & i & Hp & E)]; fold o in E; rewrite E.
  - repeat split; [now destruct d|].
    clear E. induction (bookings d); constructor; auto.
  - rewrite with_bookings_back. cbn [bookings with_bookings]. repeat split.
    + rewrite map_map. apply map_ext. intros r. now destruct (hit i r).
    + clear E. induction (bookings d) as [|r l IH]; cbn [map]; constructor;
        [|exact IH].
      destruct (hit i r); [|now left].
      unfold new_row, apply_patch. cbn [Booking.status update_updated_at_column].
      destruct Hp as [-> | ->]; auto.
Qed.

(** X6. The outcome of the webhook depends on the thirteen properties that
    key normalisation reads and on nothing else of a JSON object body: two
    bodies that agree on those properties, in whatever order their fields
    come and whatever further fields they carry, are served alike. *)
Theorem webhook_reads_only :
  forall uuid_in JSON_stringify now sms m f1 f2 d,
    (forall k, In k WebhookScope.read_keys -> Js.lookup k f1 = Js.lookup k f2) ->
    Webhook.serve uuid_in JSON_stringify now sms (Webhook.mkRequest m (Some (Js.JObj f1))) d
    = Webhook.serve uuid_in JSON_stringify now sms (Webhook.mkRequest m (Some (Js.JObj f2))) d.
Proof.
  intros uuid_in JSON_stringify now sms m f1 f2 d H.
  unfold Webhook.serve, Webhook.try_block, Webhook.parse.
  cbn [Webhook.method Webhook.body].
  now rewrite (normalize_ext f1 f2 H).
Qed.

Lemma webhook_reads_only_witness :
  Webhook.serve Sample.uuid_canonical Sample.stringify_unused 400 true
    (Sample.paid_callback Sample.booking1) Sample.db_pending
  = Webhook.serve Sample.uuid_canonical Sample.stringify_unused 400 true
      (Sample.post [("Message", Js.JStr "ok"); ("TransactionId", Js.JStr "HUB-778");
                    ("ClientReference", Js.JStr Sample.booking1);
                    ("Data", Js.JObj [("Status", Js.JStr "Failed")]);
                    ("Status", Js.JStr "Success")])
      Sample.db_pending.
Proof.
  apply (webhook_reads_only Sample.uuid_canonical Sample.stringify_unused 400 true "POST").
  intros k Hk. unfold WebhookScope.read_keys in Hk.
  repeat (destruct Hk as [<-|Hk]; [reflexivity|]). destruct Hk.
Defined.

(** ** Seat map and ledger together *)

Section SeatMapFacts.

Lemma insert_by_seat_number_map f x l :
  (forall r, SeatStatus.seat_number (f r) = SeatStatus.seat_number r) ->
  insert_by_seat_number (f x) (map f l) = map f (insert_by_seat_number x l).
Proof.
  intros Hf. induction l as [|y l IH]; [reflexivity|].
  cbn [map insert_by_seat_number]. rewrite !Hf.
  destruct (_ <=? _)%Z; [reflexivity|]. cbn [map]. now rewrite IH.
Qed.

Lemma order_by_seat_number_map f l :
  (forall r, SeatStatus.seat_number (f r) = SeatStatus.seat_number r) ->
  order_by_seat_number (map f l) = map f (order_by_seat_number l).
Proof.
  intros Hf. induction l as [|x l IH]; [reflexivity|].
  cbn [map order_by_seat_number]. rewrite IH.
  now apply insert_by_seat_number_map.
Qed.

Lemma exists_active_booking_false s d :
  exists_active_booking s d = false ->
  active_count (Seat.bus_id s) (Seat.seat_number s) (bookings d) = 0%nat.
Proof.
  intros H. apply active_count_0. intros o Ho.
  unfold exists_active_booking in H.
  rewrite <- not_true_iff_false, existsb_exists in H.
  apply not_true_is_false. intros Hocc. apply H. now exists o.
Qed.

Lemma exists_active_booking_app s d r :
  exists_active_booking s (with_bookings d (bookings d ++ [r])%list)
  = exists_active_booking s d
    || occupies (Seat.bus_id s) (Seat.seat_number s) r.
Proof.
  unfold exists_active_booking. cbn [bookings with_bookings].
  rewrite existsb_app. cbn [existsb]. now rewrite orb_false_r.
Qed.

End SeatMapFacts.

(** X7. Cancelling from the admin page is one UPDATE by id that never looks
    at the stored status: on any reachable database it succeeds for every
    stored booking, also one that a payment has marked paid since the card
    was drawn. If the booking was pending or paid, its seat then has no
    pending or paid booking, and the next valid form for that seat, sent by a
    caller the policies let insert and read the row back, is accepted. *)
Theorem cancel_releases_seat :
  forall now d b,
    reachable d -> In b (bookings d) ->
    let b' := new_row now (mkPatch (Some "cancelled") None None) b in
    let d1 := with_bookings d
                (map (fun r => if hit (Booking.id b) r then b' else r) (bookings d)) in
    AdminBookings.updateBookingStatus now (Booking.id b) "cancelled" d
    = (AdminBookings.Success, d1)
    /\ Booking.status b' = "cancelled"
    /\ (idx_predicate b = true ->
        active_count (Booking.bus_id b) (Booking.seat_number b) (bookings d1) = 0%nat
        /\ forall caller fresh now' v amount,
             Policy.bookings_insert_returning caller = true ->
             BookingForm.bus_id v = Booking.bus_id b ->
             BookingForm.seat_number v = Booking.seat_number b ->
             has_id Booking.id fresh (bookings d1) = false ->
             BookingForm.references_exist v d ->
             BookingForm.onSubmit caller fresh now' v amount d1
             = (BookingForm.Booking_created,
                with_bookings d1
                  (bookings d1 ++ [BookingForm.payload fresh now' v amount])%list)).
Proof.
  intros now d b Hr Hb b' d1.
  destruct (reachable_well_formed d Hr) as [Hpk Hidx].
  pose (p := mkPatch (Some "cancelled") None None).
  assert (Hd1 : d1 = with_bookings d
                       (map (fun r => if hit (Booking.id b) r then new_row now p r else r)
                            (bookings d))).
  { unfold d1, b'. fold p. now rewrite (replace_stored now d b p Hpk Hb). }
  split; [|split; [reflexivity|]].
  - unfold AdminBookings.updateBookingStatus. fold p.
    rewrite (update_bookings_deactivate d b now Hpk Hb p "cancelled");
      [now rewrite Hd1|reflexivity|discriminate|discriminate].
  - intros Hact.
    assert (H0 : active_count (Booking.bus_id b) (Booking.seat_number b) (bookings d1)
                 = 0%nat).
    { rewrite Hd1. cbn [bookings with_bookings].
      rewrite active_count_updated, (filter_hit_stored d b Hpk Hb).
      pose proof (active_count_rest d b Hpk Hb (Booking.bus_id b) (Booking.seat_number b))
        as Hc.
      specialize (Hidx (Booking.bus_id b) (Booking.seat_number b)).
      assert (Ho : occupies (Booking.bus_id b) (Booking.seat_number b) b = true).
      { apply occupies_true. now repeat split. }
      rewrite Ho in Hc.
      assert (Hn : occupies (Booking.bus_id b) (Booking.seat_number b) (new_row now p b)
                   = false).
      { unfold occupies, idx_predicate. cbn. now rewrite !andb_false_r. }
      unfold active_count at 1. cbn [map filter]. rewrite Hn. cbn [List.length]. lia. }
    split; [exact H0|].
    intros caller fresh now' v amount Hc Hbus Hseat Hfresh Hrefs.
    apply onSubmit_created;
      [exact Hc|exact Hfresh|now rewrite Hbus, Hseat|exact Hrefs].
Qed.

Lemma cancel_releases_seat_witness :
  exists d1,
    AdminBookings.updateBookingStatus 400 Sample.booking1 "cancelled" Sample.db_paid1
    = (AdminBookings.Success, d1)
    /\ exists d2,
         BookingForm.onSubmit authenticated Sample.booking2 500 (Sample.kojo 1) 8000 d1
         = (BookingForm.Booking_created, d2).
Proof.
  destruct (cancel_releases_seat 400 Sample.db_paid1
              (Sample.with_status 200 "paid"
                 (BookingForm.payload Sample.booking1 100 (Sample.ama 1) 8000))
              db_paid1_reachable (or_introl eq_refl)) as (H1 & _ & H2).
  eexists. split; [exact H1|]. destruct (H2 eq_refl) as [_ H3].
  eexists. apply (H3 authenticated Sample.booking2 500 (Sample.kojo 1) 8000);
    [reflexivity|reflexivity|reflexivity|reflexivity|now repeat split].
Defined.

(** X8. Once a form is accepted, the seat map of its bus, read by a
    viewer with a SELECT policy on [bookings], is the former map with the
    booked seat number marked taken, so that its button is disabled; read by
    a viewer without one it is the map it was. The maps of the other buses do
    not change. *)
Theorem booked_seat_shown_taken :
  forall caller fresh now v amount d d',
    BookingForm.onSubmit caller fresh now v amount d = (BookingForm.Booking_created, d') ->
    (forall viewer,
       Policy.bookings_select viewer = true ->
       get_seat_status viewer (BookingForm.bus_id v) d'
       = map (fun r => if (SeatStatus.seat_number r =? BookingForm.seat_number v)%Z
                       then SeatStatus.mk (SeatStatus.seat_number r)
                              (SeatStatus.is_active r) "taken"
                       else r)
             (get_seat_status viewer (BookingForm.bus_id v) d)
       /\ (forall r, In r (get_seat_status viewer (BookingForm.bus_id v) d') ->
                     SeatStatus.seat_number r = BookingForm.seat_number v ->
                     SeatMap.SeatButton r = None))
    /\ (forall viewer,
          Policy.bookings_select viewer = false ->
          get_seat_status viewer (BookingForm.bus_id v) d'
          = get_seat_status viewer (BookingForm.bus_id v) d)
    /\ (forall viewer B, B <> BookingForm.bus_id v ->
                  get_seat_status viewer B d' = get_seat_status viewer B d).
Proof.
  intros caller fresh now v amount d d' H.
  apply onSubmit_created_inv in H as [_ ->].
  set (d' := with_bookings d _).
  set (f := fun r => if (SeatStatus.seat_number r =? BookingForm.seat_number v)%Z
                     then SeatStatus.mk (SeatStatus.seat_number r)
                            (SeatStatus.is_active r) "taken"
                     else r).
  assert (Hf : forall r, SeatStatus.seat_number (f r) = SeatStatus.seat_number r).
  { intros r. unfold f. now destruct (_ =? _)%Z. }
  assert (Hocc : forall s,
             occupies (Seat.bus_id s) (Seat.seat_number s)
               (BookingForm.payload fresh now v amount)
             = (BookingForm.bus_id v =? Seat.bus_id s)
               && (BookingForm.seat_number v =? Seat.seat_number s)%Z).
  { intros s. unfold occupies, idx_predicate. cbn. now rewrite andb_true_r. }
  assert (Hhid : forall viewer B,
             Policy.bookings_select viewer = false ->
             get_seat_status viewer B d' = get_seat_status viewer B d).
  { intros viewer B Hv. unfold get_seat_status.
    now rewrite !(as_seen_by_hidden _ _ Hv). }
  assert (E1 : forall viewer,
             Policy.bookings_select viewer = true ->
             get_seat_status viewer (BookingForm.bus_id v) d'
             = map f (get_seat_status viewer (BookingForm.bus_id v) d)).
  { intros viewer Hv. unfold get_seat_status.
    rewrite !(as_seen_by_entitled _ _ Hv).
    rewrite <- order_by_seat_number_map by exact Hf.
    f_equal. cbn [seats d' with_bookings]. rewrite map_map.
    apply map_ext_in. intros s [_ Hs]%filter_In. apply String.eqb_eq in Hs.
    unfold seat_status_of, d'. rewrite exists_active_booking_app, Hocc, Hs.
    rewrite String.eqb_refl. cbn [andb]. unfold f. cbn [SeatStatus.seat_number].
    rewrite (Z.eqb_sym (Seat.seat_number s)).
    destruct (_ =? _)%Z; [now rewrite orb_true_r|now rewrite orb_false_r]. }
  split; [|split].
  - intros viewer Hv. split; [now apply E1|].
    intros r Hr Hn. rewrite (E1 viewer Hv) in Hr.
    apply in_map_iff in Hr as (r0 & <- & _).
    rewrite Hf in Hn. unfold f. apply Z.eqb_eq in Hn. rewrite Hn.
    unfold SeatMap.SeatButton, SeatMap.disabled. cbn. now rewrite orb_true_r.
  - intros viewer Hv. now apply Hhid.
  - intros viewer B HB.
    destruct (Policy.bookings_select viewer) eqn:Hv; [|now apply Hhid].
    unfold get_seat_status. rewrite !(as_seen_by_entitled _ _ Hv).
    f_equal. cbn [seats d' with_bookings].
    apply map_ext_in. intros s [_ Hs]%filter_In. apply String.eqb_eq in Hs.
    unfold seat_status_of, d'. rewrite exists_active_booking_app, Hocc, Hs.
    replace (BookingForm.bus_id v =? B) with false;
      [now rewrite orb_false_r|].
    symmetry. apply String.eqb_neq. congruence.
Qed.

Lemma booked_seat_shown_taken_witness :
  get_seat_status authenticated Sample.busA Sample.db_pending
  = [ SeatStatus.mk 1 true "taken";
      SeatStatus.mk 2 true "available";
      SeatStatus.mk 3 false "available" ].
Proof.
  destruct (booked_seat_shown_taken authenticated Sample.booking1 100 (Sample.ama 1) 8000
              Sample.db0 Sample.db_pending eq_refl) as (H & _).
  exact (proj1 (H authenticated eq_refl)).
Defined.

(** X9. A seat the map lets the passenger click is an active seat. When
    the map was read with a SELECT policy on [bookings], the seat has no
    pending or paid booking, and on the database the map was read from a form
    for it with stored references and a fresh id, sent with the same session,
    is accepted. Without that policy the form is refused whatever seat was
    clicked. *)
Theorem clickable_seat_bookable :
  forall caller B d r n,
    In r (get_seat_status caller B d) ->
    SeatMap.SeatButton r = Some n ->
    SeatStatus.seat_number r = n
    /\ SeatStatus.is_active r = true
    /\ (Policy.bookings_select caller = true ->
        active_count B n (bookings d) = 0%nat
        /\ forall fresh now v amount,
             BookingForm.bus_id v = B ->
             BookingForm.seat_number v = n ->
             has_id Booking.id fresh (bookings d) = false ->
             BookingForm.references_exist v d ->
             BookingForm.onSubmit caller fresh now v amount d
             = (BookingForm.Booking_created,
                with_bookings d
                  (bookings d ++ [BookingForm.payload fresh now v amount])%list))
    /\ (Policy.bookings_select caller = false ->
        forall fresh now v amount,
          BookingForm.onSubmit caller fresh now v amount d
          = (BookingForm.Booking_failed insufficient_privilege, d)).
Proof.
  intros caller B d r n Hr Hclick.
  apply get_seat_status_In in Hr as (s & _ & HB & ->).
  unfold SeatMap.SeatButton, SeatMap.disabled in Hclick.
  destruct (negb _ || _) eqn:E; [discriminate|]. injection Hclick as Hn.
  apply orb_false_elim in E as [Ea Et]. apply negb_false_iff in Ea.
  cbn [seat_status_of SeatStatus.seat_number SeatStatus.is_active SeatStatus.status]
    in Hn, Ea, Et.
  split; [exact Hn|]. split; [exact Ea|]. split.
  - intros Hc. rewrite (as_seen_by_entitled _ _ Hc) in Et.
    destruct (exists_active_booking s d) eqn:Ex; [discriminate|].
    apply exists_active_booking_false in Ex. rewrite HB, Hn in Ex.
    split; [exact Ex|].
    intros fresh now v amount Hbus Hseat Hfresh Hrefs.
    apply onSubmit_created;
      [now rewrite bookings_insert_returning_select|exact Hfresh
      |now rewrite Hbus, Hseat|exact Hrefs].
  - intros Hc fresh now v amount. apply onSubmit_refused.
    now rewrite bookings_insert_returning_select.
Qed.

Lemma clickable_seat_bookable_witness :
  BookingForm.onSubmit authenticated Sample.booking2 300 (Sample.kojo 2) 8000
    Sample.db_paid1
  = (BookingForm.Booking_created,
     with_bookings Sample.db_paid1
       (bookings Sample.db_paid1
        ++ [BookingForm.payload Sample.booking2 300 (Sample.kojo 2) 8000])%list).
Proof.
  destruct (clickable_seat_bookable authenticated Sample.busA Sample.db_paid1
              (SeatStatus.mk 2 true "available") 2) as (_ & _ & H & _);
    [right; left; reflexivity|reflexivity|].
  apply (proj2 (H eq_refl));
    [reflexivity|reflexivity|reflexivity|now repeat split].
Defined.

Section SeatKeyFacts.
Import SeatKey.

Lemma seat_numbers_of_bus_NoDup B l :
  NoDup (map (fun s => (Seat.bus_id s, Seat.seat_number s)) l) ->
  NoDup (map Seat.seat_number (filter (fun s => Seat.bus_id s =? B) l)).
Proof.
  induction l as [|x l IH]; cbn [map filter]; [constructor|].
  intros H. inversion H as [|? ? Hx Hl]; subst.
  destruct (Seat.bus_id x =? B) eqn:E; [|now apply IH].
  cbn [map]. constructor; [|now apply IH].
  intros (y & Hn & [Hy Hb]%filter_In)%in_map_iff. apply Hx.
  apply String.eqb_eq in E, Hb. apply in_map_iff. exists y. split; [|exact Hy].
  now rewrite Hn, Hb, E.
Qed.

Lemma sorted_NoDup_strict l :
  StronglySorted by_seat_number l ->
  NoDup (map SeatStatus.seat_number l) ->
  StronglySorted strictly_by_seat_number l.
Proof.
  induction 1 as [|x l Hs IH Hall]; [constructor|].
  cbn [map]. intros Hnd. inversion Hnd as [|? ? Hx Hl]; subst.
  constructor; [now apply IH|].
  rewrite Forall_forall in Hall |- *. intros y Hy.
  specialize (Hall y Hy). unfold by_seat_number in Hall.
  unfold strictly_by_seat_number.
  assert (SeatStatus.seat_number x <> SeatStatus.seat_number y).
  { intros E. apply Hx. rewrite E. now apply in_map. }
  lia.
Qed.

End SeatKeyFacts.

(** X10. With the unique constraint on (bus, seat number) of the seats table,
    the seat numbers that [get_seat_status] returns for a bus are strictly
    ascending, whoever reads them: no seat number appears twice on the map. *)
Theorem seat_numbers_strictly_ascending :
  forall viewer B d,
    SeatKey.seats_bus_id_seat_number_key d ->
    StronglySorted SeatKey.strictly_by_seat_number (get_seat_status viewer B d)
    /\ NoDup (map SeatStatus.seat_number (get_seat_status viewer B d)).
Proof.
  intros viewer B d Hkey.
  assert (Hnd : NoDup (map SeatStatus.seat_number (get_seat_status viewer B d))).
  { unfold get_seat_status.
    eapply Permutation_NoDup.
    - apply Permutation_map, Permutation_sym, order_by_seat_number_perm.
    - rewrite map_map. cbn [seat_status_of SeatStatus.seat_number].
      now apply seat_numbers_of_bus_NoDup. }
  split; [|exact Hnd].
  apply sorted_NoDup_strict; [apply order_by_seat_number_sorted|exact Hnd].
Qed.

Lemma seat_numbers_strictly_ascending_witness :
  NoDup (map SeatStatus.seat_number (get_seat_status anon Sample.busA Sample.db_paid1)).
Proof.
  apply (seat_numbers_strictly_ascending anon Sample.busA Sample.db_paid1).
  unfold SeatKey.seats_bus_id_seat_number_key. cbn.
  repeat constructor; cbn; intuition congruence.
Defined.

(** ** Rows of the seat map *)

Section LayoutFacts.
Import SeatLayout.

Lemma rows_from_concat fuel : forall i l,
  (List.length l - i <= 4 * fuel)%nat ->
  List.concat (rows_from fuel i l) = skipn i l.
Proof.
  induction fuel as [|fuel IH]; intros i l H; cbn [rows_from].
  - symmetry. apply skipn_all2. lia.
  - destruct (i <? List.length l)%nat eqn:E.
    + apply Nat.ltb_lt in E. cbn [List.concat]. rewrite IH by lia.
      unfold slice. replace (i + 4 - i)%nat with 4%nat by lia.
      replace (i + 4)%nat with (4 + i)%nat by lia.
      rewrite <- skipn_skipn. apply firstn_skipn.
    + apply Nat.ltb_ge in E. symmetry. now apply skipn_all2.
Qed.

Lemma rows_from_nth fuel : forall i l k row,
  nth_error (rows_from fuel i l) k = Some row ->
  row = firstn 4 (skipn (i + 4 * k) l) /\ (i + 4 * k < List.length l)%nat.
Proof.
  induction fuel as [|fuel IH]; intros i l k row; cbn [rows_from].
  - now destruct k.
  - destruct (i <? List.length l)%nat eqn:E; [|now destruct k].
    apply Nat.ltb_lt in E. destruct k as [|k]; cbn [nth_error].
    + intros [= <-]. unfold slice.
      replace (i + 4 - i)%nat with 4%nat by lia.
      replace (i + 4 * 0)%nat with i by lia. now split.
    + intros H. apply IH in H.
      now replace (i + 4 + 4 * k)%nat with (i + 4 * S k)%nat in H by lia.
Qed.

Lemma rows_from_length fuel : forall i l,
  (List.length l - i <= 4 * fuel)%nat ->
  (List.length l - i <= 4 * List.length (rows_from fuel i l) < List.length l - i + 4)%nat.
Proof.
  induction fuel as [|fuel IH]; intros i l H; cbn [rows_from].
  - cbn [List.length]. lia.
  - destruct (i <? List.length l)%nat eqn:E.
    + apply Nat.ltb_lt in E. cbn [List.length].
      specialize (IH (i + 4)%nat l). lia.
    + apply Nat.ltb_ge in E. cbn [List.length]. lia.
Qed.

Lemma pairs_of_row (row : list SeatStatus.row) :
  (List.length row <= 4)%nat -> (left_pair row ++ right_pair row)%list = row.
Proof.
  destruct row as [|a [|b [|c [|e [|f row]]]]]; cbn; try reflexivity; lia.
Qed.

End LayoutFacts.

(** X11. The seat map lays the seats out in order of seat number, four to a
    row: its rows put end to end are the sorted seats, row [k] holds the four
    seats from position [4k] on (fewer in the last row, never none), there are
    just enough rows for all seats, and the left and right pairs of the rows
    render every seat exactly once. *)
Theorem layout_rows :
  forall seats,
    let sorted := order_by_seat_number seats in
    List.concat (SeatLayout.layout seats) = sorted
    /\ (List.length seats <= 4 * List.length (SeatLayout.layout seats)
        < List.length seats + 4)%nat
    /\ (forall k row,
          nth_error (SeatLayout.layout seats) k = Some row ->
          row = firstn 4 (skipn (4 * k) sorted)
          /\ List.length row = Nat.min 4 (List.length seats - 4 * k)
          /\ (1 <= List.length row)%nat)
    /\ SeatLayout.rendered seats = sorted
    /\ Permutation (SeatLayout.rendered seats) seats.
Proof.
  intros seats sorted.
  assert (Hlen : List.length sorted = List.length seats).
  { apply Permutation_length, order_by_seat_number_perm. }
  assert (Hc : List.concat (SeatLayout.layout seats) = sorted).
  { unfold SeatLayout.layout. fold sorted. now rewrite rows_from_concat by lia. }
  assert (Hrow : forall k row,
             nth_error (SeatLayout.layout seats) k = Some row ->
             row = firstn 4 (skipn (4 * k) sorted)
             /\ List.length row = Nat.min 4 (List.length seats - 4 * k)
             /\ (1 <= List.length row)%nat).
  { intros k row H. unfold SeatLayout.layout in H. fold sorted in H.
    apply rows_from_nth in H as [-> Hk]. cbn [Nat.add] in *.
    rewrite length_firstn, length_skipn, Hlen in *. repeat split; lia. }
  assert (Hr : SeatLayout.rendered seats = sorted).
  { unfold SeatLayout.rendered. rewrite flat_map_concat_map, <- Hc. f_equal.
    rewrite <- (map_id (SeatLayout.layout seats)) at 2.
    apply map_ext_in. intros row [k Hk]%In_nth_error.
    apply pairs_of_row. destruct (Hrow k row Hk) as (_ & -> & _). lia. }
  assert (Hn : (List.length seats <= 4 * List.length (SeatLayout.layout seats)
                < List.length seats + 4)%nat).
  { pose proof (rows_from_length (List.length sorted) 0 sorted) as H.
    unfold SeatLayout.layout. fold sorted. rewrite Hlen in *. lia. }
  split; [exact Hc|]. split; [exact Hn|]. split; [exact Hrow|].
  split; [exact Hr|]. rewrite Hr. apply order_by_seat_number_perm.
Qed.

Lemma layout_rows_witness :
  List.length [ SeatStatus.mk 1 true "taken";
                SeatStatus.mk 2 true "available";
                SeatStatus.mk 3 false "available" ]
  = Nat.min 4 (List.length (get_seat_status authenticated Sample.busA Sample.db_paid1) - 4 * 0).
Proof.
  destruct (layout_rows (get_seat_status authenticated Sample.busA Sample.db_paid1))
    as (_ & _ & H & _).
  exact (proj1 (proj2 (H 0%nat [ SeatStatus.mk 1 true "taken";
                                 SeatStatus.mk 2 true "available";
                                 SeatStatus.mk 3 false "available" ] eq_refl))).
Defined.

Section NumberingFacts.

Lemma sorted_permutation_unique (l1 : list Z) : forall l2,
  StronglySorted Z.le l1 -> StronglySorted Z.le l2 -> Permutation l1 l2 -> l1 = l2.
Proof.
  induction l1 as [|x l1 IH]; intros l2 H1 H2 P.
  - apply Permutation_nil in P. now subst.
  - destruct l2 as [|y l2]; [now apply Permutation_sym, Permutation_nil in P|].
    apply StronglySorted_inv in H1 as [H1 F1]. apply StronglySorted_inv in H2 as [H2 F2].
    rewrite Forall_forall in F1, F2.
    assert (x = y).
    { assert (Hx : In x (y :: l2)) by (eapply Permutation_in; [exact P|now left]).
      assert (Hy : In y (x :: l1))
        by (eapply Permutation_in; [apply Permutation_sym, P|now left]).
      destruct Hx as [->|Hx]; [reflexivity|]. destruct Hy as [->|Hy]; [reflexivity|].
      specialize (F1 y Hy). specialize (F2 x Hx). lia. }
    subst y. f_equal. apply IH; try assumption.
    now apply Permutation_cons_inv in P.
Qed.

Lemma seq_sorted n : forall a, StronglySorted Z.le (map Z.of_nat (seq a n)).
Proof.
  induction n as [|n IH]; intros a; cbn [seq map]; constructor; [apply IH|].
  apply Forall_forall. intros z (m & <- & Hm%in_seq)%in_map_iff. lia.
Qed.

Lemma seat_numbers_sorted l :
  StronglySorted by_seat_number l ->
  StronglySorted Z.le (map SeatStatus.seat_number l).
Proof.
  induction 1 as [|x l Hs IH Hall]; cbn [map]; constructor; [exact IH|].
  apply Forall_forall. intros z (y & <- & Hy)%in_map_iff.
  rewrite Forall_forall in Hall. exact (Hall y Hy).
Qed.

Lemma firstn_seq_min k : forall a n, firstn k (seq a n) = seq a (Nat.min k n).
Proof.
  induction k as [|k IH]; intros a [|n]; cbn [firstn seq Nat.min]; try reflexivity.
  now rewrite IH.
Qed.

End NumberingFacts.

(** X12. When the seats of a bus are numbered 1 to [n], each number once,
    row [k] of the seat map shows the numbers [4k+1] to [4k+4], in this order,
    and the last row those up to [n]: seats 1-4, 5-8, and so on. *)
Theorem layout_numbering :
  forall seats n,
    Permutation (map SeatStatus.seat_number seats) (map Z.of_nat (seq 1 n)) ->
    forall k row,
      nth_error (SeatLayout.layout seats) k = Some row ->
      map SeatStatus.seat_number row
      = map Z.of_nat (seq (4 * k + 1) (Nat.min 4 (n - 4 * k))).
Proof.
  intros seats n P k row H.
  assert (Hs : map SeatStatus.seat_number (order_by_seat_number seats)
               = map Z.of_nat (seq 1 n)).
  { apply sorted_permutation_unique.
    - apply seat_numbers_sorted, order_by_seat_number_sorted.
    - apply seq_sorted.
    - etransitivity; [|exact P].
      apply Permutation_map, order_by_seat_number_perm. }
  unfold SeatLayout.layout in H. apply rows_from_nth in H as [-> _].
  cbn [Nat.add]. rewrite <- firstn_map, <- skipn_map, Hs.
  rewrite skipn_map, firstn_map. f_equal.
  rewrite skipn_seq, firstn_seq_min. f_equal; lia.
Qed.

Lemma layout_numbering_witness :
  map SeatStatus.seat_number
    [ SeatStatus.mk 1 true "taken";
      SeatStatus.mk 2 true "available";
      SeatStatus.mk 3 false "available" ]
  = map Z.of_nat (seq (4 * 0 + 1) (Nat.min 4 (3 - 4 * 0))).
Proof.
  apply (layout_numbering (get_seat_status authenticated Sample.busA Sample.db_paid1) 3
           (Permutation_refl _) 0%nat).
  reflexivity.
Defined.

(** X13. The colour of a seat button follows the list the page read. For a
    seat that is not the selected one: Inactive exactly when the seat is
    switched off, whether booked or not; Taken exactly when it is active and
    listed taken; Available exactly when the button can be clicked. For a
    viewer with a SELECT policy on [bookings], Taken is exactly an active seat
    that a pending or paid booking holds; for a viewer without one no button
    is Taken and every active seat is Available. The selected seat keeps the
    Selected colour whatever its status. *)
Theorem legend_matches_ledger :
  forall viewer B d r,
    In r (get_seat_status viewer B d) ->
    (SeatLayout.className r false = SeatLayout.Inactive
     <-> SeatStatus.is_active r = false)
    /\ (SeatLayout.className r false = SeatLayout.Taken
        <-> SeatStatus.is_active r = true /\ SeatStatus.status r = "taken")
    /\ (Policy.bookings_select viewer = true ->
        (SeatLayout.className r false = SeatLayout.Taken
         <-> SeatStatus.is_active r = true
             /\ exists b, In b (bookings d)
                          /\ Booking.bus_id b = B
                          /\ Booking.seat_number b = SeatStatus.seat_number r
                          /\ (Booking.status b = "pending" \/ Booking.status b = "paid")))
    /\ (Policy.bookings_select viewer = false ->
        SeatLayout.className r false <> SeatLayout.Taken
        /\ (SeatLayout.className r false = SeatLayout.Available
            <-> SeatStatus.is_active r = true))
    /\ (SeatLayout.className r false = SeatLayout.Available
        <-> SeatMap.SeatButton r = Some (SeatStatus.seat_number r))
    /\ SeatLayout.className r true = SeatLayout.Selected.
Proof.
  intros viewer B d r (s & _ & HB & ->)%get_seat_status_In.
  pose proof (exists_active_booking_true s d) as Hex. rewrite HB in Hex.
  assert (Hsee : Policy.bookings_select viewer = true ->
                 exists_active_booking s (as_seen_by viewer d)
                 = exists_active_booking s d).
  { intros H. now rewrite as_seen_by_entitled. }
  assert (Hhid : Policy.bookings_select viewer = false ->
                 exists_active_booking s (as_seen_by viewer d) = false).
  { intros H. now rewrite as_seen_by_hidden. }
  unfold SeatLayout.className, SeatMap.SeatButton, SeatMap.disabled, seat_status_of.
  cbn [SeatStatus.is_active SeatStatus.status SeatStatus.seat_number].
  destruct (Seat.active s); cbn [negb orb];
    destruct (exists_active_booking s (as_seen_by viewer d)) eqn:E;
    cbn [String.eqb Ascii.eqb Bool.eqb andb].
  all: split; [split; intros; try discriminate; reflexivity|].
  all: split; [split; [intros; try discriminate; now split
                      |intros [? ?]; try discriminate; reflexivity]|].
  all: split; [intros Hv; specialize (Hsee Hv); split;
               [intros; (discriminate || (split; [reflexivity|apply Hex; congruence]))
               |intros [Ha Hb]; try discriminate Ha; apply Hex in Hb; congruence]|].
  all: split; [intros Hv; specialize (Hhid Hv);
               (discriminate Hhid
                || (split; [discriminate|split; intros; try discriminate; reflexivity]))|].
  all: split; [split; intros; try discriminate; reflexivity|reflexivity].
Qed.

Lemma legend_matches_ledger_witness :
  SeatLayout.className (SeatStatus.mk 3 false "available") false = SeatLayout.Inactive.
Proof.
  apply (legend_matches_ledger authenticated Sample.busA Sample.db_paid1
           (SeatStatus.mk 3 false "available"));
    [right; right; left; reflexivity|reflexivity].
Defined.

(** ** Admin seats page *)

Section AdminSeatsFacts.
Import AdminSeats.

Lemma insert_seat_map g x l :
  (forall s, Seat.seat_number (g s) = Seat.seat_number s) ->
  insert_seat (g x) (map g l) = map g (insert_seat x l).
Proof.
  intros Hg. induction l as [|y l IH]; [reflexivity|].
  cbn [map insert_seat]. rewrite !Hg.
  destruct (_ <=? _)%Z; [reflexivity|]. cbn [map]. now rewrite IH.
Qed.

Lemma order_seats_map g l :
  (forall s, Seat.seat_number (g s) = Seat.seat_number s) ->
  order_seats (map g l) = map g (order_seats l).
Proof.
  intros Hg. induction l as [|x l IH]; [reflexivity|].
  cbn [map order_seats]. rewrite IH. now apply insert_seat_map.
Qed.

Lemma insert_seat_perm x l : Permutation (insert_seat x l) (x :: l).
Proof.
  induction l as [|y l IH]; [reflexivity|]. cbn [insert_seat].
  destruct (_ <=? _)%Z; [reflexivity|].
  etransitivity; [apply perm_skip, IH|apply perm_swap].
Qed.

Lemma order_seats_perm l : Permutation (order_seats l) l.
Proof.
  induction l as [|x l IH]; [reflexivity|]. cbn [order_seats].
  etransitivity; [apply insert_seat_perm|now apply perm_skip].
Qed.

Lemma filter_bus_map g B l :
  (forall s, Seat.bus_id (g s) = Seat.bus_id s) ->
  filter (fun s => Seat.bus_id s =? B) (map g l)
  = map g (filter (fun s => Seat.bus_id s =? B) l).
Proof.
  intros Hg. induction l as [|x l IH]; [reflexivity|].
  cbn [map filter]. rewrite Hg. destruct (_ =? _); cbn [map]; now rewrite IH.
Qed.

Lemma loadSeats_map g B d :
  (forall s, Seat.seat_number (g s) = Seat.seat_number s) ->
  (forall s, Seat.bus_id (g s) = Seat.bus_id s) ->
  loadSeats B (with_seats d (map g (seats d))) = map g (loadSeats B d).
Proof.
  intros Hn Hb. unfold loadSeats. cbn [seats with_seats].
  now rewrite filter_bus_map, order_seats_map.
Qed.

Lemma insert_seat_status d x l :
  insert_by_seat_number (seat_status_of d x) (map (seat_status_of d) l)
  = map (seat_status_of d) (insert_seat x l).
Proof.
  induction l as [|y l IH]; [reflexivity|].
  cbn [map insert_seat insert_by_seat_number seat_status_of SeatStatus.seat_number].
  destruct (_ <=? _)%Z; [reflexivity|]. cbn [map]. f_equal. exact IH.
Qed.

Lemma get_seat_status_loadSeats viewer B d :
  get_seat_status viewer B d
  = map (seat_status_of (as_seen_by viewer d)) (loadSeats B d).
Proof.
  unfold get_seat_status, loadSeats.
  induction (filter _ (seats d)) as [|x l IH]; [reflexivity|].
  cbn [map order_by_seat_number order_seats]. rewrite IH. apply insert_seat_status.
Qed.

Lemma loadSeats_bus B d s : In s (loadSeats B d) -> Seat.bus_id s = B.
Proof.
  unfold loadSeats. intros H.
  apply (Permutation_in _ (order_seats_perm _)) in H.
  apply filter_In in H as [_ H]. now apply String.eqb_eq.
Qed.

Lemma seat_status_of_seats d rows s :
  seat_status_of (with_seats d rows) s = seat_status_of d s.
Proof. reflexivity. Qed.

(** The seat map after the [active] flags of the seats were rewritten. *)
Lemma get_seat_status_reactivated viewer g B d :
  (forall s, Seat.seat_number (g s) = Seat.seat_number s) ->
  (forall s, Seat.bus_id (g s) = Seat.bus_id s) ->
  get_seat_status viewer B (with_seats d (map g (seats d)))
  = map (fun s => seat_status_of (as_seen_by viewer d) (g s)) (loadSeats B d).
Proof.
  intros Hn Hb. rewrite get_seat_status_loadSeats, loadSeats_map by assumption.
  rewrite map_map. apply map_ext. intros s.
  unfold as_seen_by. now destruct (Policy.bookings_select viewer).
Qed.

End AdminSeatsFacts.

(** X14. The public seat map is the grid of the admin seats page with the
    booking status added: for every bus and whoever reads it,
    [get_seat_status] returns the seats that [loadSeats] returns, in the same
    order, each with its number, its active flag and taken or available. *)
Theorem seat_map_follows_admin_grid :
  forall viewer B d,
    get_seat_status viewer B d
    = map (seat_status_of (as_seen_by viewer d)) (AdminSeats.loadSeats B d)
    /\ map SeatStatus.seat_number (get_seat_status viewer B d)
       = map Seat.seat_number (AdminSeats.loadSeats B d)
    /\ map SeatStatus.is_active (get_seat_status viewer B d)
       = map Seat.active (AdminSeats.loadSeats B d).
Proof.
  intros viewer B d. rewrite get_seat_status_loadSeats.
  repeat split; rewrite map_map; reflexivity.
Qed.

(** X15. The admin seats page keeps showing what the database holds. If the
    grid equals what [loadSeats] returns for the selected bus, it still does
    after a seat switch and after Activate All or Deactivate All, though the
    page rewrites its own copy instead of loading again. *)
Theorem seats_page_stays_in_sync :
  forall s,
    AdminSeats.in_sync s ->
    (forall seatId currentStatus,
       AdminSeats.in_sync (AdminSeats.toggleSeatStatus seatId currentStatus s))
    /\ (forall activate, AdminSeats.in_sync (AdminSeats.toggleAllSeats activate s)).
Proof.
  intros [p d]. unfold AdminSeats.in_sync. cbn [fst snd]. intros H. split.
  - intros seatId c. cbn [AdminSeats.toggleSeatStatus fst snd
                          AdminSeats.shown AdminSeats.selectedBusId].
    unfold AdminSeats.update_seat_by_id.
    rewrite loadSeats_map, H; [reflexivity| |];
      intros s; now destruct (Seat.id s =? seatId).
  - intros a. unfold AdminSeats.toggleAllSeats.
    destruct (AdminSeats.selectedBusId p =? ""); [exact H|].
    cbn [fst snd AdminSeats.shown AdminSeats.selectedBusId].
    unfold AdminSeats.update_seats_by_bus.
    rewrite loadSeats_map, H;
      [| intros s; now destruct (Seat.bus_id s =? _)
       | intros s; now destruct (Seat.bus_id s =? _) ].
    apply map_ext_in. intros s Hs%loadSeats_bus.
    now rewrite Hs, String.eqb_refl.
Qed.

Lemma seats_page_stays_in_sync_witness :
  AdminSeats.in_sync
    (AdminSeats.toggleAllSeats false
       (AdminSeats.mkPage (AdminSeats.loadSeats Sample.busA Sample.db_paid1) Sample.busA,
        Sample.db_paid1)).
Proof.
  apply (seats_page_stays_in_sync
           (AdminSeats.mkPage (AdminSeats.loadSeats Sample.busA Sample.db_paid1)
              Sample.busA, Sample.db_paid1)).
  reflexivity.
Defined.

(** X16. Switching seats on or off never touches a booking and never changes
    which seats are taken: after a seat switch, and after Activate All or
    Deactivate All, the bookings are the same and every seat map, whoever
    reads it, lists the same seat numbers with the same taken or available
    status. A seat switched off while shown taken stays taken. *)
Theorem seat_switch_keeps_bookings :
  forall viewer s seatId currentStatus activate B,
    let taken d := map (fun r => (SeatStatus.seat_number r, SeatStatus.status r))
                       (get_seat_status viewer B d) in
    bookings (snd (AdminSeats.toggleSeatStatus seatId currentStatus s)) = bookings (snd s)
    /\ taken (snd (AdminSeats.toggleSeatStatus seatId currentStatus s)) = taken (snd s)
    /\ bookings (snd (AdminSeats.toggleAllSeats activate s)) = bookings (snd s)
    /\ taken (snd (AdminSeats.toggleAllSeats activate s)) = taken (snd s).
Proof.
  intros viewer [p d] seatId c a B taken. unfold taken.
  assert (G : forall g,
             (forall s, Seat.seat_number (g s) = Seat.seat_number s) ->
             (forall s, Seat.bus_id (g s) = Seat.bus_id s) ->
             map (fun r => (SeatStatus.seat_number r, SeatStatus.status r))
                 (get_seat_status viewer B (with_seats d (map g (seats d))))
             = map (fun r => (SeatStatus.seat_number r, SeatStatus.status r))
                   (get_seat_status viewer B d)).
  { intros g Hn Hb. rewrite get_seat_status_reactivated, get_seat_status_loadSeats
      by assumption.
    rewrite !map_map. apply map_ext. intros s.
    unfold seat_status_of, exists_active_booking.
    cbn [SeatStatus.seat_number SeatStatus.status]. now rewrite Hn, Hb. }
  cbn [AdminSeats.toggleSeatStatus fst snd]. split; [reflexivity|]. split.
  - apply G; intros s; now destruct (Seat.id s =? seatId).
  - unfold AdminSeats.toggleAllSeats.
    destruct (AdminSeats.selectedBusId p =? ""); [now split|].
    cbn [snd]. split; [reflexivity|].
    apply G; intros s; now destruct (Seat.bus_id s =? _).
Qed.

(** X17. Activate All and Deactivate All reach every seat of the selected
    bus and no other bus: afterwards each seat of that bus has the chosen flag
    on the seat map, whoever reads it, so that after Deactivate All no button of the bus can be
    clicked, the maps of the other buses are as before, and the counter of the
    page reads all or none. *)
Theorem toggle_all_reaches_the_bus :
  forall p d activate,
    AdminSeats.selectedBusId p <> "" ->
    let s' := AdminSeats.toggleAllSeats activate (p, d) in
    (forall viewer r,
       In r (get_seat_status viewer (AdminSeats.selectedBusId p) (snd s')) ->
       SeatStatus.is_active r = activate
       /\ (activate = false -> SeatMap.SeatButton r = None))
    /\ (forall viewer B, B <> AdminSeats.selectedBusId p ->
                  get_seat_status viewer B (snd s') = get_seat_status viewer B d)
    /\ AdminSeats.active_shown (fst s')
       = (if activate then List.length (AdminSeats.shown p) else 0%nat,
          List.length (AdminSeats.shown p)).
Proof.
  intros p d a Hsel s'. unfold s', AdminSeats.toggleAllSeats.
  apply String.eqb_neq in Hsel. rewrite Hsel. cbn [fst snd].
  unfold AdminSeats.update_seats_by_bus.
  assert (Hn : forall s,
             Seat.seat_number
               (if Seat.bus_id s =? AdminSeats.selectedBusId p
                then AdminSeats.set_active a s else s) = Seat.seat_number s)
    by (intros s; now destruct (Seat.bus_id s =? _)).
  assert (Hb : forall s,
             Seat.bus_id
               (if Seat.bus_id s =? AdminSeats.selectedBusId p
                then AdminSeats.set_active a s else s) = Seat.bus_id s)
    by (intros s; now destruct (Seat.bus_id s =? _)).
  split; [|split].
  - intros viewer r Hr. rewrite get_seat_status_reactivated in Hr by assumption.
    apply in_map_iff in Hr as (s & <- & Hs%loadSeats_bus).
    rewrite Hs, String.eqb_refl.
    cbn [seat_status_of AdminSeats.set_active Seat.active SeatStatus.is_active].
    split; [reflexivity|]. intros ->. reflexivity.
  - intros viewer B HB. rewrite get_seat_status_reactivated, get_seat_status_loadSeats
      by assumption.
    apply map_ext_in. intros s Hs%loadSeats_bus.
    replace (Seat.bus_id s =? AdminSeats.selectedBusId p) with false; [reflexivity|].
    symmetry. apply String.eqb_neq. congruence.
  - unfold AdminSeats.active_shown. cbn [AdminSeats.shown]. rewrite length_map.
    f_equal. induction (AdminSeats.shown p) as [|x l IH]; [now destruct a|].
    cbn [map filter AdminSeats.set_active Seat.active].
    destruct a; cbn [List.length]; now rewrite IH.
Qed.

Lemma toggle_all_reaches_the_bus_witness :
  SeatMap.SeatButton (SeatStatus.mk 2 false "available") = None.
Proof.
  destruct (toggle_all_reaches_the_bus
              (AdminSeats.mkPage (AdminSeats.loadSeats Sample.busA Sample.db_paid1)
                 Sample.busA)
              Sample.db_paid1 false) as (H & _ & _); [discriminate|].
  exact (proj2 (H anon (SeatStatus.mk 2 false "available")
                    (or_intror (or_introl eq_refl)))
           eq_refl).
Defined.



(** ** Reference tables and the bookings that point to them *)

Section CatalogFacts.
Import Catalog.

Lemma has_id_filter_other {A} (key : A -> uuid) i j rows :
  j <> i ->
  has_id key j (filter (fun r => negb (key r =? i)) rows) = has_id key j rows.
Proof.
  intros Hji. unfold has_id. induction rows as [|r rows IH]; [reflexivity|].
  cbn [filter existsb]. destruct (key r =? i) eqn:E; cbn [negb existsb].
  - rewrite IH. apply String.eqb_eq in E.
    replace (key r =? j) with false; [reflexivity|].
    symmetry. apply String.eqb_neq. congruence.
  - now rewrite IH.
Qed.

Lemma has_id_filter_self {A} (key : A -> uuid) i rows :
  has_id key i (filter (fun r => negb (key r =? i)) rows) = false.
Proof.
  apply has_id_false. intros (r & Hk & [_ Hr]%filter_In)%in_map_iff.
  apply negb_true_iff, String.eqb_neq in Hr. contradiction.
Qed.

Lemma has_id_app {A} (key : A -> uuid) i l1 l2 :
  has_id key i (l1 ++ l2)%list = has_id key i l1 || has_id key i l2.
Proof. apply existsb_app. Qed.

Lemma has_id_renamed i j nm a rows :
  has_id id j (map (fun r => if id r =? i then mkNamed (id r) nm a else r) rows)
  = has_id id j rows.
Proof.
  unfold has_id. induction rows as [|r rows IH]; [reflexivity|].
  cbn [map existsb]. rewrite IH. now destruct (id r =? i).
Qed.

Lemma insert_booking_references r d d' :
  insert_booking r d = inr d' ->
  has_id id (Booking.pickup_point_id r) (pickup_points d) = true
  /\ has_id Destination.id (Booking.destination_id r) (destinations d) = true
  /\ has_id id (Booking.bus_id r) (buses d) = true
  /\ match Booking.referral_id r with
     | Some f => has_id id f (referrals d) = true
     | None => True
     end.
Proof.
  unfold insert_booking.
  destruct (has_id Booking.id _ _); [discriminate|].
  destruct (negb (idx_unique_active_booking _ _)); [discriminate|].
  destruct (has_id id (Booking.pickup_point_id r) _); [|discriminate].
  destruct (has_id Destination.id _ _); [|discriminate].
  destruct (has_id id (Booking.bus_id r) _); [|discriminate].
  destruct (Booking.referral_id r) as [f|]; [|now intros _].
  destruct (has_id id f _); [now intros _|discriminate].
Qed.

Lemma handleSubmit_pickup_points trim editing fresh nm a d t d' j :
  handleSubmit trim editing fresh nm a d = (t, d') ->
  bookings d' = bookings d /\ destinations d' = destinations d
  /\ buses d' = buses d /\ referrals d' = referrals d
  /\ (has_id id j (pickup_points d) = true -> has_id id j (pickup_points d') = true).
Proof.
  unfold handleSubmit. destruct (trim nm =? ""); [now intros [= <- <-]|].
  destruct editing as [point|].
  - unfold update_pickup_point. destruct (forallb _ _); intros [= <- <-];
      [|now repeat split].
    repeat split. cbn [pickup_points with_pickup_points]. now rewrite has_id_renamed.
  - unfold insert_pickup_point. destruct (has_id id fresh _); [now intros [= <- <-]|].
    destruct (existsb _ _); intros [= <- <-]; [now repeat split|].
    repeat split. cbn [pickup_points with_pickup_points]. rewrite has_id_app.
    now intros ->.
Qed.

Lemma references_hold_tables d d' :
  bookings d' = bookings d ->
  (forall i, has_id id i (pickup_points d) = true -> has_id id i (pickup_points d') = true) ->
  (forall i, has_id Destination.id i (destinations d) = true ->
             has_id Destination.id i (destinations d') = true) ->
  (forall i, has_id id i (buses d) = true -> has_id id i (buses d') = true) ->
  (forall i, has_id id i (referrals d) = true -> has_id id i (referrals d') = true) ->
  references_hold d -> references_hold d'.
Proof.
  intros Hb Hp Hd Hbus Hr H b Hin. rewrite Hb in Hin.
  destruct (H b Hin) as (H1 & H2 & H3 & H4). repeat split; auto.
  destruct (Booking.referral_id b); auto.
Qed.

Lemma references_hold_rewritten d rows :
  map (fun b => (Booking.pickup_point_id b, Booking.destination_id b,
                 Booking.bus_id b, Booking.referral_id b)) rows
  = map (fun b => (Booking.pickup_point_id b, Booking.destination_id b,
                   Booking.bus_id b, Booking.referral_id b)) (bookings d) ->
  references_hold d -> references_hold (with_bookings d rows).
Proof.
  intros E H b Hin. cbn [bookings with_bookings] in Hin.
  apply (in_map (fun b => (Booking.pickup_point_id b, Booking.destination_id b,
                           Booking.bus_id b, Booking.referral_id b))) in Hin.
  rewrite E in Hin. apply in_map_iff in Hin as (b0 & Hb0 & Hin0).
  injection Hb0 as E1 E2 E3 E4. rewrite <- E1, <- E2, <- E3, <- E4.
  exact (H b0 Hin0).
Qed.

Lemma action_references_hold d d' :
  references_hold d -> action d d' -> references_hold d'.
Proof.
  intros H A. destruct A as
    [caller fresh now v amount d d' E | now i s d d' E | trim editing fresh nm a d t d' E
    | c point d t d' E | c dest d t d' E | uuid_in JSON_stringify now sms req d
    | d rows | d d' Hb Hp Hd Hbus Hr].
  - unfold BookingForm.onSubmit, insert_booking_returning in E.
    destruct (Policy.bookings_insert_returning caller); [|discriminate].
    destruct (insert_booking _ d) as [e|d1] eqn:I; [discriminate|].
    injection E as <-. pose proof (insert_booking_references _ _ _ I) as R.
    apply insert_booking_inr in I as (-> & _).
    intros b Hin. cbn [bookings with_bookings] in Hin.
    apply in_app_or in Hin as [Hin|[<-|[]]]; [exact (H b Hin)|exact R].
  - unfold AdminBookings.updateBookingStatus in E.
    destruct (update_bookings _ _ _ d) as [e|[d1 rows]] eqn:U; [discriminate|].
    injection E as <-. apply update_bookings_inr in U as (-> & _).
    apply references_hold_rewritten; [|exact H].
    rewrite map_map. apply map_ext. intros r. now destruct (hit i r).
  - pose proof (fun j => handleSubmit_pickup_points _ _ _ _ _ _ _ _ j E) as P.
    destruct (P "") as (Hb & Hd & Hbus & Hr & _).
    apply (references_hold_tables d d'); try assumption.
    + intros j. apply P.
    + intros j. now rewrite Hd.
    + intros j. now rewrite Hbus.
    + intros j. now rewrite Hr.
  - unfold handleDelete in E. destruct (negb c); [now injection E as _ <-|].
    unfold delete_pickup_point in E.
    destruct (has_id id (id point) (pickup_points d)
              && existsb _ (bookings d)) eqn:G; [now injection E as _ <-|].
    injection E as _ <-. intros b Hin. cbn [bookings with_pickup_points] in Hin.
    destruct (H b Hin) as (H1 & H2 & H3 & H4).
    repeat split; try assumption. cbn [pickup_points with_pickup_points].
    rewrite has_id_filter_other; [exact H1|].
    intros Heq. apply andb_false_elim in G as [G|G].
    + rewrite <- Heq in G. congruence.
    + rewrite <- not_true_iff_false, existsb_exists in G. apply G.
      exists b. split; [exact Hin|now apply String.eqb_eq].
  - unfold handleDelete_destination in E. destruct (negb c); [now injection E as _ <-|].
    unfold delete_destination in E.
    destruct (has_id Destination.id (Destination.id dest) (destinations d)
              && existsb _ (bookings d)) eqn:G; [now injection E as _ <-|].
    injection E as _ <-. intros b Hin. cbn [bookings with_destinations] in Hin.
    destruct (H b Hin) as (H1 & H2 & H3 & H4).
    repeat split; try assumption. cbn [destinations with_destinations].
    rewrite has_id_filter_other; [exact H2|].
    intros Heq. apply andb_false_elim in G as [G|G].
    + rewrite <- Heq in G. congruence.
    + rewrite <- not_true_iff_false, existsb_exists in G. apply G.
      exists b. split; [exact Hin|now apply String.eqb_eq].
  - destruct (serve_database uuid_in JSON_stringify now sms req d)
      as [->|(p & i & _ & ->)]; [exact H|].
    apply references_hold_rewritten; [|exact H].
    rewrite map_map. apply map_ext. intros r. now destruct (hit i r).
  - exact H.
  - apply (references_hold_tables d d'); try assumption. intros j. now rewrite Hp.
Qed.

End CatalogFacts.

(** X19. Referential integrity is kept by every action of the application:
    if each booking points to a stored pickup point, destination and bus (and
    referral, when it names one), it still does after any sequence of accepted
    forms, status changes, webhook deliveries, saves and deletions on the
    pickup points page, deletions on the destinations page and changes of
    seats. From the empty database it therefore always does. *)
Theorem references_always_hold :
  forall d d',
    Catalog.references_hold d -> Catalog.run d d' -> Catalog.references_hold d'.
Proof.
  intros d d' H R. induction R as [d|d d1 d2 R IH A]; [exact H|].
  eapply action_references_hold; [exact (IH H)|exact A].
Qed.

Lemma references_always_hold_witness : Catalog.references_hold Sample.db_pending.
Proof.
  apply (references_always_hold Sample.db0 Sample.db_pending); [intros b []|].
  eapply Catalog.run_step; [apply Catalog.run_refl|].
  now apply (Catalog.act_book authenticated Sample.booking1 100 (Sample.ama 1) 8000).
Defined.

(** X20. A pickup point or destination that any booking points to cannot be
    deleted from its admin page, whatever the status of that booking, a
    cancelled one included: the page shows that it cannot be deleted with
    existing bookings and the database is unchanged. Without such a booking
    the confirmed deletion removes the row and only it, on either page; a
    dismissed dialog does nothing, on either page. *)
Theorem delete_blocked_by_any_booking :
  forall d,
    (forall point b,
       In point (pickup_points d) -> In b (bookings d) ->
       Booking.pickup_point_id b = id point ->
       Catalog.handleDelete true point d
       = (Some Catalog.Cannot_delete_pickup_point_with_existing_bookings, d))
    /\ (forall destination b,
          In destination (destinations d) -> In b (bookings d) ->
          Booking.destination_id b = Destination.id destination ->
          Catalog.handleDelete_destination true destination d
          = (Some Catalog.Cannot_delete_destination_with_existing_bookings, d))
    /\ (forall point,
          (forall b, In b (bookings d) -> Booking.pickup_point_id b <> id point) ->
          exists d',
            Catalog.handleDelete true point d = (Some Catalog.Pickup_point_deleted, d')
            /\ bookings d' = bookings d
            /\ has_id id (id point) (pickup_points d') = false
            /\ forall r, In r (pickup_points d) -> id r <> id point ->
                         In r (pickup_points d'))
    /\ (forall point, Catalog.handleDelete false point d = (None, d))
    /\ (forall destination,
          (forall b, In b (bookings d) ->
                     Booking.destination_id b <> Destination.id destination) ->
          exists d',
            Catalog.handleDelete_destination true destination d
            = (Some Catalog.Destination_deleted, d')
            /\ bookings d' = bookings d
            /\ has_id Destination.id (Destination.id destination) (destinations d') = false
            /\ forall r, In r (destinations d) ->
                         Destination.id r <> Destination.id destination ->
                         In r (destinations d'))
    /\ (forall destination,
          Catalog.handleDelete_destination false destination d = (None, d)).
Proof.
  intros d. split; [|split; [|split; [|split; [reflexivity|split; [|reflexivity]]]]].
  - intros point b Hp Hb E. unfold Catalog.handleDelete, Catalog.delete_pickup_point.
    cbn [negb].
    replace (has_id id (id point) (pickup_points d)) with true.
    + replace (existsb _ (bookings d)) with true; [reflexivity|].
      symmetry. apply existsb_exists. exists b. split; [exact Hb|].
      now apply String.eqb_eq.
    + symmetry. apply existsb_exists. exists point. split; [exact Hp|].
      apply String.eqb_refl.
  - intros dest b Hp Hb E.
    unfold Catalog.handleDelete_destination, Catalog.delete_destination. cbn [negb].
    replace (has_id Destination.id (Destination.id dest) (destinations d)) with true.
    + replace (existsb _ (bookings d)) with true; [reflexivity|].
      symmetry. apply existsb_exists. exists b. split; [exact Hb|].
      now apply String.eqb_eq.
    + symmetry. apply existsb_exists. exists dest. split; [exact Hp|].
      apply String.eqb_refl.
  - intros point Hfree. eexists.
    unfold Catalog.handleDelete, Catalog.delete_pickup_point. cbn [negb].
    replace (existsb (fun b => Booking.pickup_point_id b =? id point) (bookings d))
      with false.
    + rewrite andb_false_r. split; [reflexivity|]. split; [reflexivity|].
      cbn [pickup_points Catalog.with_pickup_points].
      split; [apply has_id_filter_self|].
      intros r Hr Hne. apply filter_In. split; [exact Hr|].
      now apply negb_true_iff, String.eqb_neq.
    + symmetry. apply not_true_iff_false. intros (b & Hb & E)%existsb_exists.
      apply String.eqb_eq in E. exact (Hfree b Hb E).
  - intros dest Hfree. eexists.
    unfold Catalog.handleDelete_destination, Catalog.delete_destination. cbn [negb].
    replace (existsb (fun b => Booking.destination_id b =? Destination.id dest)
               (bookings d))
      with false.
    + rewrite andb_false_r. split; [reflexivity|]. split; [reflexivity|].
      cbn [destinations Catalog.with_destinations].
      split; [apply has_id_filter_self|].
      intros r Hr Hne. apply filter_In. split; [exact Hr|].
      now apply negb_true_iff, String.eqb_neq.
    + symmetry. apply not_true_iff_false. intros (b & Hb & E)%existsb_exists.
      apply String.eqb_eq in E. exact (Hfree b Hb E).
Qed.

Lemma delete_blocked_by_any_booking_witness :
  Catalog.handleDelete true (mkNamed Sample.pickup1 "Main Campus" true) Sample.db_cancelled
  = (Some Catalog.Cannot_delete_pickup_point_with_existing_bookings, Sample.db_cancelled).
Proof.
  apply (proj1 (delete_blocked_by_any_booking Sample.db_cancelled)
           (mkNamed Sample.pickup1 "Main Campus" true)
           (Sample.with_status 200 "cancelled"
              (BookingForm.payload Sample.booking1 100 (Sample.ama 2) 8000)));
    [now left|now left|reflexivity].
Defined.

Section PickupPointFacts.
Import Catalog.

Lemma NoDup_map_filter {A B} (f : A -> B) p l :
  NoDup (map f l) -> NoDup (map f (filter p l)).
Proof.
  induction l as [|x l IH]; cbn [map filter]; [constructor|].
  intros H. inversion H as [|? ? Hx Hl]; subst.
  destruct (p x); [|now apply IH]. cbn [map]. constructor; [|now apply IH].
  intros (y & Hy & [Hin _]%filter_In)%in_map_iff. apply Hx.
  rewrite <- Hy. now apply in_map.
Qed.

Lemma renamed_NoDup i nm a l :
  NoDup (map id l) -> NoDup (map name l) ->
  (forall r, In r l -> (id r =? i) = true ->
             name r = nm
             \/ forall o, In o l -> (id o =? i) = false -> name o <> nm) ->
  NoDup (map name (map (fun r => if id r =? i then mkNamed (id r) nm a else r) l)).
Proof.
  induction l as [|x l IH]; cbn [map]; [constructor|].
  intros Hid Hnm Hck.
  inversion Hid as [|? ? Hix Hil]; inversion Hnm as [|? ? Hnx Hnl]; subst.
  assert (Hck' : forall r, In r l -> (id r =? i) = true ->
                           name r = nm
                           \/ forall o, In o l -> (id o =? i) = false -> name o <> nm).
  { intros r Hr Hh. destruct (Hck r (or_intror Hr) Hh) as [E|E]; [now left|].
    right. intros o Ho. apply E. now right. }
  specialize (IH Hil Hnl Hck').
  destruct (id x =? i) eqn:Ex.
  - assert (Hnone : forall o, In o l -> (id o =? i) = false).
    { intros o Ho. apply String.eqb_neq. intros Eo. apply String.eqb_eq in Ex.
      apply Hix. rewrite Ex, <- Eo. now apply in_map. }
    assert (Hsame : map (fun r => if id r =? i then mkNamed (id r) nm a else r) l = l).
    { rewrite <- (map_id l) at 2. apply map_ext_in. intros o Ho.
      now rewrite (Hnone o Ho). }
    rewrite Hsame. cbn [name]. constructor; [|exact Hnl].
    intros (o & Eo & Ho)%in_map_iff.
    destruct (Hck x (or_introl eq_refl) Ex) as [E|E].
    + apply Hnx. rewrite E, <- Eo. now apply in_map.
    + exact (E o (or_intror Ho) (Hnone o Ho) Eo).
  - constructor; [|exact IH].
    rewrite map_map. intros (o & Eo & Ho)%in_map_iff.
    destruct (id o =? i) eqn:Eoi; cbn [name] in Eo.
    + destruct (Hck o (or_intror Ho) Eoi) as [E|E].
      * apply Hnx. rewrite <- Eo, <- E. now apply in_map.
      * apply (E x (or_introl eq_refl) Ex). now symmetry.
    + apply Hnx. rewrite <- Eo. now apply in_map.
Qed.

Lemma update_pickup_point_checked i nm a d d' :
  update_pickup_point i nm a d = inr d' ->
  d' = with_pickup_points d
         (map (fun r => if id r =? i then mkNamed (id r) nm a else r) (pickup_points d))
  /\ forall r, In r (pickup_points d) -> (id r =? i) = true ->
               name r = nm
               \/ forall o, In o (pickup_points d) -> (id o =? i) = false -> name o <> nm.
Proof.
  unfold update_pickup_point. destruct (forallb _ _) eqn:F; [|discriminate].
  intros [= <-]. split; [reflexivity|].
  intros r Hr Hh. rewrite forallb_forall in F. specialize (F r Hr).
  rewrite Hh in F. cbn [negb orb] in F. apply orb_true_iff in F as [F|F].
  - left. now apply String.eqb_eq.
  - right. intros o Ho Hoi Eo. apply negb_true_iff in F.
    rewrite <- not_true_iff_false, existsb_exists in F. apply F.
    exists o. split; [|now apply String.eqb_eq].
    apply filter_In. split; [exact Ho|now rewrite Hoi].
Qed.

Lemma name_injective (l : list named) x y :
  NoDup (map name l) -> In x l -> In y l -> name x = name y -> x = y.
Proof.
  induction l as [|z l IH]; [intros _ []|].
  cbn [map]. intros N [<-|Hx] [<-|Hy] En; try reflexivity.
  - inversion N; subst. exfalso. apply H1. rewrite En. now apply in_map.
  - inversion N; subst. exfalso. apply H1. rewrite <- En. now apply in_map.
  - inversion N; subst. now apply IH.
Qed.

End PickupPointFacts.

(** X21. The pickup points page keeps ids and names unique. After any save,
    no two pickup points share an id or a name; a created point is stored
    under its trimmed, non-empty name; a save that is neither a creation nor
    an update leaves the database as it is; and a save whose trimmed name
    already belongs to another pickup point is refused. *)
Theorem pickup_point_names_stay_unique :
  forall trim editingPoint fresh nm a d t d',
    NoDup (map id (pickup_points d)) ->
    NoDup (map name (pickup_points d)) ->
    Catalog.handleSubmit trim editingPoint fresh nm a d = (t, d') ->
    NoDup (map id (pickup_points d'))
    /\ NoDup (map name (pickup_points d'))
    /\ (t = Catalog.Pickup_point_created ->
        In (mkNamed fresh (trim nm) a) (pickup_points d') /\ trim nm <> "")
    /\ (t <> Catalog.Pickup_point_created -> t <> Catalog.Pickup_point_updated -> d' = d)
    /\ ((exists o, In o (pickup_points d) /\ name o = trim nm
                   /\ match editingPoint with
                      | Some point => In point (pickup_points d) /\ id o <> id point
                      | None => True
                      end) ->
        t <> Catalog.Pickup_point_created /\ t <> Catalog.Pickup_point_updated).
Proof.
  intros trim editing fresh nm a d t d' Hid Hnm.
  unfold Catalog.handleSubmit.
  destruct (trim nm =? "") eqn:Eblank.
  { intros [= <- <-]. split; [exact Hid|]. split; [exact Hnm|].
    split; [discriminate|]. split; [reflexivity|]. intros _. split; discriminate. }
  apply String.eqb_neq in Eblank.
  destruct editing as [point|].
  - destruct (Catalog.update_pickup_point (id point) (trim nm) a d) as [e|d1] eqn:U.
    + intros [= <- <-]. split; [exact Hid|]. split; [exact Hnm|].
      split; [destruct (Catalog.code e =? "23505"); discriminate|].
      split; [reflexivity|].
      intros _. split; destruct (Catalog.code e =? "23505"); discriminate.
    + intros [= <- <-].
      apply update_pickup_point_checked in U as [-> Hck].
      cbn [pickup_points Catalog.with_pickup_points].
      split; [|split; [|split; [|split]]].
      * rewrite map_map.
        replace (map _ (pickup_points d)) with (map id (pickup_points d)); [exact Hid|].
        apply map_ext. intros r. now destruct (id r =? id point).
      * now apply renamed_NoDup.
      * discriminate.
      * now intros _ [].
      * intros (o & Ho & Eo & Hp & Hne). exfalso.
        destruct (Hck point Hp (String.eqb_refl _)) as [E|E].
        -- apply Hne. f_equal.
           apply (name_injective (pickup_points d)); congruence.
        -- apply String.eqb_neq in Hne. exact (E o Ho Hne Eo).
  - unfold Catalog.insert_pickup_point.
    destruct (has_id id fresh (pickup_points d)) eqn:Hf.
    { intros [= <- <-]. split; [exact Hid|]. split; [exact Hnm|].
      split; [discriminate|]. split; [reflexivity|]. intros _. split; discriminate. }
    destruct (existsb _ (pickup_points d)) eqn:Hn.
    { intros [= <- <-]. split; [exact Hid|]. split; [exact Hnm|].
      split; [discriminate|]. split; [reflexivity|]. intros _. split; discriminate. }
    intros [= <- <-]. cbn [pickup_points Catalog.with_pickup_points].
    apply has_id_false in Hf.
    rewrite <- not_true_iff_false, existsb_exists in Hn.
    split; [|split; [|split; [|split]]].
    + rewrite map_app. cbn [map id].
      apply (Permutation_NoDup (Permutation_cons_append _ _)).
      now constructor.
    + rewrite map_app. cbn [map name].
      apply (Permutation_NoDup (Permutation_cons_append _ _)).
      constructor; [|exact Hnm].
      intros (o & Eo & Ho)%in_map_iff. apply Hn. exists o. split; [exact Ho|].
      now apply String.eqb_eq.
    + intros _. split; [|exact Eblank]. apply in_or_app. right. now left.
    + now intros [].
    + intros (o & Ho & Eo & _). exfalso. apply Hn. exists o.
      split; [exact Ho|now apply String.eqb_eq].
Qed.

Lemma pickup_point_names_stay_unique_witness :
  NoDup (map name
           (pickup_points
              (snd (Catalog.handleSubmit Scenario.trimmed None Scenario.pickup2
                      "City Center" true Sample.db0)))).
Proof.
  destruct (pickup_point_names_stay_unique Scenario.trimmed None Scenario.pickup2
              "City Center" true Sample.db0 _ _
              ltac:(repeat constructor; cbn; intuition congruence)
              ltac:(repeat constructor; cbn; intuition congruence)
              eq_refl) as (_ & H & _).
  exact H.
Defined.

(** ** Search, status filter and export of the admin bookings page *)

Section BookingsPageFacts.
Import BookingsPage.

Lemma prefix_refl s : prefix s s = true.
Proof.
  induction s as [|c s IH]; [reflexivity|]. cbn [prefix].
  destruct (Ascii.ascii_dec c c); [exact IH|congruence].
Qed.

Lemma includes_refl s : includes s s = true.
Proof. destruct s; cbn [includes]; now rewrite prefix_refl. Qed.

Lemma count_append c s t : count c (s ++ t) = (count c s + count c t)%nat.
Proof.
  induction s as [|x s IH]; [reflexivity|]. cbn [append count]. rewrite IH. lia.
Qed.

Lemma count_concat c sep l :
  (count c (String.concat sep l) + count c sep
   = list_sum (map (count c) l) + List.length l * count c sep)%nat
  \/ l = [].
Proof.
  induction l as [|x l IH]; [now right|]. left.
  destruct IH as [IH| ->]; [|cbn; lia].
  destruct l as [|y l]; [cbn; lia|].
  change (String.concat sep (x :: y :: l)) with (x ++ sep ++ String.concat sep (y :: l)).
  rewrite !count_append. unfold list_sum in *.
  cbn [map fold_right List.length Nat.mul] in *. lia.
Qed.

Lemma filter_filter {A} (p q : A -> bool) l :
  filter p (filter q l) = filter (fun x => q x && p x) l.
Proof.
  induction l as [|x l IH]; [reflexivity|]. cbn [filter].
  destruct (q x); cbn [filter andb]; now rewrite IH.
Qed.

Lemma filter_true {A} (l : list A) : filter (fun _ => true) l = l.
Proof. induction l as [|x l IH]; [reflexivity|]. cbn. now rewrite IH. Qed.

End BookingsPageFacts.

(** X22. The list shown on the admin bookings page is the loaded list
    filtered by one test per booking, so it holds loaded bookings only, in
    their loaded order: the booking passes the search, when a term is typed,
    and has the chosen status, unless the filter is [all]. Without term and
    with [all] every booking is shown, and filtering the shown list again
    changes nothing. *)
Theorem filterBookings_shows :
  forall toLowerCase bookings searchTerm statusFilter,
    let shown := BookingsPage.filterBookings toLowerCase bookings searchTerm statusFilter in
    shown
    = filter (fun b => ((searchTerm =? "") || BookingsPage.matches toLowerCase searchTerm b)
                       && ((statusFilter =? "all")
                           || (Booking.status (BookingsPage.row b) =? statusFilter)))
             bookings
    /\ (forall b, In b shown ->
                  In b bookings
                  /\ (statusFilter <> "all" ->
                      Booking.status (BookingsPage.row b) = statusFilter))
    /\ BookingsPage.filterBookings toLowerCase bookings "" "all" = bookings
    /\ BookingsPage.filterBookings toLowerCase shown searchTerm statusFilter = shown.
Proof.
  intros lower bookings term st shown.
  assert (E : forall l,
             BookingsPage.filterBookings lower l term st
             = filter (fun b => ((term =? "") || BookingsPage.matches lower term b)
                                && ((st =? "all")
                                    || (Booking.status (BookingsPage.row b) =? st)))
                      l).
  { intros l. unfold BookingsPage.filterBookings.
    destruct (term =? ""), (st =? "all"); cbn [negb orb andb].
    - now rewrite filter_true.
    - reflexivity.
    - apply filter_ext. intros b. now rewrite andb_true_r.
    - apply filter_filter. }
  split; [apply E|]. split; [|split].
  - intros b Hb. unfold shown in Hb. rewrite E in Hb.
    apply filter_In in Hb as [Hin Hb]. split; [exact Hin|].
    intros Hst. apply andb_prop in Hb as [_ Hb].
    apply String.eqb_neq in Hst. rewrite Hst in Hb. now apply String.eqb_eq.
  - reflexivity.
  - unfold shown. rewrite !E, filter_filter. apply filter_ext.
    intros b. apply andb_diag.
Qed.

Lemma filterBookings_shows_witness :
  Booking.status (BookingForm.payload Sample.booking2 300 (Sample.kojo 2) 8000)
  = "pending".
Proof.
  destruct (filterBookings_shows Scenario.toLowerCase
              (map (fun r => BookingsPage.mkCard r None None None)
                   (bookings Sample.db_retaken))
              "" "pending") as (_ & H & _).
  apply (H (BookingsPage.mkCard
              (BookingForm.payload Sample.booking2 300 (Sample.kojo 2) 8000)
              None None None)); [now left|discriminate].
Defined.

(** X23. A booking is always found by what is stored for it: with the
    status filter on [all] or on its status, typing its full name, its email,
    its phone or its id as the search term shows it. *)
Theorem search_finds_own_booking :
  forall toLowerCase bookings b statusFilter searchTerm,
    In b bookings ->
    statusFilter = "all" \/ statusFilter = Booking.status (BookingsPage.row b) ->
    searchTerm = Booking.full_name (BookingsPage.row b)
    \/ searchTerm = Booking.email (BookingsPage.row b)
    \/ searchTerm = Booking.phone (BookingsPage.row b)
    \/ searchTerm = Booking.id (BookingsPage.row b) ->
    In b (BookingsPage.filterBookings toLowerCase bookings searchTerm statusFilter).
Proof.
  intros lower bookings b st term Hin Hst Hterm.
  assert (Hm : BookingsPage.matches lower term b = true).
  { unfold BookingsPage.matches.
    destruct Hterm as [ -> | [ -> | [ -> | -> ]]]; rewrite includes_refl;
      now rewrite ?orb_true_r. }
  assert (Hs : (st =? "all") || (Booking.status (BookingsPage.row b) =? st) = true).
  { destruct Hst as [->| ->]; [reflexivity|].
    rewrite String.eqb_refl. apply orb_true_r. }
  unfold BookingsPage.filterBookings.
  assert (H1 : In b (if negb (term =? "")
                     then filter (BookingsPage.matches lower term) bookings
                     else bookings)).
  { destruct (negb (term =? "")); [|exact Hin]. apply filter_In. now split. }
  destruct (st =? "all"); cbn [negb]; [exact H1|].
  apply filter_In. split; [exact H1|]. exact Hs.
Qed.

Lemma search_finds_own_booking_witness :
  In (BookingsPage.mkCard (BookingForm.payload Sample.booking2 300 (Sample.kojo 2) 8000)
        None None None)
     (BookingsPage.filterBookings Scenario.toLowerCase
        (map (fun r => BookingsPage.mkCard r None None None) (bookings Sample.db_retaken))
        "kojo@example.com" "pending").
Proof.
  apply search_finds_own_booking;
    [right; left; reflexivity|right; reflexivity|right; left; reflexivity].
Defined.

(** X24. The CSV export joins fields with commas and rows with line feeds
    and never quotes or escapes: a data row holds eleven separators plus one
    comma for every comma inside its twelve fields, against eleven in the
    header, and the file holds one line feed per booking plus one for every
    line feed inside a field. A comma in a name or a line feed in any field
    shifts the columns or splits the row. *)
Theorem export_never_quotes :
  forall toLocaleDateString bookings booking,
    BookingsPage.count "," (String.concat "," BookingsPage.header) = 11%nat
    /\ BookingsPage.count ","
         (String.concat "," (BookingsPage.fields toLocaleDateString booking))
       = (11 + list_sum (map (BookingsPage.count ",")
                             (BookingsPage.fields toLocaleDateString booking)))%nat
    /\ BookingsPage.count "010"
         (BookingsPage.exportBookings toLocaleDateString bookings)
       = (List.length bookings
          + list_sum
              (map (fun b =>
                      list_sum (map (BookingsPage.count "010")
                                    (BookingsPage.fields toLocaleDateString b)))
                   bookings))%nat.
Proof.
  intros date bookings booking. split; [reflexivity|]. split.
  - destruct (count_concat "," "," (BookingsPage.fields date booking)) as [H|H];
      [|discriminate].
    cbn [BookingsPage.fields List.length] in *.
    change (BookingsPage.count "," ",") with 1%nat in H. lia.
  - assert (R : forall b,
               BookingsPage.count "010"
                 (String.concat "," (BookingsPage.fields date b))
               = list_sum (map (BookingsPage.count "010") (BookingsPage.fields date b))).
    { intros b.
      destruct (count_concat "010" "," (BookingsPage.fields date b)) as [H|H];
        [|discriminate].
      change (BookingsPage.count "010" ",") with 0%nat in H. lia. }
    unfold BookingsPage.exportBookings.
    destruct (count_concat "010" BookingsPage.newline
                (String.concat "," BookingsPage.header
                 :: map (fun b => String.concat "," (BookingsPage.fields date b))
                      bookings)) as [H|H]; [|discriminate].
    change (BookingsPage.count "010" BookingsPage.newline) with 1%nat in H.
    cbn [map List.length] in H. rewrite length_map, map_map in H.
    change (list_sum (?x :: ?l)) with (x + list_sum l)%nat in H.
    change (BookingsPage.count "010" (String.concat "," BookingsPage.header))
      with 0%nat in H.
    rewrite (map_ext _ _ R) in H. lia.
Qed.

Section PageStateFacts.
Import BookingsPage.

Lemma but_updated_at_id r : Booking.id (but_updated_at r) = Booking.id r.
Proof. reflexivity. Qed.

Lemma but_updated_at_patched now p r c :
  but_updated_at r = but_updated_at c ->
  but_updated_at (new_row now p r) = but_updated_at (apply_patch p c).
Proof.
  intros E.
  change (but_updated_at (new_row now p r)) with (apply_patch p (but_updated_at r)).
  rewrite E. reflexivity.
Qed.

End PageStateFacts.

(** X28. The admin bookings page keeps showing what the database holds when
    the operator changes a status: if every card shows a stored booking, every
    card still does after [updateBookingStatus], whether the UPDATE was
    accepted, in which case the cards of that id show the new status, or
    refused, in which case page and database are as before. *)
Theorem bookings_page_stays_in_sync :
  forall now bookingId newStatus s,
    BookingsPage.in_sync s ->
    let r := BookingsPage.updateBookingStatus now bookingId newStatus s in
    BookingsPage.in_sync (snd r)
    /\ (fst r = AdminBookings.Success ->
        forall c, In c (fst (snd r)) ->
                  Booking.id (BookingsPage.row c) = bookingId ->
                  Booking.status (BookingsPage.row c) = newStatus)
    /\ (fst r = AdminBookings.Error -> snd r = s).
Proof.
  intros now i st [cards d] Hsync r. unfold r, BookingsPage.updateBookingStatus.
  unfold AdminBookings.updateBookingStatus.
  destruct (update_bookings now (mkPatch (Some st) None None) i d)
    as [e|[d' rows]] eqn:U; cbn [fst snd].
  - split; [exact Hsync|]. split; [discriminate|reflexivity].
  - apply update_bookings_inr in U as (-> & _). split; [|split; [|discriminate]].
    + intros c' Hc'. cbn [fst snd] in *.
      apply in_map_iff in Hc' as (c & <- & Hc).
      destruct (Hsync c Hc) as (r0 & Hr0 & E). cbn [fst snd] in *.
      assert (Hid : Booking.id r0 = Booking.id (BookingsPage.row c)).
      { now rewrite <- (but_updated_at_id r0), E. }
      exists (if hit i r0 then new_row now (mkPatch (Some st) None None) r0 else r0).
      split.
      * cbn [bookings with_bookings]. apply in_map_iff. now exists r0.
      * unfold hit. rewrite Hid.
        destruct (Booking.id (BookingsPage.row c) =? i); [|exact E].
        cbn [BookingsPage.with_status BookingsPage.row].
        now apply but_updated_at_patched.
    + intros _ c' Hc' Hid. cbn [fst snd] in Hc'.
      apply in_map_iff in Hc' as (c & <- & Hc).
      destruct (Booking.id (BookingsPage.row c) =? i) eqn:E; [reflexivity|].
      apply String.eqb_neq in E. contradiction.
Qed.

Lemma bookings_page_stays_in_sync_witness :
  BookingsPage.in_sync
    (snd (BookingsPage.updateBookingStatus 400 Sample.booking1 "paid"
            (map (fun r => BookingsPage.mkCard r None None None)
                 (bookings Sample.db_pending),
             Sample.db_pending))).
Proof.
  apply (bookings_page_stays_in_sync 400 Sample.booking1 "paid"
           (map (fun r => BookingsPage.mkCard r None None None)
                (bookings Sample.db_pending),
            Sample.db_pending)).
  intros c [<-|[]]. eexists. split; [now left|reflexivity].
Defined.

(** ** Create-payment function *)

Section CreatePaymentFacts.
Import Js CreatePayment.

Variable env : string -> option string.
Variable le_zero : json -> bool.
Variable rounded : json -> json.
Variable provider : initiate -> option (bool * json).

(** What a request must carry for the provider to be called. *)
Lemma try_block_calls req payload call :
  In call (calls (try_block env le_zero rounded provider req payload)) ->
  calls (try_block env le_zero rounded provider req payload) = [call]
  /\ exists bookingId amount,
       field payload "bookingId" = Some bookingId
       /\ truthy (Some bookingId) = true
       /\ field payload "amount" = Some amount
       /\ truthy (Some amount) = true
       /\ le_zero amount = false
       /\ clientReference call = bookingId
       /\ totalAmount call = rounded amount
       /\ client_id call = getenv env "HUBTEL_CLIENT_ID"
       /\ client_secret call = getenv env "HUBTEL_CLIENT_SECRET"
       /\ merchantAccountNumber call = getenv env "HUBTEL_MERCHANT_NUMBER"
       /\ client_id call <> "" /\ client_secret call <> ""
       /\ merchantAccountNumber call <> ""
       /\ callbackUrl call
          = "https://llrumtjljzzhvqfxowpb.functions.supabase.co/hubtel-webhook"
       /\ cancellationUrl call = returnUrl call.
Proof.
  unfold try_block.
  destruct (field payload "bookingId") as [bookingId|]; [|intros []].
  destruct (field payload "amount") as [amount|]; [|intros []].
  destruct (truthy (Some bookingId)) eqn:Tb; cbn [negb orb]; [|intros []].
  destruct (truthy (Some amount)) eqn:Ta; cbn [negb orb]; [|intros []].
  destruct (le_zero amount) eqn:Lz; [intros []|].
  cbv zeta.
  destruct (getenv env "HUBTEL_CLIENT_ID" =? "") eqn:E1; cbn [orb]; [intros []|].
  destruct (getenv env "HUBTEL_CLIENT_SECRET" =? "") eqn:E2; cbn [orb]; [intros []|].
  destruct (getenv env "HUBTEL_MERCHANT_NUMBER" =? "") eqn:E3; [intros []|].
  apply String.eqb_neq in E1, E2, E3.
  set (c := mkInitiate _ _ _ _ _ _ _ _ _ _ _ _).
  assert (G : forall o, calls o = [c] -> In call (calls o) ->
                        calls o = [call]
                        /\ exists bookingId0 amount0,
                             Some bookingId = Some bookingId0
                             /\ truthy (Some bookingId0) = true
                             /\ Some amount = Some amount0
                             /\ truthy (Some amount0) = true
                             /\ le_zero amount0 = false
                             /\ clientReference call = bookingId0
                             /\ totalAmount call = rounded amount0
                             /\ client_id call = getenv env "HUBTEL_CLIENT_ID"
                             /\ client_secret call = getenv env "HUBTEL_CLIENT_SECRET"
                             /\ merchantAccountNumber call
                                = getenv env "HUBTEL_MERCHANT_NUMBER"
                             /\ client_id call <> "" /\ client_secret call <> ""
                             /\ merchantAccountNumber call <> ""
                             /\ callbackUrl call
                                = "https://llrumtjljzzhvqfxowpb.functions.supabase.co/hubtel-webhook"
                             /\ cancellationUrl call = returnUrl call).
  { intros o Ho Hin. rewrite Ho in Hin |- *. destruct Hin as [<-|[]].
    split; [reflexivity|]. exists bookingId, amount. now repeat split. }
  destruct (provider c) as [[ok data]|]; [|now apply G].
  cbv zeta. destruct (or_else (optional (optional (Some data) "data") "checkoutUrl") _);
    [|now apply G].
  destruct (negb ok || _ || _); now apply G.
Qed.

End CreatePaymentFacts.

(** X25. The create-payment function contacts the provider at most once per
    request, and only for a payload whose [bookingId] and [amount] are truthy,
    whose amount is not at most zero, and with all three credentials set. The
    call then carries the booking id as client reference, the rounded amount,
    the credentials of the environment and the webhook as callback, with one
    URL for return and cancellation. An answer 400 means no call was made. *)
Theorem payment_call_guarded :
  forall env le_zero rounded provider req call,
    let o := CreatePayment.serve env le_zero rounded provider req in
    In call (CreatePayment.calls o) ->
    CreatePayment.calls o = [call]
    /\ CreatePayment.http_status (CreatePayment.response o) <> 400
    /\ exists payload bookingId amount,
         CreatePayment.body req = Some payload
         /\ CreatePayment.field payload "bookingId" = Some bookingId
         /\ Js.truthy (Some bookingId) = true
         /\ CreatePayment.field payload "amount" = Some amount
         /\ Js.truthy (Some amount) = true
         /\ le_zero amount = false
         /\ CreatePayment.clientReference call = bookingId
         /\ CreatePayment.totalAmount call = rounded amount
         /\ CreatePayment.client_id call = CreatePayment.getenv env "HUBTEL_CLIENT_ID"
         /\ CreatePayment.client_secret call
            = CreatePayment.getenv env "HUBTEL_CLIENT_SECRET"
         /\ CreatePayment.merchantAccountNumber call
            = CreatePayment.getenv env "HUBTEL_MERCHANT_NUMBER"
         /\ CreatePayment.client_id call <> ""
         /\ CreatePayment.client_secret call <> ""
         /\ CreatePayment.merchantAccountNumber call <> ""
         /\ CreatePayment.callbackUrl call
            = "https://llrumtjljzzhvqfxowpb.functions.supabase.co/hubtel-webhook"
         /\ CreatePayment.cancellationUrl call = CreatePayment.returnUrl call.
Proof.
  intros env le_zero rounded provider req call o. unfold o, CreatePayment.serve.
  destruct (CreatePayment.method req =? "OPTIONS"); [intros []|].
  destruct (CreatePayment.body req) as [payload|]; [|intros []].
  assert (G : In call (CreatePayment.calls
                         (CreatePayment.try_block env le_zero rounded provider req payload)) ->
              CreatePayment.calls
                (CreatePayment.try_block env le_zero rounded provider req payload) = [call]
              /\ CreatePayment.http_status
                   (CreatePayment.response
                      (CreatePayment.try_block env le_zero rounded provider req payload))
                 <> 400
              /\ exists payload0 bookingId amount,
                   Some payload = Some payload0
                   /\ CreatePayment.field payload0 "bookingId" = Some bookingId
                   /\ Js.truthy (Some bookingId) = true
                   /\ CreatePayment.field payload0 "amount" = Some amount
                   /\ Js.truthy (Some amount) = true
                   /\ le_zero amount = false
                   /\ CreatePayment.clientReference call = bookingId
                   /\ CreatePayment.totalAmount call = rounded amount
                   /\ CreatePayment.client_id call
                      = CreatePayment.getenv env "HUBTEL_CLIENT_ID"
                   /\ CreatePayment.client_secret call
                      = CreatePayment.getenv env "HUBTEL_CLIENT_SECRET"
                   /\ CreatePayment.merchantAccountNumber call
                      = CreatePayment.getenv env "HUBTEL_MERCHANT_NUMBER"
                   /\ CreatePayment.client_id call <> ""
                   /\ CreatePayment.client_secret call <> ""
                   /\ CreatePayment.merchantAccountNumber call <> ""
                   /\ CreatePayment.callbackUrl call
                      = "https://llrumtjljzzhvqfxowpb.functions.supabase.co/hubtel-webhook"
                   /\ CreatePayment.cancellationUrl call = CreatePayment.returnUrl call).
  { intros Hin. pose proof (try_block_calls env le_zero rounded provider req payload call Hin)
      as (Hc & bookingId & amount & H).
    split; [exact Hc|]. split.
    - intros H400. revert Hc H400. unfold CreatePayment.try_block.
      destruct H as (-> & -> & -> & -> & -> & _). cbn [negb orb]. cbv zeta.
      destruct (_ || _ || _); [discriminate|].
      destruct (provider _) as [[ok data]|]; [|discriminate].
      cbv zeta. destruct (CreatePayment.or_else
                            (CreatePayment.optional
                               (CreatePayment.optional (Some data) "data") "checkoutUrl") _);
        [|discriminate].
      destruct (negb ok || _ || _); discriminate.
    - exists payload, bookingId, amount. split; [reflexivity|exact H]. }
  destruct payload; try exact G. intros [].
Qed.

Lemma payment_call_guarded_witness :
  exists call,
    CreatePayment.calls
      (CreatePayment.serve Scenario.payment_env Scenario.le_zero_whole
         Scenario.rounded_whole Scenario.provider_up Scenario.pay_request) = [call]
    /\ CreatePayment.clientReference call = Js.JStr Sample.booking1
    /\ CreatePayment.totalAmount call = Js.JNum 80.
Proof.
  eexists.
  destruct (payment_call_guarded Scenario.payment_env Scenario.le_zero_whole
              Scenario.rounded_whole Scenario.provider_up Scenario.pay_request _
              (or_introl eq_refl)) as (H & _ & _).
  split; [exact H|]. split; reflexivity.
Defined.

(** X26. A checkout URL is only ever returned on the provider's word: when
    the function answers with a URL, the status is 200, nothing was logged as
    an error, exactly one call was made, the provider answered it with an OK
    status and response code "0000", and the URL is the truthy checkout URL of
    that answer, [data.checkoutUrl] before [Data.CheckoutUrl]. *)
Theorem checkout_url_from_provider :
  forall env le_zero rounded provider req u,
    let o := CreatePayment.serve env le_zero rounded provider req in
    CreatePayment.http_body (CreatePayment.response o) = Some (CreatePayment.url u) ->
    CreatePayment.http_status (CreatePayment.response o) = 200
    /\ Js.truthy (Some u) = true
    /\ CreatePayment.console_error o = []
    /\ exists call data,
         CreatePayment.calls o = [call]
         /\ provider call = Some (true, data)
         /\ CreatePayment.or_else
              (CreatePayment.optional (Some data) "responseCode")
              (CreatePayment.optional (Some data) "ResponseCode")
            = Some (Js.JStr "0000")
         /\ CreatePayment.or_else
              (CreatePayment.optional (CreatePayment.optional (Some data) "data")
                 "checkoutUrl")
              (CreatePayment.optional (CreatePayment.optional (Some data) "Data")
                 "CheckoutUrl")
            = Some u.
Proof.
  intros env le_zero rounded provider req u o. unfold o, CreatePayment.serve.
  destruct (CreatePayment.method req =? "OPTIONS"); [discriminate|].
  destruct (CreatePayment.body req) as [payload|]; [|discriminate].
  assert (G : CreatePayment.http_body
                (CreatePayment.response
                   (CreatePayment.try_block env le_zero rounded provider req payload))
              = Some (CreatePayment.url u) ->
              CreatePayment.http_status
                (CreatePayment.response
                   (CreatePayment.try_block env le_zero rounded provider req payload))
              = 200
              /\ Js.truthy (Some u) = true
              /\ CreatePayment.console_error
                   (CreatePayment.try_block env le_zero rounded provider req payload) = []
              /\ exists call data,
                   CreatePayment.calls
                     (CreatePayment.try_block env le_zero rounded provider req payload)
                   = [call]
                   /\ provider call = Some (true, data)
                   /\ CreatePayment.or_else
                        (CreatePayment.optional (Some data) "responseCode")
                        (CreatePayment.optional (Some data) "ResponseCode")
                      = Some (Js.JStr "0000")
                   /\ CreatePayment.or_else
                        (CreatePayment.optional (CreatePayment.optional (Some data) "data")
                           "checkoutUrl")
                        (CreatePayment.optional (CreatePayment.optional (Some data) "Data")
                           "CheckoutUrl")
                      = Some u).
  { unfold CreatePayment.try_block.
    destruct (CreatePayment.field payload "bookingId") as [bookingId|]; [|discriminate].
    destruct (CreatePayment.field payload "amount") as [amount|]; [|discriminate].
    destruct (_ || _ || le_zero amount); [discriminate|]. cbv zeta.
    destruct (_ || _ || _); [discriminate|].
    set (c := CreatePayment.mkInitiate _ _ _ _ _ _ _ _ _ _ _ _).
    destruct (provider c) as [[ok data]|] eqn:P; [|discriminate]. cbv zeta.
    destruct (CreatePayment.or_else
                (CreatePayment.optional (CreatePayment.optional (Some data) "data")
                   "checkoutUrl") _) as [u0|] eqn:U; [|discriminate].
    destruct (CreatePayment.or_else (CreatePayment.optional (Some data) "responseCode") _)
      as [[| | |code| |]|] eqn:C; cbn [negb orb];
      try (rewrite orb_true_r; discriminate).
    destruct ok; cbn [negb orb]; [|discriminate].
    destruct (code =? "0000") eqn:E0; cbn [negb orb]; [|discriminate].
    destruct (Js.truthy (Some u0)) eqn:T; cbn [negb]; [|discriminate].
    cbn [CreatePayment.respond CreatePayment.response CreatePayment.http_body
         CreatePayment.http_status CreatePayment.console_error CreatePayment.calls].
    intros [= <-]. apply String.eqb_eq in E0. subst code.
    split; [reflexivity|]. split; [exact T|]. split; [reflexivity|].
    exists c, data. now repeat split. }
  destruct payload; try exact G. discriminate.
Qed.

Lemma checkout_url_from_provider_witness :
  CreatePayment.http_status
    (CreatePayment.response
       (CreatePayment.serve Scenario.payment_env Scenario.le_zero_whole
          Scenario.rounded_whole Scenario.provider_up Scenario.pay_request))
  = 200.
Proof.
  apply (checkout_url_from_provider Scenario.payment_env Scenario.le_zero_whole
           Scenario.rounded_whole Scenario.provider_up Scenario.pay_request
           (Js.JStr "https://pay.hubtel.com/7ab1")).
  reflexivity.
Defined.

(** X27. The create-payment function turns a request down before any
    contact with the provider: a body that is not JSON or is [null] is
    answered 500 from the catch; a payload whose [bookingId] or [amount] is
    missing or falsy, or whose amount is at most zero, is answered 400 with
    "Invalid payload", whatever the credentials are; a valid payload with one
    of the three credentials unset or empty is answered 500 with "Missing
    Hubtel credentials". *)
Theorem payment_request_rejected :
  forall env le_zero rounded provider origin,
    let post body :=
      CreatePayment.serve env le_zero rounded provider
        (CreatePayment.mkRequest "POST" origin body) in
    post None
    = CreatePayment.respond 500 (CreatePayment.error_message CreatePayment.Not_JSON) []
        ["hubtel-create-payment exception"]
    /\ post (Some Js.JNull)
       = CreatePayment.respond 500 (CreatePayment.error_message CreatePayment.Null_body) []
           ["hubtel-create-payment exception"]
    /\ (forall payload,
          payload <> Js.JNull ->
          Js.truthy (CreatePayment.field payload "bookingId") = false
          \/ Js.truthy (CreatePayment.field payload "amount") = false
          \/ (exists a, CreatePayment.field payload "amount" = Some a /\ le_zero a = true) ->
          post (Some payload) = CreatePayment.respond 400 CreatePayment.Invalid_payload [] [])
    /\ (forall payload bookingId amount,
          CreatePayment.field payload "bookingId" = Some bookingId ->
          CreatePayment.field payload "amount" = Some amount ->
          Js.truthy (Some bookingId) = true ->
          Js.truthy (Some amount) = true ->
          le_zero amount = false ->
          CreatePayment.getenv env "HUBTEL_CLIENT_ID" = ""
          \/ CreatePayment.getenv env "HUBTEL_CLIENT_SECRET" = ""
          \/ CreatePayment.getenv env "HUBTEL_MERCHANT_NUMBER" = "" ->
          post (Some payload)
          = CreatePayment.respond 500 CreatePayment.Missing_Hubtel_credentials [] []).
Proof.
  intros env le_zero rounded provider origin post. unfold post.
  split; [reflexivity|]. split; [reflexivity|]. split.
  - intros payload Hnull H.
    assert (G : CreatePayment.try_block env le_zero rounded provider
                  (CreatePayment.mkRequest "POST" origin (Some payload)) payload
                = CreatePayment.respond 400 CreatePayment.Invalid_payload [] []).
    { unfold CreatePayment.try_block.
      destruct (CreatePayment.field payload "bookingId") as [b|]; [|reflexivity].
      destruct (CreatePayment.field payload "amount") as [a|]; [|reflexivity].
      destruct H as [H|[H|(a0 & [= <-] & H)]]; rewrite H; cbn [negb orb];
        now rewrite ?orb_true_r. }
    unfold CreatePayment.serve. cbn [CreatePayment.method CreatePayment.body].
    destruct payload; try exact G. congruence.
  - intros payload b a Hb Ha Tb Ta Lz Hc.
    assert (G : CreatePayment.try_block env le_zero rounded provider
                  (CreatePayment.mkRequest "POST" origin (Some payload)) payload
                = CreatePayment.respond 500 CreatePayment.Missing_Hubtel_credentials [] []).
    { unfold CreatePayment.try_block. rewrite Hb, Ha, Tb, Ta, Lz. cbn [negb orb].
      cbv zeta. destruct Hc as [-> |[-> | ->]]; cbn [String.eqb orb];
        now rewrite ?orb_true_r. }
    unfold CreatePayment.serve. cbn [CreatePayment.method CreatePayment.body].
    destruct payload; try exact G. discriminate.
Qed.

Lemma payment_request_rejected_witness :
  CreatePayment.serve Scenario.payment_env Scenario.le_zero_whole
    Scenario.rounded_whole Scenario.provider_up
    (CreatePayment.mkRequest "POST" None
       (Some (Js.JObj [("bookingId", Js.JStr Sample.booking1); ("amount", Js.JNum 0)])))
  = CreatePayment.respond 400 CreatePayment.Invalid_payload [] [].
Proof.
  apply (proj1 (proj2 (proj2 (payment_request_rejected Scenario.payment_env
                                Scenario.le_zero_whole Scenario.rounded_whole
                                Scenario.provider_up None))));
    [discriminate|right; left; reflexivity].
Defined.

(** ** Seed data *)

Section SeedFacts.
Import Seed.

Lemma state_eta s : mkState (bus_types s) (bus_type_id s) (tables s) = s.
Proof. now destruct s. Qed.

Lemma with_seats_same d : with_seats d (seats d ++ [])%list = d.
Proof. destruct d. unfold with_seats. cbn. now rewrite app_nil_r. Qed.

Lemma seed_bus_types_inr gen s s' :
  seed_bus_types gen s = inr s' ->
  existsb (fun t => BusType.name t =? Economical) (bus_types s') = true
  /\ bus_type_id s' = bus_type_id s /\ tables s' = tables s
  /\ exists e, bus_types s' = (bus_types s ++ e)%list.
Proof.
  unfold seed_bus_types.
  destruct (existsb _ (bus_types s)) eqn:E.
  - intros [= <-]. repeat split; try exact E. exists []. now rewrite app_nil_r.
  - destruct (negb _); [discriminate|]. intros [= <-]. cbn [bus_types bus_type_id tables].
    repeat split; try (now eexists).
    rewrite existsb_app. cbn. apply orb_true_r.
Qed.

Lemma seed_bus_types_noop gen s :
  existsb (fun t => BusType.name t =? Economical) (bus_types s) = true ->
  seed_bus_types gen s = inr s.
Proof. unfold seed_bus_types. now intros ->. Qed.

Lemma seed_buses_inr gen s s' :
  seed_buses gen s = inr s' ->
  bus_types s' = bus_types s
  /\ (buses (tables s') <> []
      \/ find (fun t => BusType.name t =? Economical) (bus_types s') = None)
  /\ pickup_points (tables s') = pickup_points (tables s)
  /\ destinations (tables s') = destinations (tables s)
  /\ referrals (tables s') = referrals (tables s)
  /\ seats (tables s') = seats (tables s)
  /\ bookings (tables s') = bookings (tables s)
  /\ (exists e, buses (tables s') = (buses (tables s) ++ e)%list)
  /\ (buses (tables s) <> [] -> s' = s).
Proof.
  unfold seed_buses. destruct (buses (tables s)) as [|b bs] eqn:B.
  - destruct (find _ (bus_types s)) as [t|] eqn:F.
    + destruct (negb _); [discriminate|]. intros [= <-].
      cbn [bus_types tables buses with_buses pickup_points destinations referrals
           seats bookings].
      repeat split; try (left; discriminate); try (now eexists); congruence.
    + intros [= <-]. rewrite B.
      repeat split; try (now right); try (now exists []); congruence.
  - intros [= <-]. rewrite B. repeat split; try (left; discriminate).
    exists []. now rewrite app_nil_r.
Qed.

Lemma seed_buses_noop gen s :
  buses (tables s) <> []
  \/ find (fun t => BusType.name t =? Economical) (bus_types s) = None ->
  seed_buses gen s = inr s.
Proof.
  unfold seed_buses. destruct (buses (tables s)); [|reflexivity].
  intros [H|H]; [congruence|]. now rewrite H.
Qed.

Lemma seats_wanted_bus s x :
  In x (seats_wanted s) ->
  exists b, In b (buses (tables s)) /\ id b = fst x /\ name b = "ATT-01".
Proof.
  unfold seats_wanted. intros ([b t] & Hb & Hx)%in_flat_map. cbn [fst snd] in Hx.
  destruct (name b =? "ATT-01") eqn:N; [|destruct Hx].
  apply in_flat_map in Hx as (bt & _ & Hx).
  destruct (BusType.id bt =? t); [|destruct Hx].
  apply in_map_iff in Hx as (n & <- & _).
  exists b. split; [now apply in_combine_l in Hb|].
  split; [reflexivity|now apply String.eqb_eq].
Qed.

Lemma seed_seats_inr gen s s' :
  seed_seats gen s = inr s' ->
  bus_types s' = bus_types s /\ bus_type_id s' = bus_type_id s
  /\ buses (tables s') = buses (tables s)
  /\ pickup_points (tables s') = pickup_points (tables s)
  /\ destinations (tables s') = destinations (tables s)
  /\ referrals (tables s') = referrals (tables s)
  /\ bookings (tables s') = bookings (tables s)
  /\ (exists e, seats (tables s') = (seats (tables s) ++ e)%list)
  /\ (found_seats s' = true \/ (seats_wanted s' = [] /\ found_seats s' = false))
  /\ (found_seats s = true -> s' = s).
Proof.
  unfold seed_seats. destruct (found_seats s) eqn:F.
  - intros [= <-]. repeat split; try (now left).
    exists []. now rewrite app_nil_r.
  - cbv zeta. destruct (negb (pkey _ _ _)); [discriminate|].
    destruct (negb (seats_key _ _)); [discriminate|]. intros [= <-].
    cbn [bus_types bus_type_id tables buses with_seats pickup_points destinations
         referrals seats bookings].
    repeat split; try (now eexists); try discriminate.
    destruct (seats_wanted s) as [|x w] eqn:W.
    + right. cbn [List.length seq map combine].
      rewrite with_seats_same, state_eta. now split.
    + left. unfold found_seats.
      cbn [tables seats buses with_seats List.length seq map combine].
      rewrite existsb_app. cbn [map existsb Seat.bus_id fst snd].
      destruct (seats_wanted_bus s x) as (b & Hb & Hid & Hn); [rewrite W; now left|].
      replace (existsb _ (buses (tables s))) with true; [now rewrite !orb_true_r|].
      symmetry. apply existsb_exists. exists b. split; [exact Hb|].
      now rewrite Hid, Hn, !String.eqb_refl.
Qed.

Lemma seed_seats_noop gen s :
  found_seats s = true \/ (seats_wanted s = [] /\ found_seats s = false) ->
  seed_seats gen s = inr s.
Proof.
  unfold seed_seats. intros [->|[W ->]]; [reflexivity|].
  rewrite W. cbn. now rewrite with_seats_same, state_eta.
Qed.

Lemma reads_seats_found s s' :
  reads_seats s' = reads_seats s ->
  found_seats s' = found_seats s /\ seats_wanted s' = seats_wanted s.
Proof.
  unfold reads_seats, found_seats, seats_wanted. intros [= -> -> -> ->]. now split.
Qed.

Lemma seed_pickup_points_inr gen s s' :
  seed_pickup_points gen s = inr s' ->
  reads_seats s' = reads_seats s
  /\ pickup_points (tables s') <> []
  /\ destinations (tables s') = destinations (tables s)
  /\ referrals (tables s') = referrals (tables s)
  /\ bookings (tables s') = bookings (tables s)
  /\ (pickup_points (tables s) <> [] -> s' = s).
Proof.
  unfold seed_pickup_points. destruct (pickup_points (tables s)) eqn:P.
  - destruct (negb _); [discriminate|]. intros [= <-]. now repeat split.
  - intros [= <-]. rewrite P. now repeat split.
Qed.

Lemma seed_destinations_inr gen s s' :
  seed_destinations gen s = inr s' ->
  reads_seats s' = reads_seats s
  /\ pickup_points (tables s') = pickup_points (tables s)
  /\ destinations (tables s') <> []
  /\ referrals (tables s') = referrals (tables s)
  /\ bookings (tables s') = bookings (tables s)
  /\ (destinations (tables s) <> [] -> s' = s).
Proof.
  unfold seed_destinations. destruct (destinations (tables s)) eqn:P.
  - destruct (negb _); [discriminate|]. intros [= <-]. now repeat split.
  - intros [= <-]. rewrite P. now repeat split.
Qed.

Lemma seed_referrals_inr gen s s' :
  seed_referrals gen s = inr s' ->
  reads_seats s' = reads_seats s
  /\ pickup_points (tables s') = pickup_points (tables s)
  /\ destinations (tables s') = destinations (tables s)
  /\ referrals (tables s') <> []
  /\ bookings (tables s') = bookings (tables s)
  /\ (referrals (tables s) <> [] -> s' = s).
Proof.
  unfold seed_referrals. destruct (referrals (tables s)) eqn:P.
  - destruct (negb _); [discriminate|]. intros [= <-]. now repeat split.
  - intros [= <-]. rewrite P. now repeat split.
Qed.

Lemma seed_pickup_points_noop gen s :
  pickup_points (tables s) <> [] -> seed_pickup_points gen s = inr s.
Proof. unfold seed_pickup_points. now destruct (pickup_points (tables s)). Qed.

Lemma seed_destinations_noop gen s :
  destinations (tables s) <> [] -> seed_destinations gen s = inr s.
Proof. unfold seed_destinations. now destruct (destinations (tables s)). Qed.

Lemma seed_referrals_noop gen s :
  referrals (tables s) <> [] -> seed_referrals gen s = inr s.
Proof. unfold seed_referrals. now destruct (referrals (tables s)). Qed.

Lemma seed_inr gen s s6 :
  seed gen s = inr s6 ->
  exists s1 s2 s3 s4 s5,
    seed_bus_types gen s = inr s1 /\ seed_buses gen s1 = inr s2
    /\ seed_seats gen s2 = inr s3 /\ seed_pickup_points gen s3 = inr s4
    /\ seed_destinations gen s4 = inr s5 /\ seed_referrals gen s5 = inr s6.
Proof.
  unfold seed, Js.bind.
  destruct (seed_bus_types gen s) as [|s1] eqn:E1; [discriminate|].
  destruct (seed_buses gen s1) as [|s2] eqn:E2; [discriminate|].
  destruct (seed_seats gen s2) as [|s3] eqn:E3; [discriminate|].
  destruct (seed_pickup_points gen s3) as [|s4] eqn:E4; [discriminate|].
  destruct (seed_destinations gen s4) as [|s5] eqn:E5; [discriminate|].
  intros H. exists s1, s2, s3, s4, s5. repeat split; assumption.
Qed.

End SeedFacts.

(** X29. The seed block of the migration is idempotent and only adds: run
    again on the database a first run left, with whatever ids would be drawn,
    it changes nothing; and a run keeps every booking and every row it found,
    adding bus types, buses and seats at the end of their tables and filling
    the pickup points, destinations, referrals and buses only when the table
    was empty. *)
Theorem seed_idempotent :
  forall gen gen' s s',
    Seed.seed gen s = inr s' ->
    Seed.seed gen' s' = inr s'
    /\ bookings (Seed.tables s') = bookings (Seed.tables s)
    /\ (exists e, Seed.bus_types s' = (Seed.bus_types s ++ e)%list)
    /\ (exists e, seats (Seed.tables s') = (seats (Seed.tables s) ++ e)%list)
    /\ (buses (Seed.tables s) <> [] ->
        buses (Seed.tables s') = buses (Seed.tables s))
    /\ (pickup_points (Seed.tables s) <> [] ->
        pickup_points (Seed.tables s') = pickup_points (Seed.tables s))
    /\ (destinations (Seed.tables s) <> [] ->
        destinations (Seed.tables s') = destinations (Seed.tables s))
    /\ (referrals (Seed.tables s) <> [] ->
        referrals (Seed.tables s') = referrals (Seed.tables s)).
Proof.
  intros gen gen' s s6 H.
  apply seed_inr in H as (s1 & s2 & s3 & s4 & s5 & H1 & H2 & H3 & H4 & H5 & H6).
  apply seed_bus_types_inr in H1 as (A1 & A2 & A3 & A4).
  apply seed_buses_inr in H2 as (B1 & B2 & B3 & B4 & B5 & B6 & B7 & B8 & B9).
  apply seed_seats_inr in H3 as (C1 & C2 & C3 & C4 & C5 & C6 & C7 & C8 & C9 & C10).
  apply seed_pickup_points_inr in H4 as (D1 & D2 & D3 & D4 & D5 & D6).
  apply seed_destinations_inr in H5 as (E1 & E2 & E3 & E4 & E5 & E6).
  apply seed_referrals_inr in H6 as (F1 & F2 & F3 & F4 & F5 & F6).
  assert (R : Seed.reads_seats s6 = Seed.reads_seats s3) by congruence.
  pose proof R as R'. unfold Seed.reads_seats in R'.
  injection R' as R1 R2 R3 R4.
  split; [|split; [|split; [|split; [|split; [|split; [|split]]]]]].
  - unfold Seed.seed, Js.bind.
    rewrite seed_bus_types_noop by congruence.
    rewrite seed_buses_noop
      by (destruct B2 as [B2|B2]; [left|right]; congruence).
    rewrite seed_seats_noop
      by (destruct (reads_seats_found _ _ R) as [-> ->]; exact C9).
    rewrite seed_pickup_points_noop by congruence.
    rewrite seed_destinations_noop by congruence.
    apply seed_referrals_noop. exact F4.
  - congruence.
  - destruct A4 as [e A4]. exists e. congruence.
  - destruct C8 as [e C8]. exists e. congruence.
  - intros Hb. rewrite A3 in B9. rewrite R3, C3, (B9 Hb). now rewrite A3.
  - intros Hp. rewrite F2, E2.
    assert (Hp3 : pickup_points (Seed.tables s3) = pickup_points (Seed.tables s))
      by congruence.
    rewrite <- Hp3 in Hp. now rewrite (D6 Hp).
  - intros Hd. rewrite F3.
    assert (Hd4 : destinations (Seed.tables s4) = destinations (Seed.tables s))
      by congruence.
    rewrite <- Hd4 in Hd. now rewrite (E6 Hd).
  - intros Hr.
    assert (Hr5 : referrals (Seed.tables s5) = referrals (Seed.tables s))
      by congruence.
    rewrite <- Hr5 in Hr. now rewrite (F6 Hr).
Qed.

Lemma seed_idempotent_witness :
  Seed.seed Scenario.gen Scenario.seeded = inr Scenario.seeded.
Proof.
  apply (seed_idempotent Scenario.gen Scenario.gen Seed.empty).
  vm_compute. reflexivity.
Defined.

Section FreshFacts.

Lemma order_by_seat_number_id l :
  StronglySorted by_seat_number l -> order_by_seat_number l = l.
Proof.
  induction 1 as [|x l Hs IH Hall]; [reflexivity|].
  cbn [order_by_seat_number]. rewrite IH. destruct l as [|y l]; [reflexivity|].
  cbn [insert_by_seat_number]. apply Forall_inv in Hall. unfold by_seat_number in Hall.
  apply Z.leb_le in Hall. now rewrite Hall.
Qed.

(** The seat map of a bus whose seats are all active and stored in order
    of number, in a database without bookings. *)
Lemma get_seat_status_unbooked viewer B d ns :
  bookings d = [] ->
  map (fun s => (Seat.bus_id s, Seat.seat_number s, Seat.active s)) (seats d)
  = map (fun n => (B, n, true)) ns ->
  StronglySorted Z.le ns ->
  get_seat_status viewer B d = map (fun n => SeatStatus.mk n true "available") ns.
Proof.
  intros Hb Hs Hsorted. unfold get_seat_status.
  assert (Hb' : bookings (as_seen_by viewer d) = []).
  { unfold as_seen_by. destruct (Policy.bookings_select viewer); [exact Hb|reflexivity]. }
  assert (Hall : forall s, In s (seats d) -> Seat.bus_id s = B /\ Seat.active s = true).
  { intros s Hin.
    apply (in_map (fun s => (Seat.bus_id s, Seat.seat_number s, Seat.active s))) in Hin.
    rewrite Hs in Hin. apply in_map_iff in Hin as (n & [= <- _ <-] & _). now split. }
  assert (Hf : filter (fun s => Seat.bus_id s =? B) (seats d) = seats d).
  { clear Hs. induction (seats d) as [|x l IH]; [reflexivity|]. cbn [filter].
    destruct (Hall x (or_introl eq_refl)) as [-> _]. rewrite String.eqb_refl.
    f_equal. apply IH. intros s Hin. apply Hall. now right. }
  rewrite Hf.
  assert (Hm : map (seat_status_of (as_seen_by viewer d)) (seats d)
               = map (fun n => SeatStatus.mk n true "available") ns).
  { transitivity (map (fun t : uuid * Z * bool =>
                         SeatStatus.mk (snd (fst t)) (snd t) "available")
                      (map (fun s => (Seat.bus_id s, Seat.seat_number s, Seat.active s))
                           (seats d))).
    - rewrite map_map. apply map_ext. intros s.
      unfold seat_status_of, exists_active_booking. now rewrite Hb'.
    - rewrite Hs, map_map. reflexivity. }
  rewrite Hm. apply order_by_seat_number_id.
  clear - Hsorted. induction Hsorted as [|x l Hs IH Hall]; cbn [map]; constructor;
    [exact IH|].
  rewrite Forall_forall in *. intros r (n & <- & Hn)%in_map_iff. exact (Hall n Hn).
Qed.

End FreshFacts.

(** X30. On a freshly migrated database the seed leaves one bus, ATT-01,
    with seats 1 to 32, all active: its seat map, whoever reads it, shows
    them in order, all available and all clickable, in eight rows of four; two pickup points, two
    destinations at 80.00 and 120.00 and three referrals are stored. *)
Theorem seed_fresh_database :
  forall gen s' viewer,
    Seed.seed gen Seed.empty = inr s' ->
    buses (Seed.tables s') = [mkNamed (gen 1%nat) "ATT-01" true]
    /\ get_seat_status viewer (gen 1%nat) (Seed.tables s')
       = map (fun n => SeatStatus.mk (Z.of_nat n) true "available") (seq 1 32)
    /\ List.length
         (SeatLayout.layout (get_seat_status viewer (gen 1%nat) (Seed.tables s')))
       = 8%nat
    /\ (forall r, In r (get_seat_status viewer (gen 1%nat) (Seed.tables s')) ->
                  SeatMap.SeatButton r = Some (SeatStatus.seat_number r))
    /\ map name (pickup_points (Seed.tables s')) = ["Main Campus"; "City Center"]
    /\ map (fun r => (Destination.name r, Destination.price r))
           (destinations (Seed.tables s'))
       = [("Kumasi", 8000); ("Accra", 12000)]
    /\ map name (referrals (Seed.tables s')) = ["SRC"; "Friend"; "Poster"]
    /\ bookings (Seed.tables s') = [].
Proof.
  intros gen s' viewer. unfold Seed.seed, Js.bind.
  unfold Seed.seed_bus_types. cbn -[Seed.pkey].
  destruct (negb (Seed.pkey _ _ _)); [discriminate|].
  unfold Seed.seed_buses. cbn -[Seed.pkey].
  destruct (negb (Seed.pkey _ _ _)); [discriminate|].
  unfold Seed.seed_seats, Seed.found_seats, Seed.seats_wanted.
  cbn -[Seed.pkey Seed.seats_key String.eqb].
  rewrite (String.eqb_refl (gen 0%nat)), (String.eqb_refl "ATT-01").
  cbn -[Seed.pkey Seed.seats_key].
  destruct (negb (Seed.pkey _ _ _)); [discriminate|].
  destruct (negb (Seed.seats_key _ _)); [discriminate|].
  unfold Seed.seed_pickup_points. cbn -[Seed.pkey].
  destruct (negb (Seed.pkey _ _ _)); [discriminate|].
  unfold Seed.seed_destinations. cbn -[Seed.pkey].
  destruct (negb (Seed.pkey _ _ _)); [discriminate|].
  unfold Seed.seed_referrals. cbn -[Seed.pkey].
  destruct (negb (Seed.pkey _ _ _)); [discriminate|].
  intros [= <-]. cbn [Seed.tables].
  match goal with
  | |- context [get_seat_status _ _ ?d] =>
      assert (Hmap : get_seat_status viewer (gen 1%nat) d
                     = map (fun n => SeatStatus.mk n true "available")
                           (map Z.of_nat (seq 1 32)))
  end.
  { apply get_seat_status_unbooked; [reflexivity|reflexivity|apply seq_sorted]. }
  rewrite Hmap.
  split; [reflexivity|]. split; [now rewrite map_map|].
  split; [reflexivity|]. split; [|now repeat split].
  intros r (n & <- & _)%in_map_iff. reflexivity.
Qed.

Lemma seed_fresh_database_witness :
  List.length
    (SeatLayout.layout
       (get_seat_status anon (Scenario.gen 1) (Seed.tables Scenario.seeded)))
  = 8%nat.
Proof.
  apply (seed_fresh_database Scenario.gen Scenario.seeded anon).
  vm_compute. reflexivity.
Defined.
